(** * DeepMind Earth Enhancer: a shallow embedding and its properties

    The development follows [scripts/deepmind_earth_enhancer.py]: the
    preprocessor, the trainer, the model registry, the predictor, the
    enhancement composer, the chunk synthesizer and the embedding pipeline.

    - JSON-like Python values are the inductive [json]; a Python [dict] whose
      iteration order is observable is an association list, the model registry
      [self.models] is a finite map.
    - A Python exception is the [Raise] case of the result type [res]; a
      function that mutates [self.models] returns the new registry next to its
      result.
    - scikit-learn, joblib, the file system, the clock, the text formatting of
      numbers, the rounded results of float arithmetic and the embedding
      service are interfaces (type classes): every statement holds for all
      their implementations. *)

From Stdlib Require Import Ascii String QArith Qabs Sorted.
From stdpp Require Import gmap strings list fin_maps.

Set Warnings "-register-all".

Open Scope string_scope.

(** ** Exceptions and results *)

Inductive exn : Type :=
| KeyError (key : string)
| TypeError
| ValueError
| AttributeError
| OverflowError
| ExternalError (msg : string).

Inductive res (A : Type) : Type :=
| Ret (a : A)
| Raise (e : exn).

Arguments Ret {A} a.
Arguments Raise {A} e.

#[global] Instance res_ret : MRet res := fun A a => Ret a.

#[global] Instance res_bind : MBind res :=
  fun A B f m => match m with Ret a => f a | Raise e => Raise e end.

(** [for x in l: f(x)] where [f] may raise: the results in order, or the first
    exception. *)
Fixpoint res_map {A B : Type} (f : A -> res B) (l : list A) : res (list B) :=
  match l with
  | [] => Ret []
  | x :: l' => y ← f x; ys ← res_map f l'; Ret (y :: ys)
  end.

Definition is_ret {A : Type} (r : res A) : bool :=
  match r with Ret _ => true | Raise _ => false end.

(** ** JSON-like values *)

Inductive json : Type :=
| JNull
| JBool (b : bool)
| JNum (q : Q)
| JStr (s : string)
| JList (l : list json)
| JDict (d : list (string * json)).

(** A Python [dict] with string keys, in insertion order. *)
Abbreviation dict := (list (string * json)).

(** [d.get(k)] as an option ([None]: the key is absent). *)
Fixpoint dict_get (k : string) (d : dict) : option json :=
  match d with
  | [] => None
  | (k', v) :: d' => if String.eqb k' k then Some v else dict_get k d'
  end.

(** [k in d] *)
Definition dict_mem (k : string) (d : dict) : bool :=
  match dict_get k d with Some _ => true | None => false end.

(** [d.get(k, dflt)] *)
Definition dict_get_default (k : string) (dflt : json) (d : dict) : json :=
  match dict_get k d with Some v => v | None => dflt end.

(** [d[k] = v]: an existing key keeps its position, a new key goes last. *)
Fixpoint dict_set (k : string) (v : json) (d : dict) : dict :=
  match d with
  | [] => [(k, v)]
  | (k', v') :: d' =>
      if String.eqb k' k then (k', v) :: d' else (k', v') :: dict_set k v d'
  end.

(** [{k: v for k, v in d.items() if v is not None}] *)
Definition filter_not_none (d : dict) : dict :=
  List.filter (fun kv => match kv.2 with JNull => false | _ => true end) d.

(** Python truthiness, [bool(v)]. *)
Definition truthy (v : json) : bool :=
  match v with
  | JNull => false
  | JBool b => b
  | JNum q => negb (Qeq_bool q 0)
  | JStr s => match s with EmptyString => false | _ => true end
  | JList l => match l with [] => false | _ => true end
  | JDict d => match d with [] => false | _ => true end
  end.

(** [v == s] for a string [s]: only a string equals a string. *)
Definition eq_str (v : json) (s : string) : bool :=
  match v with
  | JStr t => String.eqb t s
  | _ => false
  end.

(** ** Python string primitives used by the script *)

Module PyStr.

Definition underscore : ascii := "_"%char.

(** ["_" in s] *)
Fixpoint contains_underscore (s : string) : bool :=
  match s with
  | EmptyString => false
  | String c s' => if Ascii.eqb c underscore then true else contains_underscore s'
  end.

(** [s.split("_")[0]]: everything before the first underscore. *)
Fixpoint split_first (s : string) : string :=
  match s with
  | EmptyString => EmptyString
  | String c s' => if Ascii.eqb c underscore then EmptyString else String c (split_first s')
  end.

(** The text after the first underscore, [s.split("_", 1)[1]] when [s] has an
    underscore. *)
Fixpoint after_first (s : string) : string :=
  match s with
  | EmptyString => EmptyString
  | String c s' => if Ascii.eqb c underscore then s' else after_first s'
  end.

(** [s.startswith(p)] *)
Definition startswith (s p : string) : bool := String.prefix p s.

(** [s.replace(old, "")] for a non-empty [old]: every occurrence of [old],
    scanning from the left without overlap, is removed.  [skip] counts the
    characters of the current occurrence that are still to be dropped. *)
Fixpoint replace_go (old s : string) (skip : nat) : string :=
  match s with
  | EmptyString => EmptyString
  | String c s' =>
      match skip with
      | S k => replace_go old s' k
      | O => if String.prefix old s
             then replace_go old s' (String.length old - 1)
             else String c (replace_go old s' 0)
      end
  end.

Definition remove_all (old s : string) : string := replace_go old s 0.

(** [old in s] *)
Fixpoint occurs (old s : string) : bool :=
  match s with
  | EmptyString => String.prefix old EmptyString
  | String _ s' => String.prefix old s || occurs old s'
  end.

(** [bool(s)] *)
Definition nonempty (s : string) : bool :=
  match s with EmptyString => false | _ => true end.

(** [sep.join(parts)] *)
Definition join (sep : string) (parts : list string) : string := String.concat sep parts.

(** [s.split(c)] for a one-character separator: never an empty list. *)
Fixpoint split_on (c : ascii) (s : string) : list string :=
  match s with
  | EmptyString => [EmptyString]
  | String a s' =>
      if Ascii.eqb a c then EmptyString :: split_on c s'
      else match split_on c s' with
           | [] => [String a EmptyString]
           | p :: ps => String a p :: ps
           end
  end.

Definition is_paren (c : ascii) : bool := Ascii.eqb c "("%char || Ascii.eqb c ")"%char.

Fixpoint lstrip_parens (s : string) : string :=
  match s with
  | EmptyString => EmptyString
  | String c s' => if is_paren c then lstrip_parens s' else s
  end.

(** Drops the parentheses at the end of [s]: the result is the empty string
    when only parentheses remain. *)
Fixpoint rstrip_parens (s : string) : string :=
  match s with
  | EmptyString => EmptyString
  | String c s' =>
      match rstrip_parens s' with
      | EmptyString => if is_paren c then EmptyString else String c EmptyString
      | t => String c t
      end
  end.

(** [s.strip("()")] *)
Definition strip_parens (s : string) : string := rstrip_parens (lstrip_parens s).

(** [s * n] *)
Fixpoint repeat_str (s : string) (n : nat) : string :=
  match n with
  | O => EmptyString
  | S n' => s +:+ repeat_str s n'
  end.

(** The characters of [s], each as a one-character string (iteration over a
    [str]). *)
Fixpoint chars (s : string) : list string :=
  match s with
  | EmptyString => []
  | String c s' => String c EmptyString :: chars s'
  end.

End PyStr.

(** ** Dataset registry ([dataset_configs.json], read by
    [_load_dataset_configs]) *)

Record DatasetConfig : Type := {
  ds_id : string;
  ds_table : option string;
  ds_features : list string;
  ds_target : string
}.

(** [self.datasets[dataset_type]] *)
Definition dataset_info (datasets : gmap string DatasetConfig) (dataset_type : string)
  : res DatasetConfig :=
  match datasets !! dataset_type with
  | Some info => Ret info
  | None => Raise (KeyError dataset_type)
  end.

(** ** Floating-point numbers

    A float is a finite value or an infinity; NaN is the missing entry of a
    column and the [None] result of a mean.  The rounded results of float
    arithmetic are an interface: [float_product v x] is the float [v * x] for
    a number [v] that a float can hold and a float [x] of magnitude at most 1;
    [mean xs] is [Series.mean()] of a numeric column (NaN, for instance, when
    the column has no value, or holds both infinities). *)

Inductive number : Type :=
| Finite (q : Q)
| Infinity (negative : bool).

Class Floats : Type := {
  float_product : Q -> Q -> Q;
  mean : list (option number) -> option number
}.

(** The least magnitude that does not round to a float: [float(n)] raises
    [OverflowError] for an [int] from there on, and no float is that large. *)
Definition float_overflow : Q := inject_Z (2 ^ 1024 - 2 ^ 970).

Definition in_float_range (q : Q) : bool := negb (Qle_bool float_overflow (Qabs q)).

(** ** The part of pandas that [preprocess_data] uses

    A column is numeric or of dtype [object]; an [object] column holds strings.
    A missing entry (NaN) is [None].  A table is the list of its named columns,
    in column order; its column names are distinct when it is read, and
    [get_dummies] can add a name that is already there. *)

Module Pandas.

Inductive series : Type :=
| NumSeries (xs : list (option number))
| ObjSeries (xs : list (option string)).

Abbreviation DataFrame := (list (string * series)).

Definition series_len (s : series) : nat :=
  match s with
  | NumSeries xs => length xs
  | ObjSeries xs => length xs
  end.

(** [df.columns] *)
Definition columns (df : DataFrame) : list string := df.*1.

(** [col in df.columns] *)
Definition has_column (col : string) (df : DataFrame) : bool :=
  existsb (String.eqb col) (columns df).

(** [df[col]] *)
Fixpoint get (col : string) (df : DataFrame) : option series :=
  match df with
  | [] => None
  | (c, s) :: df' => if String.eqb c col then Some s else get col df'
  end.

(** [df[col] = s] for a column that exists: it keeps its place. *)
Fixpoint set (col : string) (s : series) (df : DataFrame) : DataFrame :=
  match df with
  | [] => [(col, s)]
  | (c, s') :: df' =>
      if String.eqb c col then (c, s) :: df' else (c, s') :: set col s df'
  end.

(** [df.drop(col, axis=1)] *)
Definition drop_column (col : string) (df : DataFrame) : DataFrame :=
  List.filter (fun cs => negb (String.eqb cs.1 col)) df.

(** The entries that are not missing. *)
Definition present {A : Type} (xs : list (option A)) : list A := omap id xs.

(** [s.fillna(v)] *)
Definition fillna {A : Type} (v : A) (xs : list (option A)) : list (option A) :=
  (fun x => match x with Some _ => x | None => Some v end) <$> xs.

Definition count_of (v : string) (ys : list string) : nat :=
  length (List.filter (String.eqb v) ys).

(** [s.mode()[0]] when [s.mode()] is not empty: the most frequent present
    value, the smallest one among equally frequent values. *)
Definition mode0 (xs : list (option string)) : option string :=
  let ys := present xs in
  fold_left
    (fun best v =>
       match best with
       | None => Some v
       | Some b =>
           if (count_of b ys <? count_of v ys)%nat
              || ((count_of b ys =? count_of v ys)%nat && String.ltb v b)
           then Some v else Some b
       end)
    ys None.

(** Sorted insertion without repetition. *)
Fixpoint insert_level (v : string) (l : list string) : list string :=
  match l with
  | [] => [v]
  | w :: l' =>
      if String.eqb v w then l
      else if String.ltb v w then v :: l
      else w :: insert_level v l'
  end.

(** The categories of an [object] column: its distinct present values,
    sorted. *)
Definition levels (xs : list (option string)) : list string :=
  fold_right insert_level [] (present xs).

(** The indicator column of one category; a missing entry gives 0
    ([dummy_na=False]). *)
Definition indicator (v : string) (xs : list (option string)) : series :=
  NumSeries
    ((fun x => match x with
               | Some w => Some (Finite (if String.eqb w v then 1 else 0))
               | None => Some (Finite 0)
               end) <$> xs).

(** [pd.get_dummies(df, columns=[col], prefix=[col], dummy_na=False)] for an
    [object] column [col] with entries [xs]: the other columns, then one
    indicator column [col_<category>] per category. *)
Definition get_dummies (df : DataFrame) (col : string) (xs : list (option string))
  : DataFrame :=
  (drop_column col df ++ ((fun v => (col +:+ "_" +:+ v, indicator v xs)) <$> levels xs))%list.

End Pandas.

Import Pandas.

(** ** Preprocessor *)

(** One iteration of the imputation loop over [features + [target]]: a
    numeric column is filled with its mean (a NaN mean fills nothing), another
    column with its most frequent value. *)
Definition impute `{Floats} (df : DataFrame) (col : string) : DataFrame :=
  match Pandas.get col df with
  | Some (NumSeries xs) =>
      Pandas.set col
        (NumSeries (match mean xs with Some m => fillna m xs | None => xs end)) df
  | Some (ObjSeries xs) =>
      Pandas.set col
        (ObjSeries (fillna (match mode0 xs with Some m => m | None => "unknown" end) xs)) df
  | None => df
  end.

(** One iteration of the loop that collects [categorical_features] and expands
    them, for a name [col] that at most one column has. *)
Definition expand (st : list string * DataFrame) (col : string)
  : list string * DataFrame :=
  match Pandas.get col st.2 with
  | Some (ObjSeries xs) => ((st.1 ++ [col])%list, get_dummies st.2 col xs)
  | _ => st
  end.

(** Several columns have the name [col]: [df[col]] is then a table, not a
    column. *)
Definition duplicated (col : string) (df : DataFrame) : bool :=
  (1 <? length (List.filter (String.eqb col) (columns df)))%nat.

(** The iteration as the interpreter runs it: [df[col].dtype] raises
    [AttributeError] when [df[col]] is a table, which happens once an
    indicator column has taken the name of a column that was there. *)
Definition expand_checked (st : res (list string * DataFrame)) (col : string)
  : res (list string * DataFrame) :=
  st ← st;
  if duplicated col st.2 then Raise AttributeError else Ret (expand st col).

(** The columns one configured feature contributes to [new_features]. *)
Definition feature_columns (categorical_features : list string) (df : DataFrame)
    (feature : string) : list string :=
  if existsb (String.eqb feature) categorical_features
  then List.filter (fun col => PyStr.startswith col (feature +:+ "_")) (columns df)
  else if has_column feature df then [feature] else [].

(** The three loops when every [df[col]] of the second loop is a column:
    the cleaned table and [new_features]. *)
Definition preprocess_table `{Floats} (features : list string) (target : string)
    (df : DataFrame) : DataFrame * list string :=
  let df1 := fold_left impute (features ++ [target])%list df in
  let st := fold_left expand features ([], df1) in
  (st.2, flat_map (feature_columns st.1 st.2) features).

Definition preprocess_data `{Floats} (datasets : gmap string DatasetConfig)
    (df : DataFrame) (dataset_type : string) : res (DataFrame * list string) :=
  info ← dataset_info datasets dataset_type;
  let features := ds_features info in
  let df1 := fold_left impute (features ++ [ds_target info])%list df in
  st ← fold_left expand_checked features (Ret ([], df1));
  Ret (st.2, flat_map (feature_columns st.1 st.2) features).

(** ** Predictor: rebuilding the feature row (the loop over [features] of
    [predict]) *)

(** [feature.split("_")[0] if "_" in feature else None] *)
Definition base_feature_name (feature : string) : option string :=
  if PyStr.contains_underscore feature then Some (PyStr.split_first feature) else None.

(** The last two branches: [input_data[feature]] when the key is there,
    else [0]. *)
Definition direct_cell (input_data : dict) (feature : string) : json :=
  match dict_get feature input_data with
  | Some v => v
  | None => JNum 0
  end.

(** The value that one iteration stores under [input_df_data[feature]]. *)
Definition cell (input_data : dict) (feature : string) : json :=
  match base_feature_name feature with
  | Some base =>
      match (if PyStr.nonempty base then dict_get base input_data else None) with
      | Some v =>
          if eq_str v (PyStr.remove_all (base +:+ "_") feature)
          then JNum 1 else JNum 0
      | None => direct_cell input_data feature
      end
  | None => direct_cell input_data feature
  end.

(** The loop fills the dictionary [input_df_data], one key per feature. *)
Definition input_df_data (input_data : dict) (features : list string) : gmap string json :=
  fold_left (fun d feature => <[feature := cell input_data feature]> d) features ∅.

(** [pd.DataFrame(input_df_data)[features]]: the single row, in the stored
    feature order. *)
Definition feature_row (input_data : dict) (features : list string) : list json :=
  (fun feature => default (JNum 0) (input_df_data input_data features !! feature))
    <$> features.

(** ** Embedding pipeline *)

(** The embedding service as the script sees it.  [embed_content n model batch]
    is the outcome of the call number [n] of one run: an exception, or the
    value of [response.get('embedding')] ([None]: the key is absent). *)
Class GenAI : Type := {
  GOOGLE_GEMINI_API_KEY : option string;
  configure : string -> res unit;
  embed_content : nat -> string -> list string -> res (option (list (list Q)))
}.

Record EmbeddingRecord : Type := {
  text_chunk : string;
  embedding : option (list Q);
  source_table : string;
  source_record_id : string;
  model_used : string
}.

Definition batch_size : nat := 100.

Definition embedding_model : string := "models/embedding-001".

(** [range(0, stop, step)] for a positive [step]. *)
Definition range_step (stop step : nat) : list nat :=
  (fun k => k * step)%nat <$> seq 0 ((stop + step - 1) / step).

(** [l[i:j]] *)
Definition slice {A : Type} (i j : nat) (l : list A) : list A := take (j - i) (drop i l).

(** The records of a chunk list that got no embedding. *)
Definition without_embedding (source_table record_id model : string) (chunks : list string)
  : list EmbeddingRecord :=
  (fun chunk =>
     {| text_chunk := chunk; embedding := None; source_table := source_table;
        source_record_id := record_id; model_used := model |}) <$> chunks.

(** The records appended by the loop body for the batch that starts at
    [i]. *)
Definition embed_batch `{GenAI} (source_table record_id : string) (i : nat)
    (batch : list string) : list EmbeddingRecord :=
  match embed_content (i / batch_size) embedding_model batch with
  | Ret response =>
      let batch_embeddings := default [] response in
      if (length batch_embeddings =? length batch)%nat
      then zip_with
             (fun original_chunk embedding_vector =>
                {| text_chunk := original_chunk; embedding := Some embedding_vector;
                   source_table := source_table; source_record_id := record_id;
                   model_used := embedding_model |})
             batch batch_embeddings
      else without_embedding source_table record_id embedding_model batch
  | Raise _ => without_embedding source_table record_id embedding_model batch
  end.

(** The loop over [range(0, len(text_chunks), batch_size)]. *)
Definition embed_batches `{GenAI} (text_chunks : list string) (source_table record_id : string)
  : list EmbeddingRecord :=
  fold_left
    (fun results i =>
       (results ++ embed_batch source_table record_id i
                     (slice i (i + batch_size) text_chunks))%list)
    (range_step (length text_chunks) batch_size) [].

Definition generate_embeddings_for_chunks `{GenAI} (text_chunks : list string)
    (source_table record_id : string) : list EmbeddingRecord :=
  match GOOGLE_GEMINI_API_KEY with
  | Some key =>
      if PyStr.nonempty key then
        match configure key with
        | Ret _ => embed_batches text_chunks source_table record_id
        | Raise _ => without_embedding source_table record_id "N/A" text_chunks
        end
      else without_embedding source_table record_id "N/A" text_chunks
  | None => without_embedding source_table record_id "N/A" text_chunks
  end.

(** ** Chunk synthesizer *)

(** How Python renders values inside an f-string, and [float(s)].
    [format_0f x] is what the format [.0f] makes of a number whose exact value
    is [x]: the text of the nearest float, or the [OverflowError] of an [int]
    that no float can hold (a float product that large is an infinity and has
    a text); below that magnitude there is always a text. *)
Class PyFormat : Type := {
  py_str : json -> string;
  format_0f : Q -> res string;
  py_float : string -> option Q;
  format_0f_in_range : forall x, in_float_range x = true -> is_ret (format_0f x) = true
}.

(** [f"{v}"]: a string is inserted as it is. *)
Definition fstr `{PyFormat} (v : json) : string :=
  match v with
  | JStr s => s
  | _ => py_str v
  end.

(** [f"{v*100:.0f}"] *)
Definition percent `{PyFormat} (v : json) : res string :=
  match v with
  | JNum q => format_0f (q * 100)
  | JBool b => format_0f (if b then 100 else 0)
  | JStr _ => Raise ValueError
  | _ => Raise TypeError
  end.

(** [v.get(key, dflt)] on a value that has to be a [dict]. *)
Definition attr_get (v : json) (key : string) (dflt : json) : res json :=
  match v with
  | JDict d => Ret (dict_get_default key dflt d)
  | _ => Raise AttributeError
  end.

(** [v.items()] *)
Definition items (v : json) : res dict :=
  match v with
  | JDict d => Ret d
  | _ => Raise AttributeError
  end.

(** The strings [", ".join(v)] iterates over. *)
Definition join_items (v : json) : res (list string) :=
  match v with
  | JList l => res_map (fun x => match x with JStr s => Ret s | _ => Raise TypeError end) l
  | JStr s => Ret (PyStr.chars s)
  | JDict d => Ret d.*1
  | _ => Raise TypeError
  end.

(** [k.replace('_', ' ')] *)
Fixpoint underscores_to_spaces (k : string) : string :=
  match k with
  | EmptyString => EmptyString
  | String c k' =>
      String (if Ascii.eqb c PyStr.underscore then " "%char else c) (underscores_to_spaces k')
  end.

Definition not_available : json := JStr "N/A".

(** The pair [(longitude, latitude)] after the coordinate block. *)
Definition coordinates `{PyFormat} (record : dict) : json * json :=
  match dict_get "coordinates" record with
  | Some (JDict coords_raw) =>
      (dict_get_default "x" not_available coords_raw,
       dict_get_default "y" not_available coords_raw)
  | Some (JStr coords_raw) =>
      match PyStr.split_on ","%char (PyStr.strip_parens coords_raw) with
      | [lon_str; lat_str] =>
          match py_float lon_str with
          | Some lon =>
              match py_float lat_str with
              | Some lat => (JNum lon, JNum lat)
              | None => (JNum lon, not_available)
              end
          | None => (not_available, not_available)
          end
      | _ => (not_available, not_available)
      end
  | _ => (not_available, not_available)
  end.

Definition location_name_of (record : dict) : json :=
  dict_get_default "location_name" (JStr "Unknown Location") record.

(** The first chunk: identity, coordinates and interaction summary. *)
Definition identity_chunk `{PyFormat} (record : dict) : string :=
  let location_name := location_name_of record in
  let location_id_text := dict_get_default "location_id" not_available record in
  let db_id := dict_get_default "id" not_available record in
  let '(longitude, latitude) := coordinates record in
  let last_interaction_str := dict_get_default "last_interaction" not_available record in
  let total_interactions := dict_get_default "total_interactions" (JNum 0) record in
  let blockchain_address := dict_get_default "blockchain_address" not_available record in
  "Location: " +:+ fstr location_name +:+ " (Business ID: " +:+ fstr location_id_text
  +:+ ", DB ID: " +:+ fstr db_id +:+ "). "
  +:+ "Coordinates: (" +:+ fstr longitude +:+ ", " +:+ fstr latitude +:+ "). "
  +:+ "Last interaction: " +:+ fstr last_interaction_str
  +:+ ". Total interactions: " +:+ fstr total_interactions +:+ ". "
  +:+ "Blockchain address: " +:+ fstr blockchain_address +:+ ".".

Definition traits_chunk `{PyFormat} (location_name traits : json) : res string :=
  kvs ← items traits;
  parts ← res_map
            (fun kv => p ← percent kv.2;
                       Ret (underscores_to_spaces kv.1 +:+ ": " +:+ p +:+ "%")) kvs;
  Ret ("The AI personality for " +:+ fstr location_name
       +:+ " exhibits traits such as " +:+ PyStr.join ", " parts +:+ ".").

Definition voice_chunk `{PyFormat} (voice_char : json) : res string :=
  tone ← attr_get voice_char "tone" not_available;
  pace ← attr_get voice_char "pace" not_available;
  Ret ("Its voice is typically " +:+ fstr tone +:+ " and " +:+ fstr pace +:+ ".").

Definition cultural_chunk `{PyFormat} (location_name cultural : json) : res string :=
  languages ← attr_get cultural "languages" (JList []);
  parts ← join_items languages;
  let lang_str := PyStr.join ", " parts in
  primary ← attr_get cultural "primaryCulture" not_available;
  Ret ("Cultural influences for " +:+ fstr location_name
       +:+ " include primary culture: " +:+ fstr primary
       +:+ ", languages: " +:+ (if PyStr.nonempty lang_str then lang_str else "N/A") +:+ ".").

Definition voice_profile_chunk `{PyFormat} (location_name : json) (voice_profile : dict)
  : res string :=
  stability ← percent (dict_get_default "stability" (JNum 0) voice_profile);
  boost ← percent (dict_get_default "similarityBoost" (JNum 0) voice_profile);
  Ret ("Voice profile for " +:+ fstr location_name +:+ ": ElevenLabs Voice ID is "
       +:+ fstr (dict_get_default "voiceId" not_available voice_profile) +:+ ", "
       +:+ "stability " +:+ stability +:+ "%, "
       +:+ "similarity boost " +:+ boost +:+ "%.").

(** [if section: chunks.append(text(section))] *)
Definition append_if (section : json) (text : res string) (chunks : list string)
  : res (list string) :=
  if truthy section then (t ← text; Ret (chunks ++ [t])%list) else Ret chunks.

(** The block guarded by
    [if personality_data and isinstance(personality_data, dict)]. *)
Definition personality_block `{PyFormat} (record : dict) (chunks : list string)
  : res (list string) :=
  match dict_get "personality_data" record with
  | Some (JDict (kv :: rest)) =>
      let personality_data := kv :: rest in
      let location_name := location_name_of record in
      let traits := dict_get_default "traits" (JDict []) personality_data in
      chunks ← append_if traits (traits_chunk location_name traits) chunks;
      let voice_char := dict_get_default "voiceCharacteristics" (JDict []) personality_data in
      chunks ← append_if voice_char (voice_chunk voice_char) chunks;
      let cultural := dict_get_default "culturalInfluence" (JDict []) personality_data in
      append_if cultural (cultural_chunk location_name cultural) chunks
  | _ => Ret chunks
  end.

(** The block guarded by [if voice_profile and isinstance(voice_profile, dict)]. *)
Definition voice_profile_block `{PyFormat} (record : dict) (chunks : list string)
  : res (list string) :=
  match dict_get "voice_profile" record with
  | Some (JDict (kv :: rest)) =>
      t ← voice_profile_chunk (location_name_of record) (kv :: rest);
      Ret (chunks ++ [t])%list
  | _ => Ret chunks
  end.

Definition process_location_memory_to_chunks `{PyFormat} (record : dict)
  : res (list string) :=
  let chunks := [identity_chunk record] in
  chunks ← personality_block record chunks;
  voice_profile_block record chunks.

(** ** scikit-learn and joblib as the script uses them *)

(** Fitted objects and scaled arrays are opaque.  Every call may raise.  The
    last field is scikit-learn's contract for [predict_proba]: each row holds
    probabilities. *)
Class Sklearn : Type := {
  fitted : Type;
  scaler : Type;
  scaled : Type;
  train_test_split :
    list series -> series -> Q -> Z ->
    res (list series * list series * series * series);
  fit_transform : list series -> res (scaler * scaled);
  transform : scaler -> list series -> res scaled;
  transform_row : scaler -> list string -> list json -> res scaled;
  fit_regressor : nat -> Z -> scaled -> series -> res fitted;
  fit_classifier : nat -> Z -> scaled -> series -> res fitted;
  model_predict : fitted -> scaled -> res (list json);
  model_predict_proba : fitted -> scaled -> res (list (list Q));
  mean_squared_error : series -> list json -> res Q;
  r2_score : series -> list json -> res Q;
  accuracy_score : series -> list json -> res Q;
  f1_score : series -> list json -> string -> Q -> res Q;
  feature_importances : fitted -> list Q;
  proba_range :
    forall f x rows, model_predict_proba f x = Ret rows ->
      Forall (Forall (fun p => 0 <= p /\ p <= 1)%Q) rows
}.

(** The two estimator classes the trainer instantiates. *)
Inductive estimator `{Sklearn} : Type :=
| GradientBoostingRegressor (f : fitted)
| RandomForestClassifier (f : fitted).

Definition fitted_of `{Sklearn} (m : estimator) : fitted :=
  match m with
  | GradientBoostingRegressor f => f
  | RandomForestClassifier f => f
  end.

(** [hasattr(model, "predict_proba")]: only the classifier has the method. *)
Definition has_predict_proba `{Sklearn} (m : estimator) : bool :=
  match m with
  | GradientBoostingRegressor _ => false
  | RandomForestClassifier _ => true
  end.

(** [model_info] without its ["scaler"] entry: what the metadata document
    stores under ["info"]. *)
Record info_doc : Type := {
  info_type : string;
  info_metrics : list (string * Q);
  info_feature_importance : option (list (string * Q))
}.

Record model_info `{Sklearn} : Type := {
  info : info_doc;
  info_scaler : scaler
}.

(** An entry of [self.models]. *)
Record bundle `{Sklearn} : Type := {
  bundle_model : estimator;
  bundle_features : list string;
  bundle_info : model_info
}.

(** The metadata document: ["features"] and ["info"] may be missing. *)
Record metadata : Type := {
  md_features : option (list string);
  md_info : option info_doc
}.

Class FileSystem `{Sklearn} : Type := {
  import_joblib : res unit;
  path_exists : string -> bool;
  joblib_load_model : string -> res estimator;
  joblib_load_scaler : string -> res scaler;
  json_load : string -> res metadata
}.

(** ** Trainer *)

Inductive train_result `{Sklearn} : Type :=
| TrainError (error : string)
| TrainInfo (model_info : model_info).

(** [df[new_features]]: a missing column is a [KeyError]. *)
Definition select_columns (df : DataFrame) (cols : list string) : res (list series) :=
  res_map (fun c => match Pandas.get c df with
                    | Some s => Ret s
                    | None => Raise (KeyError c)
                    end) cols.

(** [target in ["avg_sentiment", "reliability_score"]] *)
Definition is_score_target (target : string) : bool :=
  existsb (String.eqb target) ["avg_sentiment"; "reliability_score"].

(** The branch that fits and evaluates the model: the estimator and
    [model_info] before the importances and the scaler are added. *)
Definition fit_model `{Sklearn} (target : string) (X_train_scaled X_test_scaled : scaled)
    (y_train y_test : series) : res (estimator * string * list (string * Q)) :=
  if is_score_target target then
    f ← fit_regressor 100 42 X_train_scaled y_train;
    y_pred ← model_predict f X_test_scaled;
    mse ← mean_squared_error y_test y_pred;
    r2 ← r2_score y_test y_pred;
    Ret (GradientBoostingRegressor f, "regression", [("mse", mse); ("r2", r2)])
  else
    f ← fit_classifier 100 42 X_train_scaled y_train;
    y_pred ← model_predict f X_test_scaled;
    accuracy ← accuracy_score y_test y_pred;
    f1 ← f1_score y_test y_pred "weighted" 0;
    Ret (RandomForestClassifier f, "classification", [("accuracy", accuracy); ("f1", f1)]).

(** Everything after the two guards of [train_model], up to the bundle that
    is registered. *)
Definition train_bundle `{Sklearn} (df : DataFrame) (target : string)
    (new_features : list string) : res bundle :=
  X ← select_columns df new_features;
  y ← match Pandas.get target df with
      | Some s => Ret s
      | None => Raise (KeyError target)
      end;
  '(X_train, X_test, y_train, y_test) ← train_test_split X y 0.2 42;
  '(sc, X_train_scaled) ← fit_transform X_train;
  X_test_scaled ← transform sc X_test;
  '(model, kind, metrics) ← fit_model target X_train_scaled X_test_scaled y_train y_test;
  let feature_importance := zip new_features (feature_importances (fitted_of model)) in
  Ret {| bundle_model := model;
         bundle_features := new_features;
         bundle_info :=
           {| info := {| info_type := kind; info_metrics := metrics;
                         info_feature_importance := Some feature_importance |};
              info_scaler := sc |} |}.

(** [train_model]: the result and the registry [self.models] afterwards. *)
Definition train_model `{Sklearn} (datasets : gmap string DatasetConfig)
    (models : gmap string bundle) (df : DataFrame) (dataset_type : string)
    (new_features : list string) : res train_result * gmap string bundle :=
  match dataset_info datasets dataset_type with
  | Raise e => (Raise e, models)
  | Ret cfg =>
      let target := ds_target cfg in
      match new_features with
      | [] => (Ret (TrainError "No features available for training."), models)
      | _ =>
          if negb (has_column target df)
          then (Ret (TrainError ("Target column '" +:+ target +:+ "' not found.")), models)
          else
            match train_bundle df target new_features with
            | Raise e => (Raise e, models)
            | Ret b => (Ret (TrainInfo (bundle_info b)), <[dataset_type := b]> models)
            end
      end
  end.

(** ** Model registry: loading *)

Definition model_path (dataset_type : string) : string :=
  "./models/" +:+ dataset_type +:+ "_model.joblib".

Definition scaler_path (dataset_type : string) : string :=
  "./models/" +:+ dataset_type +:+ "_scaler.joblib".

Definition metadata_path (dataset_type : string) : string :=
  "./models/" +:+ dataset_type +:+ "_metadata.json".

(** [all(os.path.exists(path) for path in [...])] *)
Definition artifacts_exist `{FileSystem} (dataset_type : string) : bool :=
  forallb path_exists
    [model_path dataset_type; scaler_path dataset_type; metadata_path dataset_type].

(** The body of the [try] of [load_model] once the three paths exist. *)
Definition read_bundle `{FileSystem} (dataset_type : string) : res bundle :=
  model ← joblib_load_model (model_path dataset_type);
  sc ← joblib_load_scaler (scaler_path dataset_type);
  md ← json_load (metadata_path dataset_type);
  features ← match md_features md with
             | Some fs => Ret fs
             | None => Raise (KeyError "features")
             end;
  doc ← match md_info md with
        | Some d => Ret d
        | None => Raise (KeyError "info")
        end;
  Ret {| bundle_model := model; bundle_features := features;
         bundle_info := {| info := doc; info_scaler := sc |} |}.

(** [load_model]: the returned flag and the registry afterwards. *)
Definition load_model `{FileSystem} (models : gmap string bundle) (dataset_type : string)
  : bool * gmap string bundle :=
  match import_joblib with
  | Raise _ => (false, models)
  | Ret _ =>
      if negb (artifacts_exist dataset_type) then (false, models)
      else match read_bundle dataset_type with
           | Ret b => (true, <[dataset_type := b]> models)
           | Raise _ => (false, models)
           end
  end.

(** ** Predictor *)

Inductive predict_result : Type :=
| PredictError (error : string)
| Prediction (prediction : json) (confidence : option Q).

(** [str(e)] *)
Definition exn_str (e : exn) : string :=
  match e with
  | KeyError k => "'" +:+ k +:+ "'"
  | TypeError => "TypeError"
  | ValueError => "ValueError"
  | AttributeError => "AttributeError"
  | OverflowError => "int too large to convert to float"
  | ExternalError msg => msg
  end.

(** [xs[0]] *)
Definition first {A : Type} (xs : list A) : res A :=
  match xs with
  | x :: _ => Ret x
  | [] => Raise (ExternalError "index 0 is out of bounds")
  end.

(** [proba.max()] *)
Definition proba_max (proba : list Q) : res Q :=
  match proba with
  | p :: ps => Ret (fold_left (fun m q => if Qle_bool m q then q else m) ps p)
  | [] => Raise ValueError
  end.

(** The body of the [try] of [predict]. *)
Definition predict_with `{Sklearn} (model_data : bundle) (input_data : dict)
  : res predict_result :=
  let model := bundle_model model_data in
  let features := bundle_features model_data in
  let sc := info_scaler (bundle_info model_data) in
  input_scaled ← transform_row sc features (feature_row input_data features);
  predictions ← model_predict (fitted_of model) input_scaled;
  prediction ← first predictions;
  confidence ←
    (if has_predict_proba model then
       rows ← model_predict_proba (fitted_of model) input_scaled;
       proba ← first rows;
       m ← proba_max proba;
       Ret (Some m)
     else Ret None);
  Ret (Prediction prediction confidence).

(** [predict]: the result and the registry afterwards (a missing model is
    loaded first). *)
Definition predict `{FileSystem} (models : gmap string bundle) (dataset_type : string)
    (input_data : dict) : predict_result * gmap string bundle :=
  let '(available, models) :=
    match models !! dataset_type with
    | Some _ => (true, models)
    | None => load_model models dataset_type
    end in
  if negb available
  then (PredictError ("No model available for " +:+ dataset_type), models)
  else
    match models !! dataset_type with
    | None => (PredictError (exn_str (KeyError dataset_type)), models)
    | Some model_data =>
        match predict_with model_data input_data with
        | Ret result => (result, models)
        | Raise e => (PredictError (exn_str e), models)
        end
    end.

(** ** Clock *)

(** A naive [datetime]; its fields are in the ranges the Python class
    enforces, so each is printed with exactly its width. *)
Record datetime : Type := {
  year : nat; month : nat; day : nat;
  hour : nat; minute : nat; second : nat;
  microsecond : nat
}.

Definition digit (n : nat) : ascii := ascii_of_nat (48 + n mod 10).

(** [w] decimal digits of [n], the least significant one last. *)
Fixpoint fixed (w n : nat) : string :=
  match w with
  | O => EmptyString
  | S w' => fixed w' (n / 10) +:+ String (digit n) EmptyString
  end.

(** [d.isoformat()] *)
Definition isoformat (d : datetime) : string :=
  fixed 4 (year d) +:+ "-" +:+ fixed 2 (month d) +:+ "-" +:+ fixed 2 (day d)
  +:+ "T" +:+ fixed 2 (hour d) +:+ ":" +:+ fixed 2 (minute d) +:+ ":" +:+ fixed 2 (second d)
  +:+ (if (microsecond d =? 0)%nat then "" else "." +:+ fixed 6 (microsecond d)).

Definition is_digit (c : ascii) : bool :=
  let n := nat_of_ascii c in ((48 <=? n) && (n <=? 57))%nat.

Fixpoint all_digits (s : string) : bool :=
  match s with
  | EmptyString => true
  | String c s' => is_digit c && all_digits s'
  end.

(** The ISO 8601 extended form [YYYY-MM-DDThh:mm:ss], with an optional
    fraction of six digits. *)
Definition is_iso8601 (s : string) : bool :=
  all_digits (substring 0 4 s) && String.eqb (substring 4 1 s) "-"
  && all_digits (substring 5 2 s) && String.eqb (substring 7 1 s) "-"
  && all_digits (substring 8 2 s) && String.eqb (substring 10 1 s) "T"
  && all_digits (substring 11 2 s) && String.eqb (substring 13 1 s) ":"
  && all_digits (substring 14 2 s) && String.eqb (substring 16 1 s) ":"
  && all_digits (substring 17 2 s)
  && ((String.length s =? 19)%nat
      || ((String.length s =? 26)%nat && String.eqb (substring 19 1 s) "."
          && all_digits (substring 20 6 s))).

Class Clock : Type := { now : datetime }.

(** ** Enhancement composer *)

(** [v * n] for an [int] literal [n]. *)
Definition mul_int (v : json) (n : nat) : res json :=
  match v with
  | JNum q => Ret (JNum (q * inject_Z (Z.of_nat n)))
  | JBool b => Ret (JNum (if b then inject_Z (Z.of_nat n) else 0))
  | JStr s => Ret (JStr (PyStr.repeat_str s n))
  | JList l => Ret (JList (concat (replicate n l)))
  | JNull | JDict _ => Raise TypeError
  end.

(** [v * x] for a [float] literal [x]: a number is converted to a float
    first, which raises [OverflowError] for an [int] that no float can hold;
    the product is rounded. *)
Definition mul_float `{Floats} (v : json) (x : Q) : res json :=
  match v with
  | JNum q =>
      if in_float_range q then Ret (JNum (float_product q x)) else Raise OverflowError
  | JBool b => Ret (JNum (float_product (if b then 1 else 0) x))
  | _ => Raise TypeError
  end.

(** [d.get(k)]: [None] when the key is absent. *)
Definition get_or_none (k : string) (d : dict) : json := dict_get_default k JNull d.

(** [enhanced_data[section][k] = v], after
    [if section not in enhanced_data: enhanced_data[section] = {}]. *)
Definition set_nested (section k : string) (v : json) (enhanced_data : dict) : res dict :=
  match dict_get section enhanced_data with
  | None => Ret (dict_set section (JDict [(k, v)]) enhanced_data)
  | Some (JDict d) => Ret (dict_set section (JDict (dict_set k v d)) enhanced_data)
  | Some _ => Raise TypeError
  end.

Definition confidence_json (confidence : option Q) : json :=
  match confidence with
  | Some c => JNum c
  | None => JNull
  end.

(** The part shared by the two sub-domains, from the check of the required
    features on: the entity and the registry afterwards. *)
Definition enhance_section `{FileSystem} (models : gmap string bundle)
    (dataset_type section field : string) (required : list string)
    (input_filtered : dict) (enhanced_data : dict)
  : res dict * gmap string bundle :=
  if forallb (fun feat => dict_mem feat input_filtered) required then
    match predict models dataset_type input_filtered with
    | (Prediction prediction confidence, models') =>
        (enhanced_data ← set_nested section field prediction enhanced_data;
         set_nested section "prediction_confidence" (confidence_json confidence) enhanced_data,
         models')
    | (PredictError _, models') => (Ret enhanced_data, models')
    end
  else (Ret enhanced_data, models).

(** [network_input], or the exception raised while it is built. *)
Definition network_input (location_data : dict) : res dict :=
  match dict_get "connectivity" location_data with
  | Some (JDict connectivity) =>
      Ret [("network_type", get_or_none "networkType" connectivity);
           ("signal_strength", get_or_none "signalStrength" connectivity);
           ("download_speed", get_or_none "bandwidth" connectivity);
           ("latency", get_or_none "latency" connectivity)]
  | Some _ => Raise AttributeError
  | None => Raise (KeyError "connectivity")
  end.

(** [social_input], or the exception raised while it is built. *)
Definition social_input `{Floats} (location_data : dict) : res dict :=
  match dict_get "social" location_data with
  | Some (JDict social) =>
      let volume := dict_get_default "volume" (JNum 0) social in
      total_likes ← mul_int volume 5;
      total_retweets ← mul_float volume 0.3;
      unique_users ← mul_float volume 0.7;
      Ret [("total_posts", get_or_none "volume" social);
           ("total_likes", total_likes);
           ("total_retweets", total_retweets);
           ("unique_users", unique_users)]
  | Some _ => Raise AttributeError
  | None => Raise (KeyError "social")
  end.

(** One of the two [if section in location_data and self.datasets.get(...)]
    blocks. *)
Definition enhance_subdomain `{FileSystem} (datasets : gmap string DatasetConfig)
    (dataset_type section field : string) (build_input : dict -> res dict)
    (location_data : dict) (st : dict * gmap string bundle)
  : res dict * gmap string bundle :=
  let '(enhanced_data, models) := st in
  match datasets !! dataset_type with
  | Some cfg =>
      if dict_mem section location_data then
        match build_input location_data with
        | Ret input =>
            enhance_section models dataset_type section field (ds_features cfg)
              (filter_not_none input) enhanced_data
        | Raise e => (Raise e, models)
        end
      else (Ret enhanced_data, models)
  | None => (Ret enhanced_data, models)
  end.

(** The two lines before [return enhanced_data]. *)
Definition stamp `{Clock} (enhanced_data : dict) : dict :=
  dict_set "enhancement_timestamp" (JStr (isoformat now))
    (dict_set "enhanced_by_deepmind" (JBool true) enhanced_data).

Definition enhance_location_data `{FileSystem} `{Clock} `{Floats}
    (datasets : gmap string DatasetConfig) (models : gmap string bundle)
    (location_data : dict) : res dict * gmap string bundle :=
  let enhanced_data := location_data in
  match enhance_subdomain datasets "network" "connectivity" "reliability_score"
          network_input location_data (enhanced_data, models) with
  | (Raise e, models) => (Raise e, models)
  | (Ret enhanced_data, models) =>
      match enhance_subdomain datasets "social" "social" "enhanced_sentiment"
              social_input location_data (enhanced_data, models) with
      | (Raise e, models) => (Raise e, models)
      | (Ret enhanced_data, models) => (Ret (stamp enhanced_data), models)
      end
  end.

(** Every column of the table has [n] rows. *)
Definition has_rows (n : nat) (df : DataFrame) : Prop :=
  Forall (fun cs => series_len cs.2 = n) df.

(** The call for the batch number [k] fails: it raises, or the number of
    vectors differs from the number of chunks. *)
Definition batch_fails `{GenAI} (k : nat) (batch : list string) : Prop :=
  match embed_content k embedding_model batch with
  | Ret response => length (default [] response) <> length batch
  | Raise _ => True
  end.


(** *** Sections of a location record *)

(** The mapping under ["personality_data"]; empty when the record has none. *)
Definition personality_data_of (record : dict) : dict :=
  match dict_get "personality_data" record with
  | Some (JDict d) => d
  | _ => []
  end.

(** One of the sections [traits], [voiceCharacteristics],
    [culturalInfluence]. *)
Definition section_of (key : string) (record : dict) : json :=
  dict_get_default key (JDict []) (personality_data_of record).

(** The section exists and is not empty. *)
Definition has_section (key : string) (record : dict) : bool :=
  truthy (section_of key record).

(** The mapping under ["voice_profile"]; empty when the record has none. *)
Definition voice_profile_of (record : dict) : dict :=
  match dict_get "voice_profile" record with
  | Some (JDict d) => d
  | _ => []
  end.

Definition has_voice_profile (record : dict) : bool :=
  truthy (JDict (voice_profile_of record)).

(** The chunks a section contributes: its text when it is present. *)
Definition optional_chunk (present : bool) (text : res string) : res (list string) :=
  if present then (t ← text; Ret [t]) else Ret [].

Definition bool_to_nat (b : bool) : nat := if b then 1 else 0.

(** The number of optional sections that are present. *)
Definition present_sections (record : dict) : nat :=
  (bool_to_nat (has_section "traits" record)
   + bool_to_nat (has_section "voiceCharacteristics" record)
   + bool_to_nat (has_section "culturalInfluence" record)
   + bool_to_nat (has_voice_profile record))%nat.

(** A number that a float can hold. *)
Definition float_sized (v : json) : bool :=
  match v with
  | JNum q => in_float_range q
  | JBool _ => true
  | _ => false
  end.

(** A number whose hundredfold a float can hold: a share, for instance. *)
Definition is_share (v : json) : bool :=
  match v with
  | JNum q => in_float_range (q * 100)
  | JBool _ => true
  | _ => false
  end.

(** The shape the [location_memories] schema gives to the sections: traits
    are shares, the other sections are mappings, the languages are a list of
    strings, stability and similarity boost are shares. *)
Definition traits_ok (traits : json) : bool :=
  match traits with
  | JDict d => forallb (fun kv => is_share kv.2) d
  | _ => negb (truthy traits)
  end.

Definition mapping_ok (v : json) : bool :=
  match v with
  | JDict _ => true
  | _ => negb (truthy v)
  end.

Definition languages_ok (v : json) : bool :=
  match v with
  | JList l => forallb (fun x => match x with JStr _ => true | _ => false end) l
  | JStr _ | JDict _ => true
  | _ => false
  end.

Definition cultural_ok (cultural : json) : bool :=
  match cultural with
  | JDict d => languages_ok (dict_get_default "languages" (JList []) d)
  | _ => negb (truthy cultural)
  end.

Definition voice_profile_ok (record : dict) : bool :=
  is_share (dict_get_default "stability" (JNum 0) (voice_profile_of record))
  && is_share (dict_get_default "similarityBoost" (JNum 0) (voice_profile_of record)).

Definition record_ok (record : dict) : bool :=
  traits_ok (section_of "traits" record)
  && mapping_ok (section_of "voiceCharacteristics" record)
  && cultural_ok (section_of "culturalInfluence" record)
  && voice_profile_ok record.

(** *** Location entities *)

(** The sub-section is absent or a mapping. *)
Definition section_is_mapping (section : string) (location_data : dict) : bool :=
  match dict_get section location_data with
  | Some (JDict _) | None => true
  | Some _ => false
  end.

(** The social volume is absent or a number that a float can hold. *)
Definition volume_is_number (location_data : dict) : bool :=
  match dict_get "social" location_data with
  | Some (JDict social) => float_sized (dict_get_default "volume" (JNum 0) social)
  | _ => true
  end.

Definition entity_ok (location_data : dict) : bool :=
  section_is_mapping "connectivity" location_data
  && section_is_mapping "social" location_data
  && volume_is_number location_data.

(** No configured feature name is another configured feature name followed
    by an underscore and more text (as [net_type] is for [net]). *)
Definition prefix_free (features : list string) : bool :=
  forallb (fun f => forallb (fun g => negb (PyStr.startswith f (g +:+ "_"))) features)
    features.

(** Some feature the dataset requires is not a key of the filtered input. *)
Definition feature_missing (cfg : DatasetConfig) (input : dict) : Prop :=
  exists feat, feat ∈ ds_features cfg /\ dict_mem feat (filter_not_none input) = false.

(** ** Example data *)

(** The dataset of the script's own mock data: a categorical [network_type]. *)
Definition network_config : DatasetConfig :=
  {| ds_id := "network-data"; ds_table := Some "network_data";
     ds_features := ["network_type"]; ds_target := "reliability_score" |}.

Definition network_table : DataFrame :=
  [("network_type", ObjSeries [Some "5G"; Some "4G"; Some "4G"]);
   ("reliability_score", NumSeries [Some (Finite 0.9); Some (Finite 0.7); Some (Finite 0.6)])].

(** An embedding service whose first call answers with one vector per chunk
    and whose later calls raise. *)
Definition first_call_only : GenAI := {|
  GOOGLE_GEMINI_API_KEY := Some "key";
  configure := fun _ => Ret tt;
  embed_content := fun n _ batch =>
    match n with
    | O => Ret (Some ((fun _ => [1%Q]) <$> batch))
    | S _ => Raise (ExternalError "quota exceeded")
    end
|}.

(** A stand-in for scikit-learn: nothing is learnt, every call succeeds. *)
Definition toy_sklearn : Sklearn := {|
  fitted := unit;
  scaler := unit;
  scaled := unit;
  train_test_split := fun X y _ _ => Ret (X, X, y, y);
  fit_transform := fun _ => Ret (tt, tt);
  transform := fun _ _ => Ret tt;
  transform_row := fun _ _ _ => Ret tt;
  fit_regressor := fun _ _ _ _ => Ret tt;
  fit_classifier := fun _ _ _ _ => Ret tt;
  model_predict := fun _ _ => Ret [JNum 1];
  model_predict_proba := fun _ _ => Ret [[0.25%Q; 0.75%Q]];
  mean_squared_error := fun _ _ => Ret 0%Q;
  r2_score := fun _ _ => Ret 1%Q;
  accuracy_score := fun _ _ => Ret 1%Q;
  f1_score := fun _ _ _ _ => Ret 1%Q;
  feature_importances := fun _ => [];
  proba_range := ltac:(intros f x rows [= <-]; repeat constructor; discriminate)
|}.

(** A models directory without any file. *)
Definition empty_directory : @FileSystem toy_sklearn := {|
  import_joblib := Ret tt;
  path_exists := fun _ => false;
  joblib_load_model := fun _ => Raise (ExternalError "No such file or directory");
  joblib_load_scaler := fun _ => Raise (ExternalError "No such file or directory");
  json_load := fun _ => Raise (ExternalError "No such file or directory")
|}.

(** A models directory whose three files exist, with a truncated model
    file. *)
Definition truncated_model_file : @FileSystem toy_sklearn := {|
  import_joblib := Ret tt;
  path_exists := fun _ => true;
  joblib_load_model := fun _ => Raise (ExternalError "EOFError");
  joblib_load_scaler := fun _ => Ret (tt : @scaler toy_sklearn);
  json_load := fun _ =>
    Ret {| md_features := Some ["signal_strength"];
           md_info := Some {| info_type := "regression"; info_metrics := [];
                              info_feature_importance := None |} |}
|}.

(** A models directory that holds a saved classifier for every dataset
    type. *)
Definition saved_classifier : @FileSystem toy_sklearn := {|
  import_joblib := Ret tt;
  path_exists := fun _ => true;
  joblib_load_model := fun _ => Ret (RandomForestClassifier (tt : @fitted toy_sklearn));
  joblib_load_scaler := fun _ => Ret (tt : @scaler toy_sklearn);
  json_load := fun _ =>
    Ret {| md_features := Some ["signal_strength"];
           md_info := Some {| info_type := "classification"; info_metrics := [];
                              info_feature_importance := None |} |}
|}.

Definition social_config : DatasetConfig :=
  {| ds_id := "social-data"; ds_table := Some "social_data";
     ds_features := ["total_posts"; "total_likes"]; ds_target := "avg_sentiment" |}.

Definition signal_table : DataFrame :=
  [("signal_strength", NumSeries [Some (Finite 70); Some (Finite 80); Some (Finite 90)]);
   ("reliability_score", NumSeries [Some (Finite 0.9); Some (Finite 0.7); Some (Finite 0.6)])].

(** Python's rendering replaced by fixed texts. *)
Definition plain_format : PyFormat := {|
  py_str := fun _ => "?";
  format_0f := fun _ => Ret "50";
  py_float := fun _ => None;
  format_0f_in_range := fun _ _ => eq_refl
|}.

(** A fully populated [location_memories] record. *)
Definition full_record : dict :=
  [("id", JStr "7"); ("location_name", JStr "Paris");
   ("coordinates", JDict [("x", JNum 2.35); ("y", JNum 48.85)]);
   ("personality_data",
    JDict [("traits", JDict [("openness", JNum 0.5)]);
           ("voiceCharacteristics", JDict [("tone", JStr "warm"); ("pace", JStr "calm")]);
           ("culturalInfluence",
            JDict [("primaryCulture", JStr "French"); ("languages", JList [JStr "fr"])])]);
   ("voice_profile", JDict [("voiceId", JStr "v1"); ("stability", JNum 0.5)])].

Definition network_signal_config : DatasetConfig :=
  {| ds_id := "network-data"; ds_table := Some "network_data";
     ds_features := ["network_type"; "signal_strength"]; ds_target := "reliability_score" |}.

Definition new_year : Clock :=
  {| now := {| year := 2025; month := 1; day := 1; hour := 12; minute := 30; second := 5;
               microsecond := 250 |} |}.

(** A location whose connectivity section has no signal strength. *)
Definition weak_entity : dict :=
  [("name", JStr "Paris");
   ("connectivity", JDict [("networkType", JStr "5G"); ("signalStrength", JNull)])].

(** ** The remaining operations of the script *)

(** *** Supabase *)

(** The REST endpoint as the script sees it.  [supabase_probe] is the request
    of [connect_to_supabase] followed by [raise_for_status];
    [supabase_post table rows] is the insert followed by [raise_for_status]:
    the status code and the outcome of [len(response.json())]. *)
Record StorageRecord : Type := {
  sr_source_table : string;
  sr_source_record_id : string;
  sr_text_chunk : string;
  sr_embedding : string;
  sr_model_used : string
}.

Class Supabase : Type := {
  SUPABASE_URL : string;
  SUPABASE_KEY : string;
  supabase_probe : res unit;
  supabase_post : string -> list StorageRecord -> res (nat * res nat)
}.

Definition connect_to_supabase `{Supabase} : bool :=
  if PyStr.nonempty SUPABASE_URL && PyStr.nonempty SUPABASE_KEY
  then is_ret supabase_probe
  else false.

(** [data.get("embedding") is not None] *)
Definition has_embedding (data : EmbeddingRecord) : bool :=
  match embedding data with Some _ => true | None => false end.

(** One element of [data_to_insert]. *)
Definition storage_record `{PyFormat} (item : EmbeddingRecord) : StorageRecord :=
  {| sr_source_table := source_table item;
     sr_source_record_id := source_record_id item;
     sr_text_chunk := text_chunk item;
     sr_embedding := py_str (JList (JNum <$> default [] (embedding item)));
     sr_model_used := model_used item |}.

(** [store_embeddings_in_supabase]: the returned flag and the rows that were
    posted ([None]: no request was made). *)
Definition store_embeddings_in_supabase `{Supabase} `{PyFormat}
    (embeddings_data : list EmbeddingRecord) : bool * option (list StorageRecord) :=
  if negb connect_to_supabase then (false, None)
  else
    match embeddings_data with
    | [] => (true, None)
    | _ =>
        let valid_embeddings_data := List.filter has_embedding embeddings_data in
        match valid_embeddings_data with
        | [] => (true, None)
        | _ =>
            let data_to_insert := storage_record <$> valid_embeddings_data in
            match supabase_post "knowledge_vectors" data_to_insert with
            | Ret (status_code, json_length) =>
                if (status_code =? 201)%nat then
                  match json_length with
                  | Ret inserted_count =>
                      ((inserted_count =? length data_to_insert)%nat, Some data_to_insert)
                  | Raise _ => (false, Some data_to_insert)
                  end
                else ((0 =? length data_to_insert)%nat, Some data_to_insert)
            | Raise _ => (false, Some data_to_insert)
            end
        end
    end.

(** [update_supabase_data] (a simulation in the script): no table is
    touched. *)
Definition update_supabase_data `{Supabase} (datasets : gmap string DatasetConfig)
    (dataset_type : string) : bool :=
  if negb connect_to_supabase then false
  else
    match datasets !! dataset_type with
    | Some cfg =>
        match ds_table cfg with
        | Some table_name => PyStr.nonempty table_name
        | None => false
        end
    | None => false
    end.

(** *** The models directory *)

(** What a file of [./models] holds. *)
Inductive file `{Sklearn} : Type :=
| ModelFile (model : estimator)
| ScalerFile (sc : scaler)
| MetadataFile (md : metadata).

(** What can go wrong when the directory is written. *)
Class Disk : Type := {
  joblib_importable : bool;
  makedirs_models : bool;
  writable : string -> bool
}.

(** [joblib.dump(obj, path)] and [json.dump(doc, open(path, "w"))]. *)
Definition write_file `{Sklearn} `{Disk} (path : string) (content : file)
    (store : gmap string file) : res (gmap string file) :=
  if writable path then Ret (<[path := content]> store)
  else Raise (ExternalError ("cannot write " +:+ path)).

(** The directory read back: joblib and json return what was dumped. *)
Definition directory `{Sklearn} `{Disk} (store : gmap string file) : FileSystem := {|
  import_joblib :=
    if joblib_importable then Ret tt else Raise (ExternalError "No module named 'joblib'");
  path_exists := fun path => match store !! path with Some _ => true | None => false end;
  joblib_load_model := fun path =>
    match store !! path with
    | Some (ModelFile model) => Ret model
    | _ => Raise (ExternalError ("cannot load " +:+ path))
    end;
  joblib_load_scaler := fun path =>
    match store !! path with
    | Some (ScalerFile sc) => Ret sc
    | _ => Raise (ExternalError ("cannot load " +:+ path))
    end;
  json_load := fun path =>
    match store !! path with
    | Some (MetadataFile md) => Ret md
    | _ => Raise (ExternalError ("cannot load " +:+ path))
    end
|}.

(** The body of the [try] of [save_model]: the directory after each write. *)
Definition write_bundle `{Sklearn} `{Disk} (model_data : bundle) (dataset_type : string)
    (store : gmap string file) : gmap string file * res unit :=
  if negb joblib_importable then (store, Raise (ExternalError "No module named 'joblib'"))
  else if negb makedirs_models then (store, Raise (ExternalError "cannot create ./models"))
  else
    match write_file (model_path dataset_type) (ModelFile (bundle_model model_data)) store with
    | Raise e => (store, Raise e)
    | Ret store1 =>
        match write_file (scaler_path dataset_type)
                (ScalerFile (info_scaler (bundle_info model_data))) store1 with
        | Raise e => (store1, Raise e)
        | Ret store2 =>
            let serializable_info := info (bundle_info model_data) in
            match write_file (metadata_path dataset_type)
                    (MetadataFile {| md_features := Some (bundle_features model_data);
                                     md_info := Some serializable_info |}) store2 with
            | Raise e => (store2, Raise e)
            | Ret store3 => (store3, Ret tt)
            end
        end
    end.

(** [save_model]: the returned flag and the directory afterwards. *)
Definition save_model `{Sklearn} `{Disk} (models : gmap string bundle)
    (dataset_type : string) (store : gmap string file) : bool * gmap string file :=
  match models !! dataset_type with
  | None => (false, store)
  | Some model_data =>
      let '(store', outcome) := write_bundle model_data dataset_type store in
      (is_ret outcome, store')
  end.

(** *** Kaggle *)

Class Kaggle : Type := {
  KAGGLE_USERNAME : string;
  KAGGLE_KEY : string;
  kaggle_authenticate : res unit;
  kaggle_read_csv : string -> res DataFrame
}.

Definition connect_to_kaggle `{Kaggle} : bool :=
  if PyStr.nonempty KAGGLE_USERNAME && PyStr.nonempty KAGGLE_KEY
  then is_ret kaggle_authenticate
  else false.

(** [import_dataset]: the table, or [None]. *)
Definition import_dataset `{Kaggle} (datasets : gmap string DatasetConfig)
    (dataset_type : string) : option DataFrame :=
  match datasets !! dataset_type with
  | None => None
  | Some cfg =>
      if negb connect_to_kaggle then None
      else match kaggle_read_csv (ds_id cfg) with
           | Ret df => Some df
           | Raise _ => None
           end
  end.

(** *** The pipeline *)

(** [len(df)] *)
Definition nrows (df : DataFrame) : nat :=
  match df with
  | [] => 0
  | (_, s) :: _ => series_len s
  end.

(** [df.empty] *)
Definition df_empty (df : DataFrame) : bool :=
  match df with
  | [] => true
  | _ => (nrows df =? 0)%nat
  end.

Inductive pipeline_result `{Sklearn} : Type :=
| PipelineFailure (error : string)
| PipelineSuccess (records_processed : nat) (model_info : model_info).

(** [run_pipeline]: the report, the registry and the models directory
    afterwards. *)
Definition run_pipeline `{Sklearn} `{Disk} `{Kaggle} `{Supabase} `{Floats}
    (datasets : gmap string DatasetConfig) (models : gmap string bundle)
    (store : gmap string file) (dataset_type : string)
  : pipeline_result * gmap string bundle * gmap string file :=
  match import_dataset datasets dataset_type with
  | None =>
      (PipelineFailure "Dataset import failed or resulted in empty data.", models, store)
  | Some df =>
      if df_empty df
      then (PipelineFailure "Dataset import failed or resulted in empty data.", models, store)
      else
        match preprocess_data datasets df dataset_type with
        | Raise e => (PipelineFailure (exn_str e), models, store)
        | Ret (df_processed, new_features) =>
            if df_empty df_processed
               || match new_features with [] => true | _ => false end
            then (PipelineFailure "Preprocessing failed or no features.", models, store)
            else
              match train_model datasets models df_processed dataset_type new_features with
              | (Raise e, models') => (PipelineFailure (exn_str e), models', store)
              | (Ret (TrainError error), models') =>
                  (PipelineFailure ("Model training failed: " +:+ error), models', store)
              | (Ret (TrainInfo model_info), models') =>
                  let '(_, store') := save_model models' dataset_type store in
                  let _ := update_supabase_data datasets dataset_type in
                  (PipelineSuccess (nrows df_processed) model_info, models', store')
              end
        end
  end.

(** *** Columns *)

(** No entry of the column is missing. *)
Definition no_missing (s : series) : Prop :=
  match s with
  | NumSeries xs => Forall (fun x => x <> None) xs
  | ObjSeries xs => Forall (fun x => x <> None) xs
  end.

(** A numeric column whose mean is NaN. *)
Definition mean_is_nan `{Floats} (s : series) : Prop :=
  match s with
  | NumSeries xs => mean xs = None
  | ObjSeries _ => False
  end.

(** The entry of a numeric column at a row. *)
Definition numeric_at (s : series) (i : nat) : option (option number) :=
  match s with
  | NumSeries xs => xs !! i
  | ObjSeries _ => None
  end.


(** The order of Python strings. *)
Definition string_lt (a b : string) : Prop := String.ltb a b = true.

(** A disk on which everything can be written, and one on which nothing
    can. *)
Definition good_disk : Disk :=
  {| joblib_importable := true; makedirs_models := true; writable := fun _ => true |}.

Definition read_only_disk : Disk :=
  {| joblib_importable := true; makedirs_models := true; writable := fun _ => false |}.

(** A Kaggle account whose download yields the signal table. *)
Definition toy_kaggle : Kaggle :=
  {| KAGGLE_USERNAME := "user"; KAGGLE_KEY := "key";
     kaggle_authenticate := Ret tt;
     kaggle_read_csv := fun _ => Ret signal_table |}.

(** A Supabase endpoint that answers every insert with 201 and the inserted
    rows. *)
Definition toy_supabase : Supabase :=
  {| SUPABASE_URL := "https://example.supabase.co"; SUPABASE_KEY := "key";
     supabase_probe := Ret tt;
     supabase_post := fun _ rows => Ret (201%nat, Ret (length rows)) |}.

(** An embedding service without API key. *)
Definition no_api_key : GenAI :=
  {| GOOGLE_GEMINI_API_KEY := None;
     configure := fun _ => Ret tt;
     embed_content := fun _ _ _ => Raise (ExternalError "unreachable") |}.

Definition signal_config : DatasetConfig :=
  {| ds_id := "network-data"; ds_table := Some "network_data";
     ds_features := ["signal_strength"]; ds_target := "reliability_score" |}.

Definition toy_bundle : @bundle toy_sklearn :=
  {| bundle_model := GradientBoostingRegressor (tt : @fitted toy_sklearn);
     bundle_features := ["signal_strength"];
     bundle_info :=
       {| info := {| info_type := "regression"; info_metrics := [("mse", 0%Q); ("r2", 1%Q)];
                     info_feature_importance := Some [] |};
          info_scaler := (tt : @scaler toy_sklearn) |} |}.

(** A disk on which the scaler file of the network model cannot be
    written. *)
Definition scaler_locked : Disk :=
  {| joblib_importable := true; makedirs_models := true;
     writable := fun path => negb (String.eqb path (scaler_path "network")) |}.

(** The scaler file and the metadata document of an earlier save. *)
Definition earlier_save : gmap string (@file toy_sklearn) :=
  <[scaler_path "network" := ScalerFile (tt : @scaler toy_sklearn)]>
    (<[metadata_path "network" :=
         MetadataFile {| md_features := Some ["latency"];
                         md_info := Some {| info_type := "classification";
                                            info_metrics := [];
                                            info_feature_importance := None |} |}]> ∅).

(** *** Texts without separators *)

(** No character of [s] satisfies [p]. *)
Fixpoint none_of (p : ascii -> bool) (s : string) : bool :=
  match s with
  | EmptyString => true
  | String c s' => negb (p c) && none_of p s'
  end.

(** Neither a comma nor a parenthesis occurs in [s]. *)
Definition plain_number_text (s : string) : bool :=
  none_of (fun c => Ascii.eqb c ","%char) s && none_of PyStr.is_paren s.

(** ** The location service *)

(** *** Python operators on what an entity may hold *)

(** [key in container] for a string [key]: a key of a dict, an element of a
    list, a substring of a string. *)
Definition py_in (key : string) (container : json) : res bool :=
  match container with
  | JDict d => Ret (dict_mem key d)
  | JList l => Ret (existsb (fun x => eq_str x key) l)
  | JStr s => Ret (PyStr.occurs key s)
  | JNull | JBool _ | JNum _ => Raise TypeError
  end.

(** [container[key]] for a string [key]. *)
Definition py_getitem (container : json) (key : string) : res json :=
  match container with
  | JDict d =>
      match dict_get key d with
      | Some v => Ret v
      | None => Raise (KeyError key)
      end
  | _ => Raise TypeError
  end.

(** [section.get(k, dflt)]: only a dict has [get]. *)
Definition py_get (section : json) (k : string) (dflt : json) : res json :=
  match section with
  | JDict d => Ret (dict_get_default k dflt d)
  | _ => Raise AttributeError
  end.

(** The operand of [<] and [>] against a number. *)
Definition as_number (v : json) : res Q :=
  match v with
  | JNum q => Ret q
  | JBool b => Ret (if b then 1%Q else 0%Q)
  | _ => Raise TypeError
  end.

Definition Qlt_bool (x y : Q) : bool := negb (Qle_bool y x).

(** [datetime.now().hour] as a number of the entity. *)
Definition hour_json (h : nat) : json := JNum (inject_Z (Z.of_nat h)).

(** *** Peak hours *)

(** [_predict_peak_hours]; [base_hour] is the hour the clock shows. *)
Definition _predict_peak_hours (base_hour : nat) : list nat :=
  if (base_hour <? 12)%nat then [12; 17; 20]%nat
  else if (base_hour <? 17)%nat then [17; 20; 9]%nat
  else [20; 9; 12]%nat.

(** *** Recommendations *)

Definition recommendation (rec_type title description priority : string) : json :=
  JDict [("type", JStr rec_type); ("title", JStr title);
         ("description", JStr description); ("priority", JStr priority)].

(** [location["realtimeData"][name]] under the guard
    [name in location.get("realtimeData", {})]. *)
Definition realtime_section (location : dict) (name : string) : res (option json) :=
  let realtime := dict_get_default "realtimeData" (JDict []) location in
  present ← py_in name realtime;
  if present : bool
  then section ← py_getitem realtime name; Ret (Some section)
  else Ret None.

Definition network_recommendation `{PyFormat} (location : dict) : res (list json) :=
  section ← realtime_section location "connectivity";
  match section with
  | Some connectivity =>
      strength ← py_get connectivity "signalStrength" (JNum 0);
      s ← as_number strength;
      if Qlt_bool s 70 then
        shown ← py_get connectivity "signalStrength" JNull;
        Ret [recommendation "network" "Connectivity Alert"
               ("Signal strength is low (" +:+ fstr shown
                +:+ "%). Consider moving to a better coverage area.")
               "medium"]
      else Ret []
  | None => Ret []
  end.

Definition weather_recommendation (location : dict) : res (list json) :=
  section ← realtime_section location "weather";
  match section with
  | Some weather =>
      conditions ← py_get weather "conditions" JNull;
      if eq_str conditions "Rainy" then
        Ret [recommendation "weather" "Weather Alert"
               "It's currently raining. Indoor activities recommended." "high"]
      else Ret []
  | None => Ret []
  end.

Definition social_recommendation (location : dict) : res (list json) :=
  section ← realtime_section location "social";
  match section with
  | Some social =>
      score ← py_get social "score" (JNum 0);
      s ← as_number score;
      if Qlt_bool 0.7 s then
        Ret [recommendation "social" "Positive Social Activity"
               "This location is trending positively on social media." "low"]
      else Ret []
  | None => Ret []
  end.

Definition time_recommendation (current_hour : nat) : list json :=
  if ((11 <=? current_hour) && (current_hour <=? 14))%nat then
    [recommendation "time" "Lunch Time Activity"
       "It's lunch time! Popular dining spots nearby may be busy." "medium"]
  else [].

(** [_generate_recommendations]; [current_hour] is the hour the clock shows
    when the last block is reached. *)
Definition _generate_recommendations `{PyFormat} (current_hour : nat) (location : dict)
  : res (list json) :=
  network ← network_recommendation location;
  weather ← weather_recommendation location;
  social ← social_recommendation location;
  Ret (network ++ weather ++ social ++ time_recommendation current_hour)%list.

(** The [type] of a recommendation. *)
Definition recommendation_type (r : json) : json :=
  match r with
  | JDict d => get_or_none "type" d
  | _ => JNull
  end.

(** *** Location intelligence *)

(** [location_input]; [hour_now] is the hour the clock shows. *)
Definition popularity_input `{Floats} (hour_now : nat) (enhanced : dict) : res dict :=
  let total_interactions := dict_get_default "total_interactions" (JNum 0) enhanced in
  unique_users ← mul_float total_interactions 0.7;
  ai_queries ← mul_float total_interactions 0.3;
  voice_interactions ← mul_float total_interactions 0.2;
  Ret [("hour", hour_json hour_now);
       ("unique_users", unique_users);
       ("ai_queries", ai_queries);
       ("voice_interactions", voice_interactions)].

(** The body of the [try] of [_add_location_intelligence]: the entity and the
    registry afterwards.  An exception leaves the entity as it was: the only
    statement that can raise after the prediction is the first write into a
    section [analytics] that is not a dict. *)
Definition add_popularity `{FileSystem} `{Floats} (models : gmap string bundle)
    (at_input at_peak : datetime) (enhanced : dict) : dict * gmap string bundle :=
  match popularity_input (hour at_input) enhanced with
  | Raise _ => (enhanced, models)
  | Ret location_input =>
      match models !! "location" with
      | None => (enhanced, models)
      | Some _ =>
          match predict models "location" location_input with
          | (PredictError _, models') => (enhanced, models')
          | (Prediction prediction confidence, models') =>
              match
                (e ← set_nested "analytics" "predicted_popularity" prediction enhanced;
                 e ← set_nested "analytics" "popularity_confidence"
                       (confidence_json confidence) e;
                 set_nested "analytics" "peak_hours"
                   (JList (hour_json <$> _predict_peak_hours (hour at_peak))) e)
              with
              | Ret e => (e, models')
              | Raise _ => (enhanced, models')
              end
          end
      end
  end.

(** The entity when [_generate_recommendations] is called. *)
Definition popularity_stage `{FileSystem} `{Floats} (models : gmap string bundle)
    (at_input at_peak : datetime) (location : dict) : dict * gmap string bundle :=
  let enhanced := location in
  if dict_mem "realtimeData" enhanced
  then add_popularity models at_input at_peak enhanced
  else (enhanced, models).

(** [_add_location_intelligence]: the entity returned (or the exception of
    [_generate_recommendations]) and the registry afterwards.  The three
    instants are the three readings of the clock. *)
Definition _add_location_intelligence `{FileSystem} `{PyFormat} `{Floats}
    (models : gmap string bundle) (at_input at_peak at_recommendations : datetime)
    (location : dict) : res dict * gmap string bundle :=
  let '(enhanced, models) := popularity_stage models at_input at_peak location in
  match _generate_recommendations (hour at_recommendations) enhanced with
  | Ret recommendations =>
      (Ret (dict_set "recommendations" (JList recommendations) enhanced), models)
  | Raise e => (Raise e, models)
  end.

(** *** The cache of enhanced locations *)

(** A list or a dict cannot be a key. *)
Definition hashable (v : json) : bool :=
  match v with
  | JList _ | JDict _ => false
  | _ => true
  end.

(** Equality of keys: numbers and booleans compare as numbers. *)
Definition key_eqb (a b : json) : bool :=
  match a, b with
  | JNull, JNull => true
  | JStr s, JStr t => String.eqb s t
  | (JNum _ | JBool _), (JNum _ | JBool _) =>
      match as_number a, as_number b with
      | Ret x, Ret y => Qeq_bool x y
      | _, _ => false
      end
  | _, _ => false
  end.

Abbreviation cache := (list (json * dict)).

Fixpoint cache_get (k : json) (c : cache) : option dict :=
  match c with
  | [] => None
  | (k', v) :: c' => if key_eqb k' k then Some v else cache_get k c'
  end.

Fixpoint cache_set (k : json) (v : dict) (c : cache) : cache :=
  match c with
  | [] => [(k, v)]
  | (k', v') :: c' => if key_eqb k' k then (k', v) :: c' else (k', v') :: cache_set k v c'
  end.

(** *** Enhancing a list of locations *)

(** The four readings of the clock while one location is enhanced. *)
Record readings : Type := {
  at_stamp : datetime;
  at_input : datetime;
  at_peak : datetime;
  at_recommendations : datetime
}.

Definition clock_of (t : datetime) : Clock := {| now := t |}.

(** The models that are not registered are loaded.  Each load writes its own
    key only, so the order of the dataset types does not matter. *)
Definition load_missing `{FileSystem} (datasets : gmap string DatasetConfig)
    (models : gmap string bundle) : gmap string bundle :=
  foldl (fun models dataset_type =>
           match models !! dataset_type with
           | Some _ => models
           | None => (load_model models dataset_type).2
           end)
        models (map_to_list datasets).*1.

(** The copy [enhance_location_data] works on, as far as its blocks got
    (before the stamps). *)
Definition enhance_partial `{FileSystem} `{Floats} (datasets : gmap string DatasetConfig)
    (models : gmap string bundle) (location_data : dict) : dict :=
  match enhance_subdomain datasets "network" "connectivity" "reliability_score"
          network_input location_data (location_data, models) with
  | (Raise _, _) => location_data
  | (Ret e1, m1) =>
      match enhance_subdomain datasets "social" "social" "enhanced_sentiment"
              social_input location_data (e1, m1) with
      | (Raise _, _) => e1
      | (Ret e2, _) => e2
      end
  end.

(** [location.copy()] is shallow: the sections [connectivity], [social] and
    [analytics] of a copy are the very objects of the original, and the
    writes into them are seen through the original.  [written_back location
    copy] is the original afterwards: these three sections as the copy has
    them, everything else as it was. *)
Definition written_back (location copy : dict) : dict :=
  foldl (fun original k =>
           match dict_get k original, dict_get k copy with
           | Some _, Some v => dict_set k v original
           | _, _ => original
           end)
        location ["connectivity"; "social"; "analytics"].

(** One turn of the loop of [enhance_locations]: the entries appended, the
    registry and the cache afterwards. *)
Definition enhance_one `{FileSystem} `{PyFormat} `{Floats}
    (datasets : gmap string DatasetConfig)
    (r : readings) (location : dict) (models : gmap string bundle)
    (location_cache : cache) : list dict * gmap string bundle * cache :=
  let location_id := get_or_none "id" location in
  if negb (hashable location_id) then ([location], models, location_cache)
  else
    match cache_get location_id location_cache with
    | Some cached => ([cached], models, location_cache)
    | None =>
        match enhance_location_data (H1 := clock_of (at_stamp r)) datasets models location with
        | (Raise _, models1) =>
            ([written_back location (enhance_partial datasets models location)],
             models1, location_cache)
        | (Ret enhanced_location, models1) =>
            let original :=
              written_back location
                (popularity_stage models1 (at_input r) (at_peak r) enhanced_location).1 in
            match _add_location_intelligence models1 (at_input r) (at_peak r)
                    (at_recommendations r) enhanced_location with
            | (Raise _, models2) => ([original], models2, location_cache)
            | (Ret enhanced_location, models2) =>
                let location_cache :=
                  if truthy location_id
                  then cache_set location_id enhanced_location location_cache
                  else location_cache in
                if dict_mem "name" enhanced_location
                then ([enhanced_location], models2, location_cache)
                else ([enhanced_location; original], models2, location_cache)
            end
        end
    end.

(** The loop; [clock_at i] holds the readings of the clock during turn
    [i]. *)
Fixpoint enhance_loop `{FileSystem} `{PyFormat} `{Floats}
    (datasets : gmap string DatasetConfig)
    (clock_at : nat -> readings) (i : nat) (locations : list dict)
    (models : gmap string bundle) (location_cache : cache)
  : list dict * gmap string bundle * cache :=
  match locations with
  | [] => ([], models, location_cache)
  | location :: rest =>
      let '(entries, models, location_cache) :=
        enhance_one datasets (clock_at i) location models location_cache in
      let '(enhanced_locations, models, location_cache) :=
        enhance_loop datasets clock_at (S i) rest models location_cache in
      ((entries ++ enhanced_locations)%list, models, location_cache)
  end.

(** [enhance_locations]: the list returned, the registry and the cache
    afterwards. *)
Definition enhance_locations `{FileSystem} `{PyFormat} `{Floats}
    (datasets : gmap string DatasetConfig)
    (clock_at : nat -> readings) (locations : list dict)
    (models : gmap string bundle) (location_cache : cache)
  : list dict * gmap string bundle * cache :=
  enhance_loop datasets clock_at 0 locations (load_missing datasets models) location_cache.

(** *** Writing the enhanced locations back *)

(** The [PATCH] request of [update_supabase]: the number of the request, the
    identifier as it appears in the address, the document sent; the status
    code, or the exception raised. *)
Class LocationTable : Type := {
  supabase_patch : nat -> string -> json -> res nat
}.

(** [update_data]; [t] is the instant the clock shows. *)
Definition update_data (t : datetime) (location : dict) : res json :=
  popularity ←
    py_get (dict_get_default "analytics" (JDict []) location) "predicted_popularity" JNull;
  peak_hours ← py_get (dict_get_default "analytics" (JDict []) location) "peak_hours" JNull;
  Ret (JDict
         [("enhanced_data",
           JDict [("deepmind_predictions",
                   JDict [("popularity", popularity);
                          ("peak_hours", peak_hours);
                          ("recommendations", get_or_none "recommendations" location)]);
                  ("enhancement_timestamp", JStr (isoformat t));
                  ("enhanced_by", JStr "DeepMind Earth Enhancer")])]).

(** The status codes counted as a success. *)
Definition status_ok (status_code : nat) : bool :=
  ((status_code =? 200) || (status_code =? 204))%nat.

(** One turn of the loop of [update_supabase]: the request sent, if any,
    and whether the turn counts as a success. *)
Definition update_one `{LocationTable} `{PyFormat} (i : nat) (t : datetime)
    (location : dict) : option (string * json) * bool :=
  let location_id := get_or_none "id" location in
  if negb (truthy location_id) then (None, false)
  else
    match update_data t location with
    | Raise _ => (None, false)
    | Ret data =>
        (Some (fstr location_id, data),
         match supabase_patch i (fstr location_id) data with
         | Ret status_code => status_ok status_code
         | Raise _ => false
         end)
    end.

(** The loop: the requests sent so far and [success_count]. *)
Fixpoint update_loop `{LocationTable} `{PyFormat} (clock_at : nat -> datetime) (i : nat)
    (locations : list dict) (sent : list (string * json)) (success_count : nat)
  : list (string * json) * nat :=
  match locations with
  | [] => (sent, success_count)
  | location :: rest =>
      let '(request, ok) := update_one i (clock_at i) location in
      update_loop clock_at (S i) rest
        (sent ++ match request with Some rq => [rq] | None => [] end)%list
        (if ok then S success_count else success_count)
  end.

(** [update_supabase]: the flag returned and the requests sent, in order. *)
Definition update_supabase `{Supabase} `{LocationTable} `{PyFormat}
    (clock_at : nat -> datetime) (enhanced_locations : list dict)
  : bool * list (string * json) :=
  if negb connect_to_supabase then (false, [])
  else
    let '(sent, success_count) := update_loop clock_at 0 enhanced_locations [] 0 in
    ((0 <? success_count)%nat, sent).

(** *** Examples *)

(** A location as [_generate_mock_locations] lays it out. *)
Definition mock_location : dict :=
  [("id", JStr "loc_48.8566_2.3522");
   ("name", JStr "Paris");
   ("coordinates", JList [JNum 2.3522; JNum 48.8566]);
   ("total_interactions", JNum 1200);
   ("last_interaction", JStr "2025-01-01T12:30:05");
   ("realtimeData",
    JDict [("weather", JDict [("temperature", JNum 12); ("conditions", JStr "Rainy");
                                ("humidity", JNum 60)]);
           ("social", JDict [("score", JNum 0.8); ("volume", JNum 500);
                               ("trending", JList [JStr "#paris"; JStr "#travel"])]);
           ("connectivity", JDict [("networkType", JStr "5G"); ("signalStrength", JNum 85);
                                     ("bandwidth", JNum 100); ("latency", JNum 20)])])].

(** A location without name and without realtime data. *)
Definition unnamed_location : dict :=
  [("id", JStr "loc_0_0"); ("total_interactions", JNum 10)].

(** A realtime connectivity section without signal strength. *)
Definition no_signal_location : dict :=
  [("name", JStr "Paris");
   ("realtimeData", JDict [("connectivity", JDict [("networkType", JStr "5G")])])].

Definition noon : datetime :=
  {| year := 2025; month := 1; day := 1; hour := 12; minute := 0; second := 0;
     microsecond := 0 |}.

Definition evening : datetime :=
  {| year := 2025; month := 1; day := 1; hour := 19; minute := 0; second := 0;
     microsecond := 0 |}.

Definition at_noon : readings :=
  {| at_stamp := noon; at_input := noon; at_peak := noon; at_recommendations := noon |}.

(** A table that accepts the update of one location only. *)
Definition one_row_table : LocationTable :=
  {| supabase_patch := fun _ location_id _ =>
       if String.eqb location_id "loc_0_0" then Ret 204%nat
       else Raise (ExternalError "connection reset") |}.

(** *** Arithmetic without rounding *)

(** The mean of the values of a column when all of them are finite; an
    infinity when the infinite values have one sign; NaN otherwise. *)
Definition finite_values (ys : list number) : list Q :=
  omap (fun y => match y with Finite q => Some q | Infinity _ => None end) ys.

Definition signs (ys : list number) : list bool :=
  omap (fun y => match y with Finite _ => None | Infinity negative => Some negative end) ys.

Definition exact_mean (xs : list (option number)) : option number :=
  match present xs with
  | [] => None
  | ys =>
      match signs ys with
      | [] =>
          Some (Finite (Qred (fold_right Qplus 0%Q (finite_values ys)
                              / inject_Z (Z.of_nat (length ys)))))
      | negative :: rest =>
          if forallb (Bool.eqb negative) rest then Some (Infinity negative) else None
      end
  end.

(** A stand-in for float arithmetic in which nothing is rounded; the example
    data below are computed with it. *)
#[global] Instance exact_floats : Floats :=
  {| float_product := Qmult; mean := exact_mean |}.

(** * Properties *)

(** ** Strings *)

Lemma append_cons (c : ascii) (a b : string) : String c a +:+ b = String c (a +:+ b).
Proof. reflexivity. Qed.

Lemma split_first_after_first (s : string) :
  PyStr.contains_underscore s = true ->
  s = (PyStr.split_first s +:+ "_") +:+ PyStr.after_first s.
Proof.
  induction s as [|c s IH]; simpl; [discriminate |].
  destruct (Ascii.eqb_spec c PyStr.underscore) as [-> | _]; [reflexivity |].
  intros H. rewrite !append_cons. f_equal. now apply IH.
Qed.

Lemma prefix_append (p s : string) : String.prefix p (p +:+ s) = true.
Proof.
  induction p as [|c p IH].
  - now destruct s.
  - rewrite append_cons. simpl.
    destruct (ascii_dec c c); [exact IH | congruence].
Qed.

Lemma replace_go_skip (old a s : string) :
  PyStr.replace_go old (a +:+ s) (String.length a) = PyStr.replace_go old s 0.
Proof.
  induction a as [|c a IH].
  - reflexivity.
  - rewrite append_cons. exact IH.
Qed.

Lemma remove_all_prefix (c : ascii) (p s : string) :
  PyStr.remove_all (String c p) (String c p +:+ s) = PyStr.remove_all (String c p) s.
Proof.
  unfold PyStr.remove_all.
  pose proof (prefix_append (String c p) s) as Hp.
  rewrite append_cons in *.
  cbn [PyStr.replace_go]. rewrite Hp.
  replace (String.length (String c p) - 1)%nat with (String.length p)
    by (cbn [String.length]; lia).
  apply replace_go_skip.
Qed.

Lemma remove_all_absent (old s : string) :
  PyStr.occurs old s = false -> PyStr.remove_all old s = s.
Proof.
  unfold PyStr.remove_all.
  induction s as [|c s IH]; [reflexivity |].
  cbn [PyStr.occurs PyStr.replace_go]. intros H.
  apply orb_false_elim in H as [Hp Ho].
  rewrite Hp. f_equal. now apply IH.
Qed.

Lemma append_underscore_cons (base : string) :
  exists c p, base +:+ "_" = String c p.
Proof. destruct base; [exists "_"%char, EmptyString | eexists _, _]; reflexivity. Qed.

(** A name [<base>_<rest>] with no further occurrence of [<base>_] loses
    exactly its prefix. *)
Lemma remove_all_base (base rest : string) :
  PyStr.occurs (base +:+ "_") rest = false ->
  PyStr.remove_all (base +:+ "_") ((base +:+ "_") +:+ rest) = rest.
Proof.
  intros H. destruct (append_underscore_cons base) as (c & p & E).
  rewrite E in *. rewrite remove_all_prefix. now apply remove_all_absent.
Qed.

(** ** Predictor: the rebuilt row *)

Lemma input_df_data_lookup (input_data : dict) (features : list string)
    (d : gmap string json) (f : string) :
  fold_left (fun d feature => <[feature := cell input_data feature]> d) features d !! f
  = if decide (f ∈ features) then Some (cell input_data f) else d !! f.
Proof.
  revert d. induction features as [|g features IH]; intros d; cbn [fold_left].
  - rewrite decide_False; [reflexivity | apply not_elem_of_nil].
  - rewrite IH. destruct (decide (f ∈ features)) as [Hin | Hnin].
    + rewrite decide_True; [reflexivity | now apply list_elem_of_further].
    + destruct (decide (g = f)) as [-> | Hne].
      * rewrite decide_True by apply list_elem_of_here. apply lookup_insert_eq.
      * rewrite decide_False.
        -- now apply lookup_insert_ne.
        -- intros Hc. apply elem_of_cons in Hc as [Hc | Hc]; [congruence | contradiction].
Qed.

(** The row holds, in the stored order, the cell of each feature. *)
Lemma feature_row_cells (input_data : dict) (features : list string) :
  feature_row input_data features = cell input_data <$> features.
Proof.
  unfold feature_row, input_df_data.
  apply list_fmap_ext. intros i f Hf.
  rewrite input_df_data_lookup. rewrite decide_True; [reflexivity |].
  apply list_elem_of_lookup. eauto.
Qed.

(** The one-hot branch on a name whose base is not empty and does not occur
    again. *)
Lemma cell_one_hot (input_data : dict) (feature : string) (v : json) :
  PyStr.contains_underscore feature = true ->
  PyStr.nonempty (PyStr.split_first feature) = true ->
  PyStr.occurs (PyStr.split_first feature +:+ "_") (PyStr.after_first feature) = false ->
  dict_get (PyStr.split_first feature) input_data = Some v ->
  cell input_data feature
  = if eq_str v (PyStr.after_first feature) then JNum 1 else JNum 0.
Proof.
  intros Hu Hne Hocc Hget. unfold cell, base_feature_name.
  rewrite Hu, Hne, Hget.
  rewrite (split_first_after_first feature Hu) at 2.
  now rewrite remove_all_base.
Qed.

(** The primitives on the names the script handles. *)
Example split_first_network_type : PyStr.split_first "network_type_5G" = "network".
Proof. reflexivity. Qed.

Example remove_all_network : PyStr.remove_all "network_" "network_type_5G" = "type_5G".
Proof. reflexivity. Qed.

Example remove_all_every_occurrence : PyStr.remove_all "a_" "a_a_b" = "b".
Proof. reflexivity. Qed.

(** The end-to-end request of the specification: the numeric feature is used
    directly, the two indicator columns of [network_type] are 0. *)
Example feature_row_end_to_end :
  feature_row [("network_type", JStr "5G"); ("signal_strength", JNum 80)]
    ["network_type_4G"; "network_type_5G"; "signal_strength"]
  = [JNum 0; JNum 0; JNum 80].
Proof. vm_compute. reflexivity. Qed.

(** [str.replace] removes every occurrence of [<base>_]: on the stored name
    [a_a_b] the input value [a_b], the rest of the name after the prefix, is
    compared with [b]. *)
Example cell_repeated_base : cell [("a", JStr "a_b")] "a_a_b" = JNum 0.
Proof. reflexivity. Qed.

(** C10 (as stated) fails when the text before the first underscore is empty:
    for the stored name [_x] and an input with the key [""] the one-hot rule
    is not applied, the cell falls through to the default. *)
Lemma first_underscore_rule_empty_base_counterexample :
  ~ (forall (input_data : dict) (feature : string) (v : json),
        PyStr.contains_underscore feature = true ->
        dict_get (PyStr.split_first feature) input_data = Some v ->
        cell input_data feature
        = if eq_str v (PyStr.after_first feature) then JNum 1 else JNum 0).
Proof.
  intros H.
  specialize (H [("", JStr "x")] "_x" (JStr "x") eq_refl eq_refl).
  vm_compute in H. discriminate H.
Qed.

(** C10 (amended): for every stored feature name that contains an underscore,
    the predictor takes the text before the first underscore as the one-hot
    base.  When that base is not empty, is a key of the input mapping, and
    [<base>_] does not occur again in the rest of the name, the cell of the
    row is 1 if the input value at the base equals the rest of the name and 0
    otherwise, whether or not the full name is itself a key of the input. *)
Theorem first_underscore_precedence (input_data : dict) (features : list string)
    (i : nat) (feature : string) (v : json) :
  features !! i = Some feature ->
  PyStr.contains_underscore feature = true ->
  PyStr.nonempty (PyStr.split_first feature) = true ->
  PyStr.occurs (PyStr.split_first feature +:+ "_") (PyStr.after_first feature) = false ->
  dict_get (PyStr.split_first feature) input_data = Some v ->
  base_feature_name feature = Some (PyStr.split_first feature)
  /\ feature_row input_data features !! i
     = Some (if eq_str v (PyStr.after_first feature) then JNum 1 else JNum 0).
Proof.
  intros Hi Hu Hne Hocc Hget. split.
  - unfold base_feature_name. now rewrite Hu.
  - rewrite feature_row_cells, list_lookup_fmap, Hi. simpl.
    f_equal. now apply cell_one_hot.
Qed.

(** The example of the claim: the stored name [signal_strength] with the input
    keys [signal] and [signal_strength]. *)
Lemma first_underscore_precedence_witness :
  feature_row [("signal", JStr "strength"); ("signal_strength", JNum 80)]
    ["signal_strength"] !! 0%nat
  = Some (JNum 1).
Proof.
  exact (proj2 (first_underscore_precedence
                  [("signal", JStr "strength"); ("signal_strength", JNum 80)]
                  ["signal_strength"] 0 "signal_strength" (JStr "strength")
                  eq_refl eq_refl eq_refl eq_refl eq_refl)).
Defined.

(** ** One-hot round trip *)

(** C1: on the categorical feature [network_type] with the observed values
    4G and 5G, the preprocessor stores the columns [network_type_4G] and
    [network_type_5G], and the predictor rebuilds the row [0, 0] for the input
    [network_type = 4G]: the round trip does not give [1, 0]. *)
Theorem one_hot_round_trip_fails_network_type `{FL : Floats} :
  (exists df,
      preprocess_data {["network" := network_config]} network_table "network"
      = Ret (df, ["network_type_4G"; "network_type_5G"]))
  /\ feature_row [("network_type", JStr "4G")] ["network_type_4G"; "network_type_5G"]
     = [JNum 0; JNum 0].
Proof.
  split.
  - eexists. vm_compute. reflexivity.
  - vm_compute. reflexivity.
Qed.

(** On a feature name without underscore the round trip works: the cell of the
    column [<f>_<value>] is 1 exactly for the observed value that the input
    carries. *)
Lemma one_hot_round_trip_plain_name (f value : string) (input_data : dict) (v : json) :
  PyStr.contains_underscore f = false ->
  PyStr.nonempty f = true ->
  PyStr.occurs (f +:+ "_") value = false ->
  dict_get f input_data = Some v ->
  cell input_data ((f +:+ "_") +:+ value) = if eq_str v value then JNum 1 else JNum 0.
Proof.
  intros Hu Hne Hocc Hget. unfold cell, base_feature_name.
  assert (Hc : PyStr.contains_underscore ((f +:+ "_") +:+ value) = true).
  { clear -f. induction f as [|c f IH]; [reflexivity |].
    rewrite !append_cons. simpl. now destruct (Ascii.eqb c PyStr.underscore). }
  assert (Hs : PyStr.split_first ((f +:+ "_") +:+ value) = f).
  { clear -Hu. induction f as [|c f IH]; [reflexivity |].
    rewrite !append_cons. simpl in *.
    destruct (Ascii.eqb c PyStr.underscore); [discriminate |]. now rewrite IH. }
  rewrite Hc, Hs, Hne, Hget. now rewrite remove_all_base.
Qed.

(** ** Preprocessor: the shape of the cleaned table *)

Lemma get_has_rows (n : nat) (df : DataFrame) (col : string) (s : series) :
  has_rows n df -> Pandas.get col df = Some s -> series_len s = n.
Proof.
  unfold has_rows. induction 1 as [|[c s'] df Hc _ IH]; simpl; [discriminate |].
  destruct (String.eqb c col); [intros [= <-]; exact Hc | exact IH].
Qed.

Lemma set_has_rows (n : nat) (df : DataFrame) (col : string) (s : series) :
  series_len s = n -> has_rows n df -> has_rows n (Pandas.set col s df).
Proof.
  unfold has_rows. intros Hs. induction 1 as [|[c s'] df Hc Hdf IH]; simpl.
  - repeat constructor. exact Hs.
  - destruct (String.eqb c col); constructor; auto.
Qed.

Lemma set_columns (df : DataFrame) (col : string) (s s0 : series) :
  Pandas.get col df = Some s0 -> columns (Pandas.set col s df) = columns df.
Proof.
  unfold columns. induction df as [|[c s'] df IH]; simpl; [discriminate |].
  destruct (String.eqb c col); [reflexivity |].
  intros H. simpl. f_equal. now apply IH.
Qed.

Lemma length_fillna {A : Type} (v : A) (xs : list (option A)) :
  length (fillna v xs) = length xs.
Proof. unfold fillna. apply length_fmap. Qed.

Lemma impute_columns `{FL : Floats} (df : DataFrame) (col : string) :
  columns (impute df col) = columns df.
Proof.
  unfold impute. destruct (Pandas.get col df) as [[xs | xs] |] eqn:E;
    [eapply set_columns; eauto .. | reflexivity].
Qed.

Lemma fold_impute_columns `{FL : Floats} (cols : list string) (df : DataFrame) :
  columns (fold_left impute cols df) = columns df.
Proof.
  revert df. induction cols as [|c cols IH]; intros df; [reflexivity |].
  simpl. now rewrite IH, impute_columns.
Qed.

Lemma impute_has_rows `{FL : Floats} (n : nat) (df : DataFrame) (col : string) :
  has_rows n df -> has_rows n (impute df col).
Proof.
  intros H. unfold impute.
  destruct (Pandas.get col df) as [[xs | xs] |] eqn:E; [| | exact H].
  - apply set_has_rows; [| exact H].
    pose proof (get_has_rows _ _ _ _ H E) as Hl. simpl in *.
    destruct (mean xs); [now rewrite length_fillna | exact Hl].
  - apply set_has_rows; [| exact H].
    pose proof (get_has_rows _ _ _ _ H E) as Hl. simpl in *.
    now rewrite length_fillna.
Qed.

Lemma fold_impute `{FL : Floats} (n : nat) (cols : list string) (df : DataFrame) :
  has_rows n df ->
  columns (fold_left impute cols df) = columns df
  /\ has_rows n (fold_left impute cols df).
Proof.
  revert df. induction cols as [|col cols IH]; intros df H; simpl; [auto |].
  destruct (IH (impute df col) (impute_has_rows _ _ _ H)) as [Hc Hr].
  split; [| exact Hr]. now rewrite Hc, impute_columns.
Qed.

Lemma get_dummies_has_rows (n : nat) (df : DataFrame) (col : string)
    (xs : list (option string)) :
  has_rows n df -> length xs = n -> has_rows n (get_dummies df col xs).
Proof.
  unfold has_rows, get_dummies, drop_column. intros H Hl.
  apply Forall_app. split.
  - apply Forall_forall. intros cs Hin.
    apply list_elem_of_In, filter_In in Hin as [Hin _].
    rewrite Forall_forall in H. apply H. now apply list_elem_of_In.
  - apply Forall_fmap, Forall_forall. intros v _. simpl.
    now rewrite length_fmap.
Qed.

Lemma get_dummies_keeps (df : DataFrame) (col c : string) (xs : list (option string)) :
  c <> col -> c ∈ columns df -> c ∈ columns (get_dummies df col xs).
Proof.
  unfold columns, get_dummies, drop_column. intros Hne Hin.
  rewrite fmap_app. apply elem_of_app. left.
  apply list_elem_of_fmap in Hin as ([c' s] & -> & Hin).
  apply list_elem_of_fmap. exists (c', s). split; [reflexivity |].
  apply list_elem_of_In, filter_In. split; [now apply list_elem_of_In |].
  simpl in *. apply negb_true_iff. now apply String.eqb_neq.
Qed.

Lemma expand_has_rows (n : nat) (st : list string * DataFrame) (col : string) :
  has_rows n st.2 -> has_rows n (expand st col).2.
Proof.
  intros H. unfold expand.
  destruct (Pandas.get col st.2) as [[xs | xs] |] eqn:E; [exact H | | exact H].
  simpl. apply get_dummies_has_rows; [exact H |].
  exact (get_has_rows _ _ _ _ H E).
Qed.

Lemma expand_keeps (st : list string * DataFrame) (col c : string) :
  c <> col -> c ∈ columns st.2 -> c ∈ columns (expand st col).2.
Proof.
  intros Hne Hin. unfold expand.
  destruct (Pandas.get col st.2) as [[xs | xs] |]; [exact Hin | | exact Hin].
  simpl. now apply get_dummies_keeps.
Qed.

Lemma fold_expand (n : nat) (features : list string) (st : list string * DataFrame) :
  has_rows n st.2 ->
  has_rows n (fold_left expand features st).2
  /\ forall c, c ∉ features -> c ∈ columns st.2 ->
               c ∈ columns (fold_left expand features st).2.
Proof.
  revert st. induction features as [|col features IH]; intros st H; simpl; [auto |].
  destruct (IH (expand st col) (expand_has_rows _ _ _ H)) as [Hr Hk].
  split; [exact Hr |]. intros c Hc Hin.
  apply not_elem_of_cons in Hc as [Hne Hc].
  apply Hk; [exact Hc |]. now apply expand_keeps.
Qed.

Lemma feature_columns_in (cat : list string) (df : DataFrame) (feature c : string) :
  c ∈ feature_columns cat df feature -> c ∈ columns df.
Proof.
  unfold feature_columns.
  destruct (existsb (String.eqb feature) cat).
  - intros H. apply list_elem_of_In, filter_In in H as [H _]. now apply list_elem_of_In.
  - destruct (has_column feature df) eqn:E; [| intros H; inversion H].
    intros H. apply list_elem_of_singleton in H as ->.
    unfold has_column in E. apply existsb_exists in E as (c & Hin & Heq).
    apply String.eqb_eq in Heq as ->. now apply list_elem_of_In.
Qed.

(** ** Preprocessor: repeated column names *)

Lemma columns_drop_column (col : string) (df : DataFrame) :
  columns (drop_column col df)
  = List.filter (fun c => negb (String.eqb c col)) (columns df).
Proof.
  unfold columns, drop_column. induction df as [|[c s] df IH]; [reflexivity |].
  cbn [List.filter fmap list_fmap fst].
  destruct (negb (String.eqb c col)); cbn [fmap list_fmap fst]; [f_equal |]; exact IH.
Qed.

Lemma filter_filter_length {A : Type} (p q : A -> bool) (l : list A) :
  length (List.filter p (List.filter q l)) <= length (List.filter p l).
Proof.
  induction l as [|x l IH]; [reflexivity |]. simpl.
  destruct (q x), (p x) eqn:E; simpl; rewrite ?E; simpl; lia.
Qed.

Lemma prefix_created (f v : string) : PyStr.startswith (f +:+ "_" +:+ v) (f +:+ "_") = true.
Proof.
  unfold PyStr.startswith. induction f as [|c f IH].
  - simpl. now destruct v.
  - rewrite !append_cons. simpl. destruct (ascii_dec c c); [exact IH | congruence].
Qed.

(** A name that occurs among the indicator columns of [f] starts with [f_]. *)
Lemma created_occurs (c f : string) (xs : list (option string)) (ls : list string) :
  (0 < length (List.filter (String.eqb c)
                 (columns ((fun v => (f +:+ "_" +:+ v, indicator v xs)) <$> ls))))%nat ->
  PyStr.startswith c (f +:+ "_") = true.
Proof.
  unfold columns. induction ls as [|v ls IH]; simpl; [lia |].
  destruct (String.eqb c (f +:+ "_" +:+ v)) eqn:E; [| exact IH].
  intros _. apply String.eqb_eq in E as ->. apply prefix_created.
Qed.

Lemma NoDup_not_duplicated (c : string) (df : DataFrame) :
  NoDup (columns df) -> duplicated c df = false.
Proof.
  unfold duplicated. intros Hnd. apply Nat.ltb_ge.
  induction Hnd as [|x l Hx _ IH]; [simpl; lia |]. simpl.
  destruct (String.eqb c x) eqn:E; [| exact IH].
  apply String.eqb_eq in E as <-. simpl.
  assert (Hnone : List.filter (String.eqb c) l = []).
  { clear IH. induction l as [|y l IHl]; [reflexivity |]. simpl.
    apply not_elem_of_cons in Hx as [Hne Hx].
    apply String.eqb_neq in Hne. rewrite Hne. now apply IHl. }
  rewrite Hnone. simpl. lia.
Qed.

(** The names that several columns share were made by [get_dummies]. *)
Definition repeats_are_made (features : list string) (df : DataFrame) : Prop :=
  forall c, duplicated c df = true ->
            exists g, g ∈ features /\ PyStr.startswith c (g +:+ "_") = true.

Lemma expand_repeats (features : list string) (st : list string * DataFrame) (f : string) :
  f ∈ features ->
  repeats_are_made features st.2 -> repeats_are_made features (expand st f).2.
Proof.
  intros Hf Hinv. unfold expand.
  destruct (Pandas.get f st.2) as [[xs | xs] |]; [exact Hinv | | exact Hinv].
  cbn [snd]. intros c Hdup. unfold duplicated, get_dummies in Hdup.
  unfold columns in Hdup. rewrite fmap_app, List.filter_app, length_app in Hdup.
  fold (columns (drop_column f st.2)) in Hdup.
  fold (columns ((fun v => (f +:+ "_" +:+ v, indicator v xs)) <$> levels xs)) in Hdup.
  apply Nat.ltb_lt in Hdup.
  destruct (length (List.filter (String.eqb c)
                      (columns ((fun v => (f +:+ "_" +:+ v, indicator v xs)) <$> levels xs))))
    as [|k] eqn:Hmade.
  - apply Hinv. unfold duplicated. apply Nat.ltb_lt.
    rewrite columns_drop_column in Hdup.
    pose proof (filter_filter_length (String.eqb c) (fun c0 => negb (String.eqb c0 f))
                  (columns st.2)).
    lia.
  - exists f. split; [exact Hf |]. apply (created_occurs c f xs (levels xs)). lia.
Qed.

Lemma prefix_free_spec (features : list string) (f g : string) :
  prefix_free features = true -> f ∈ features -> g ∈ features ->
  PyStr.startswith f (g +:+ "_") = false.
Proof.
  unfold prefix_free. rewrite forallb_forall. intros Hfree Hf Hg.
  specialize (Hfree f (proj1 (list_elem_of_In _ _) Hf)).
  rewrite forallb_forall in Hfree.
  specialize (Hfree g (proj1 (list_elem_of_In _ _) Hg)).
  now apply negb_true_iff in Hfree.
Qed.

(** With feature names that do not extend one another, every [df[col]] of
    the expansion loop is a column. *)
Lemma fold_expand_checked_returns (features : list string) :
  prefix_free features = true ->
  forall fs st,
    (forall f, f ∈ fs -> f ∈ features) ->
    repeats_are_made features st.2 ->
    is_ret (fold_left expand_checked fs (Ret st)) = true.
Proof.
  intros Hfree. induction fs as [|f fs IH]; intros st Hfs Hinv; [reflexivity |].
  cbn [fold_left]. unfold expand_checked at 2. cbn [mbind res_bind].
  assert (Hf : f ∈ features) by (apply Hfs, list_elem_of_here).
  destruct (duplicated f st.2) eqn:Hdup.
  - destruct (Hinv f Hdup) as (g & Hg & Hstart).
    now rewrite (prefix_free_spec features f g Hfree Hf Hg) in Hstart.
  - apply IH.
    + intros f' Hf'. apply Hfs. now apply list_elem_of_further.
    + now apply expand_repeats.
Qed.

(** When the checked loop returns, it returns what the plain loop gives. *)
Lemma fold_expand_checked_ret (fs : list string) :
  forall r st,
    fold_left expand_checked fs r = Ret st ->
    exists st0, r = Ret st0 /\ st = fold_left expand fs st0.
Proof.
  induction fs as [|f fs IH]; intros r st Hrun; [eauto |].
  cbn [fold_left] in Hrun. destruct (IH _ _ Hrun) as (st1 & Hstep & ->).
  unfold expand_checked in Hstep. destruct r as [st0 | e]; [| discriminate].
  cbn [mbind res_bind] in Hstep.
  destruct (duplicated f st0.2); [discriminate |]. injection Hstep as <-. eauto.
Qed.

(** The loop raises nothing but the [AttributeError] of a repeated name. *)
Lemma fold_expand_checked_raise (fs : list string) :
  forall r e,
    fold_left expand_checked fs r = Raise e -> r = Raise e \/ e = AttributeError.
Proof.
  induction fs as [|f fs IH]; intros r e Hrun; [now left |].
  cbn [fold_left] in Hrun. destruct (IH _ _ Hrun) as [Hstep | ->]; [| now right].
  unfold expand_checked in Hstep. destruct r as [st0 | e0]; [| now left].
  cbn [mbind res_bind] in Hstep.
  destruct (duplicated f st0.2); [| discriminate]. injection Hstep as <-. now right.
Qed.

(** [preprocess_data] returns the table and the feature list of
    [preprocess_table] whenever it returns. *)
Lemma preprocess_data_table `{FL : Floats} (datasets : gmap string DatasetConfig)
    (df : DataFrame) (dataset_type : string) (cfg : DatasetConfig)
    (r : DataFrame * list string) :
  datasets !! dataset_type = Some cfg ->
  preprocess_data datasets df dataset_type = Ret r ->
  r = preprocess_table (ds_features cfg) (ds_target cfg) df.
Proof.
  intros Hcfg. unfold preprocess_data, dataset_info. rewrite Hcfg.
  cbn [mbind res_bind]. intros Hrun.
  destruct (fold_left expand_checked (ds_features cfg) _) as [st | e] eqn:E;
    [| discriminate].
  cbn [mbind res_bind] in Hrun.
  apply fold_expand_checked_ret in E as (st0 & [= <-] & ->).
  now injection Hrun as <-.
Qed.

Lemma preprocess_data_returns `{FL : Floats} (datasets : gmap string DatasetConfig)
    (df : DataFrame) (dataset_type : string) (cfg : DatasetConfig) :
  datasets !! dataset_type = Some cfg ->
  NoDup (columns df) ->
  prefix_free (ds_features cfg) = true ->
  is_ret (preprocess_data datasets df dataset_type) = true.
Proof.
  intros Hcfg Hnd Hfree. unfold preprocess_data, dataset_info. rewrite Hcfg.
  cbn [mbind res_bind].
  set (df1 := fold_left impute (ds_features cfg ++ [ds_target cfg])%list df).
  assert (Hinv : repeats_are_made (ds_features cfg) df1).
  { intros c Hdup. rewrite NoDup_not_duplicated in Hdup; [discriminate |].
    subst df1. now rewrite fold_impute_columns. }
  pose proof (fold_expand_checked_returns (ds_features cfg) Hfree (ds_features cfg)
                ([], df1) (fun f Hf => Hf) Hinv) as Hret.
  destruct (fold_left expand_checked (ds_features cfg) (Ret ([], df1))); [reflexivity |].
  discriminate.
Qed.

(** C9 (as stated) fails: a column that is neither the target nor a feature
    (here [timestamp], as in the script's mock data) stays in the cleaned
    table. *)
Lemma preprocess_exact_columns_counterexample :
  ~ (forall (FL : Floats) (datasets : gmap string DatasetConfig) (df : DataFrame)
            (dataset_type : string) (cfg : DatasetConfig) (cleaned : DataFrame)
            (new_features : list string),
        datasets !! dataset_type = Some cfg ->
        preprocess_data datasets df dataset_type = Ret (cleaned, new_features) ->
        forall c, c ∈ columns cleaned -> c = ds_target cfg \/ c ∈ new_features).
Proof.
  intros H.
  specialize (H exact_floats {["network" := network_config]}
                (network_table ++ [("timestamp", ObjSeries [Some "t1"; Some "t2"; Some "t3"])])%list
                "network" network_config _ _ eq_refl eq_refl "timestamp").
  destruct H as [H | H].
  - vm_compute. apply list_elem_of_In. simpl. tauto.
  - discriminate H.
  - vm_compute in H. apply list_elem_of_In in H. simpl in H.
    destruct H as [H | [H | []]]; discriminate H.
Qed.

(** C9 (amended): for every raw table with distinct column names and every
    configured dataset type, whenever [preprocess_data] returns, the cleaned
    table contains every expanded feature column and keeps every input column
    that is not a configured feature (the target and the unrelated columns
    stay), and no rows are dropped: every column of the cleaned table has as
    many rows as the raw table.  It returns when no configured feature name
    is another configured feature name followed by an underscore; otherwise
    an indicator column can take the name of a feature that is looked at
    later, and the only exception raised is the [AttributeError] of that
    look-up. *)
Theorem preprocess_shape `{FL : Floats} (datasets : gmap string DatasetConfig)
    (df : DataFrame) (dataset_type : string) (cfg : DatasetConfig) (n : nat) :
  datasets !! dataset_type = Some cfg ->
  has_rows n df ->
  NoDup (columns df) ->
  (forall cleaned new_features,
      preprocess_data datasets df dataset_type = Ret (cleaned, new_features) ->
      (forall c, c ∈ new_features -> c ∈ columns cleaned)
      /\ (forall c, c ∈ columns df -> c ∉ ds_features cfg -> c ∈ columns cleaned)
      /\ has_rows n cleaned)
  /\ (prefix_free (ds_features cfg) = true ->
      is_ret (preprocess_data datasets df dataset_type) = true)
  /\ (forall e,
         preprocess_data datasets df dataset_type = Raise e ->
         e = AttributeError /\ prefix_free (ds_features cfg) = false).
Proof.
  intros Hcfg Hrows Hnd. split; [| split].
  - intros cleaned new_features Hrun.
    apply (preprocess_data_table _ _ _ _ _ Hcfg) in Hrun.
    unfold preprocess_table in Hrun.
    set (df1 := fold_left impute (ds_features cfg ++ [ds_target cfg])%list df) in Hrun.
    set (st := fold_left expand (ds_features cfg) ([], df1)) in Hrun.
    injection Hrun as -> ->.
    destruct (fold_impute n (ds_features cfg ++ [ds_target cfg])%list df Hrows) as [Hc1 Hr1].
    destruct (fold_expand n (ds_features cfg) ([], df1) Hr1) as [Hr2 Hk].
    split; [| split; [| exact Hr2]].
    + intros c Hc. apply list_elem_of_In, in_flat_map in Hc as (f & _ & Hc).
      eapply feature_columns_in. apply list_elem_of_In. exact Hc.
    + intros c Hc Hnf. apply Hk; [exact Hnf |].
      change (c ∈ columns df1). subst df1. now rewrite Hc1.
  - now apply preprocess_data_returns.
  - intros e Hrun. assert (He : e = AttributeError).
    { unfold preprocess_data, dataset_info in Hrun. rewrite Hcfg in Hrun.
      cbn [mbind res_bind] in Hrun.
      destruct (fold_left expand_checked (ds_features cfg) _) as [st | e0] eqn:Hloop;
        [discriminate |].
      injection Hrun as ->.
      destruct (fold_expand_checked_raise _ _ _ Hloop) as [Habs | ->];
        [discriminate | reflexivity]. }
    split; [exact He |].
    destruct (prefix_free (ds_features cfg)) eqn:Hfree; [| reflexivity].
    pose proof (preprocess_data_returns datasets df dataset_type cfg Hcfg Hnd Hfree) as Hret.
    now rewrite Hrun in Hret.
Qed.

Lemma preprocess_shape_witness :
  exists cleaned new_features,
    preprocess_data {["network" := network_config]} network_table "network"
    = Ret (cleaned, new_features)
    /\ (forall c, c ∈ new_features -> c ∈ columns cleaned)
    /\ (forall c, c ∈ columns network_table -> c ∉ ds_features network_config ->
                  c ∈ columns cleaned)
    /\ has_rows 3 cleaned.
Proof.
  destruct (preprocess_shape {["network" := network_config]} network_table "network"
              network_config 3) as (Hshape & Hret & _).
  - reflexivity.
  - repeat constructor.
  - repeat constructor; rewrite ?elem_of_cons, ?elem_of_nil; intuition discriminate.
  - destruct (preprocess_data {["network" := network_config]} network_table "network")
      as [[cleaned new_features] | e]; [| specialize (Hret eq_refl); discriminate Hret].
    exists cleaned, new_features. split; [reflexivity |]. now apply Hshape.
Defined.

(** The case the condition excludes: the category [type] of the feature [net]
    gives the indicator column [net_type], a name the table has already; the
    look-up of the feature [net_type] then raises. *)
Example preprocess_name_clash `{FL : Floats} :
  preprocess_data
    {["network" := {| ds_id := "network-data"; ds_table := None;
                      ds_features := ["net"; "net_type"];
                      ds_target := "reliability_score" |}]}
    [("net", ObjSeries [Some "type"]); ("net_type", ObjSeries [Some "5G"]);
     ("reliability_score", NumSeries [Some (Finite 0.9)])]
    "network"
  = Raise AttributeError.
Proof. vm_compute. reflexivity. Qed.

(** ** Embedding pipeline *)

Section Embedding.

Context `{GenAI}.

Lemma text_chunk_without_embedding (table rid model : string) (chunks : list string) :
  text_chunk <$> without_embedding table rid model chunks = chunks.
Proof.
  unfold without_embedding. rewrite <- list_fmap_compose.
  induction chunks as [|c chunks IH]; [reflexivity |]. simpl. now f_equal.
Qed.

Lemma embedding_without_embedding (table rid model : string) (chunks : list string) :
  Forall (fun r => embedding r = None) (without_embedding table rid model chunks).
Proof. unfold without_embedding. apply Forall_fmap, Forall_forall. now intros. Qed.

Lemma zip_with_projections {A B C D E : Type} (f : A -> B -> C) (g : C -> D) (h : C -> E)
    (ga : A -> D) (hb : B -> E) (l : list A) (k : list B) :
  (forall a b, g (f a b) = ga a) -> (forall a b, h (f a b) = hb b) ->
  length k = length l ->
  g <$> zip_with f l k = ga <$> l /\ h <$> zip_with f l k = hb <$> k.
Proof.
  intros Hg Hh. revert k. induction l as [|a l IH]; intros [|b k] Hl;
    try discriminate; [split; reflexivity |].
  injection Hl as Hl. destruct (IH k Hl) as [IH1 IH2].
  simpl. rewrite Hg, Hh. split; f_equal; assumption.
Qed.

(** The records of one batch carry the chunks of the batch, in order. *)
Lemma text_chunk_embed_batch (table rid : string) (i : nat) (batch : list string) :
  text_chunk <$> embed_batch table rid i batch = batch.
Proof.
  unfold embed_batch.
  destruct (embed_content _ _ _) as [response | e];
    [| apply text_chunk_without_embedding].
  simpl. destruct (Nat.eqb_spec (length (default [] response)) (length batch)) as [E | _];
    [| apply text_chunk_without_embedding].
  match goal with
  | |- _ <$> zip_with ?f _ _ = _ =>
      destruct (zip_with_projections f text_chunk embedding id Some batch
                  (default [] response)) as [Ht _]; [reflexivity .. | exact E |]
  end.
  rewrite Ht. apply list_fmap_id.
Qed.

(** All or nothing: a batch whose call fails gets no vector at all. *)
Lemma embed_batch_fails (table rid : string) (k : nat) (batch : list string) :
  batch_fails k batch ->
  embed_batch table rid (k * batch_size) batch
  = without_embedding table rid embedding_model batch.
Proof.
  unfold batch_fails, embed_batch.
  rewrite Nat.div_mul by discriminate.
  destruct (embed_content _ _ _) as [response | e]; [| reflexivity].
  intros Hne. simpl. now apply Nat.eqb_neq in Hne as ->.
Qed.

(** A batch whose call returns one vector per chunk gets exactly these. *)
Lemma embed_batch_succeeds (table rid : string) (k : nat) (batch : list string)
    (vectors : list (list Q)) :
  embed_content k embedding_model batch = Ret (Some vectors) ->
  length vectors = length batch ->
  embedding <$> embed_batch table rid (k * batch_size) batch = Some <$> vectors.
Proof.
  unfold embed_batch. rewrite Nat.div_mul by discriminate.
  intros -> Hl. simpl. rewrite Hl, Nat.eqb_refl.
  match goal with
  | |- _ <$> zip_with ?f _ _ = _ =>
      destruct (zip_with_projections f text_chunk embedding id Some batch vectors)
        as [_ He]; [reflexivity .. | exact Hl |]
  end.
  exact He.
Qed.

Lemma fold_left_append {A B : Type} (g : A -> list B) (l : list A) (acc : list B) :
  fold_left (fun results i => (results ++ g i)%list) l acc
  = (acc ++ concat (g <$> l))%list.
Proof.
  revert acc. induction l as [|a l IH]; intros acc; simpl.
  - now rewrite app_nil_r.
  - now rewrite IH, app_assoc.
Qed.

(** The loop appends, batch after batch, the records of every batch. *)
Lemma embed_batches_concat (text_chunks : list string) (table rid : string) :
  embed_batches text_chunks table rid
  = concat ((fun k => embed_batch table rid (k * batch_size)
                        (slice (k * batch_size) (k * batch_size + batch_size) text_chunks))
              <$> seq 0 ((length text_chunks + batch_size - 1) / batch_size)).
Proof.
  unfold embed_batches, range_step.
  rewrite (fold_left_append
             (fun i => embed_batch table rid i (slice i (i + batch_size) text_chunks))).
  simpl. now rewrite <- list_fmap_compose.
Qed.

End Embedding.

Lemma fmap_concat_blocks {A B C : Type} (f : B -> C) (g : A -> list B) (l : list A) :
  f <$> concat (g <$> l) = concat ((fun x => f <$> g x) <$> l).
Proof.
  induction l as [|a l IH]; [reflexivity |].
  rewrite !fmap_cons. cbn [concat]. now rewrite fmap_app, IH.
Qed.

(** Cutting a list into consecutive slices of [b] elements loses nothing. *)
Lemma concat_slices {A : Type} (b m : nat) (l : list A) :
  (0 < b)%nat -> (length l <= m * b)%nat ->
  concat ((fun k => slice (k * b) (k * b + b) l) <$> seq 0 m) = l.
Proof.
  intros Hb. revert l. induction m as [|m IH]; intros l Hl.
  - destruct l; [reflexivity | simpl in Hl; lia].
  - rewrite <- cons_seq, <- fmap_S_seq. rewrite fmap_cons, <- list_fmap_compose.
    simpl concat.
    transitivity (take b l ++ drop b l)%list; [| apply take_drop]. f_equal.
    + unfold slice. simpl. now rewrite Nat.sub_0_r.
    + rewrite <- (IH (drop b l)) by (rewrite length_drop; lia).
      f_equal. apply list_fmap_ext. intros _ k _. unfold slice. simpl.
      rewrite drop_drop.
      replace (b + k * b + b - (b + k * b))%nat with b by lia.
      now replace (k * b + b - k * b)%nat with b by lia.
Qed.

Lemma batches_cover (n : nat) : (n <= (n + batch_size - 1) / batch_size * batch_size)%nat.
Proof.
  unfold batch_size.
  pose proof (Nat.div_mod_eq (n + 100 - 1) 100).
  pose proof (Nat.mod_upper_bound (n + 100 - 1) 100). lia.
Qed.

Lemma embedding_none_replicate `{GenAI} (table rid model : string) (chunks : list string) :
  embedding <$> without_embedding table rid model chunks = replicate (length chunks) None.
Proof.
  unfold without_embedding. rewrite <- list_fmap_compose.
  induction chunks as [|c chunks IH]; [reflexivity |]. simpl. now f_equal.
Qed.

(** C2: [generate_embeddings_for_chunks] returns one record per chunk, in the
    order of the chunks.  When the service is configured, the records are those
    of the consecutive batches of 100 chunks, every batch after the other; a
    batch whose call raises or returns another number of vectors gets the
    embedding [None] on each of its chunks, a batch whose call returns one
    vector per chunk gets these vectors; a 150-chunk input whose first batch
    succeeds and whose second batch fails yields 100 records with vectors
    followed by 50 records with [None]. *)
Theorem generate_embeddings_partial_failure `{GenAI} (text_chunks : list string)
    (table rid : string) :
  let results := generate_embeddings_for_chunks text_chunks table rid in
  text_chunk <$> results = text_chunks
  /\ length results = length text_chunks
  /\ (forall key,
         GOOGLE_GEMINI_API_KEY = Some key -> PyStr.nonempty key = true ->
         configure key = Ret tt ->
         results
         = concat ((fun k => embed_batch table rid (k * batch_size)
                               (slice (k * batch_size) (k * batch_size + batch_size)
                                  text_chunks))
                     <$> seq 0 ((length text_chunks + batch_size - 1) / batch_size))
         /\ (forall k batch,
                batch_fails k batch ->
                Forall (fun r => embedding r = None)
                  (embed_batch table rid (k * batch_size) batch))
         /\ (forall k batch vectors,
                embed_content k embedding_model batch = Ret (Some vectors) ->
                length vectors = length batch ->
                embedding <$> embed_batch table rid (k * batch_size) batch
                = Some <$> vectors)
         /\ (length text_chunks = 150%nat ->
             forall vectors,
               embed_content 0 embedding_model (take 100 text_chunks) = Ret (Some vectors) ->
               length vectors = 100%nat ->
               batch_fails 1 (drop 100 text_chunks) ->
               embedding <$> results = ((Some <$> vectors) ++ replicate 50 None)%list)).
Proof.
  intros results.
  assert (Htext : text_chunk <$> results = text_chunks).
  { subst results. unfold generate_embeddings_for_chunks.
    destruct GOOGLE_GEMINI_API_KEY as [key |]; [| apply text_chunk_without_embedding].
    destruct (PyStr.nonempty key); [| apply text_chunk_without_embedding].
    destruct (configure key); [| apply text_chunk_without_embedding].
    rewrite embed_batches_concat.
    transitivity
      (concat ((fun k => slice (k * batch_size) (k * batch_size + batch_size) text_chunks)
                 <$> seq 0 ((length text_chunks + batch_size - 1) / batch_size))).
    - rewrite fmap_concat_blocks. f_equal.
      apply list_fmap_ext. intros _ k _. apply text_chunk_embed_batch.
    - apply concat_slices; [unfold batch_size; lia | apply batches_cover]. }
  split; [exact Htext |].
  split; [now rewrite <- (length_fmap text_chunk results), Htext |].
  intros key Hkey Hne Hconf.
  assert (Hres : results
                 = concat ((fun k => embed_batch table rid (k * batch_size)
                                       (slice (k * batch_size) (k * batch_size + batch_size)
                                          text_chunks))
                             <$> seq 0 ((length text_chunks + batch_size - 1) / batch_size))).
  { subst results. unfold generate_embeddings_for_chunks.
    rewrite Hkey, Hne, Hconf. apply embed_batches_concat. }
  split; [exact Hres |].
  split; [| split].
  - intros k batch Hf. rewrite embed_batch_fails by exact Hf.
    apply embedding_without_embedding.
  - intros k batch vectors. apply embed_batch_succeeds.
  - intros Hlen vectors Hfirst Hl Hsecond.
    rewrite Hres, Hlen.
    replace ((150 + batch_size - 1) / batch_size)%nat with 2%nat by reflexivity.
    cbn [seq fmap list_fmap concat].
    replace (slice (0 * batch_size) (0 * batch_size + batch_size) text_chunks)
      with (take 100 text_chunks) by reflexivity.
    replace (slice (1 * batch_size) (1 * batch_size + batch_size) text_chunks)
      with (drop 100 text_chunks).
    2:{ unfold slice. symmetry.
        replace (1 * batch_size + batch_size - 1 * batch_size)%nat with 100%nat by reflexivity.
        replace (1 * batch_size)%nat with 100%nat by reflexivity.
        apply take_ge. rewrite length_drop. lia. }
    rewrite app_nil_r, fmap_app. f_equal.
    + apply (embed_batch_succeeds table rid 0); [exact Hfirst |].
      rewrite length_take. lia.
    + rewrite (embed_batch_fails table rid 1) by exact Hsecond.
      rewrite embedding_none_replicate, length_drop, Hlen. reflexivity.
Qed.

Lemma generate_embeddings_partial_failure_witness :
  embedding <$> generate_embeddings_for_chunks (H := first_call_only)
                  (replicate 150 "chunk") "location_memories" "42"
  = ((Some <$> replicate 100 [1%Q]) ++ replicate 50 None)%list.
Proof.
  destruct (generate_embeddings_partial_failure (H := first_call_only)
              (replicate 150 "chunk") "location_memories" "42") as (_ & _ & Hrun).
  destruct (Hrun "key" eq_refl eq_refl eq_refl) as (_ & _ & _ & H150).
  exact (H150 eq_refl (replicate 100 [1%Q]) eq_refl eq_refl I).
Defined.

(** ** Results: inversion of a sequence of calls *)

Lemma bind_ret {A B : Type} (m : res A) (k : A -> res B) (b : B) :
  (m ≫= k) = Ret b -> exists a, m = Ret a /\ k a = Ret b.
Proof. destruct m as [a | e]; [eauto | discriminate]. Qed.

Lemma is_ret_true {A : Type} (r : res A) : is_ret r = true -> exists a, r = Ret a.
Proof. destruct r; [eauto | discriminate]. Qed.

Ltac bind_inv H :=
  let a := fresh "a" in
  let E := fresh "E" in
  apply bind_ret in H as (a & E & H).

(** ** Trainer *)

Section Trainer.

Context `{Sklearn}.

Lemma fit_model_kind (target : string) (X_train_scaled X_test_scaled : scaled)
    (y_train y_test : series) (model : estimator) (kind : string)
    (metrics : list (string * Q)) :
  fit_model target X_train_scaled X_test_scaled y_train y_test = Ret (model, kind, metrics) ->
  if is_score_target target
  then exists f y_pred mse r2,
      fit_regressor 100 42 X_train_scaled y_train = Ret f
      /\ mean_squared_error y_test y_pred = Ret mse
      /\ r2_score y_test y_pred = Ret r2
      /\ model = GradientBoostingRegressor f /\ kind = "regression"
      /\ metrics = [("mse", mse); ("r2", r2)]
  else exists f y_pred accuracy f1,
      fit_classifier 100 42 X_train_scaled y_train = Ret f
      /\ accuracy_score y_test y_pred = Ret accuracy
      /\ f1_score y_test y_pred "weighted" 0 = Ret f1
      /\ model = RandomForestClassifier f /\ kind = "classification"
      /\ metrics = [("accuracy", accuracy); ("f1", f1)].
Proof.
  unfold fit_model. destruct (is_score_target target); intros Hfit.
  - bind_inv Hfit. bind_inv Hfit. bind_inv Hfit. bind_inv Hfit.
    injection Hfit as <- <- <-. eauto 12.
  - bind_inv Hfit. bind_inv Hfit. bind_inv Hfit. bind_inv Hfit.
    injection Hfit as <- <- <-. eauto 12.
Qed.





Lemma train_bundle_kind (df : DataFrame) (target : string) (new_features : list string)
    (b : bundle) :
  train_bundle df target new_features = Ret b ->
  bundle_features b = new_features
  /\ exists X_train_scaled X_test_scaled y_train y_test,
      fit_model target X_train_scaled X_test_scaled y_train y_test
      = Ret (bundle_model b, info_type (info (bundle_info b)),
             info_metrics (info (bundle_info b))).
Proof.
  unfold train_bundle. intros Hb.
  bind_inv Hb. bind_inv Hb. bind_inv Hb. destruct a1 as [[[X_train X_test] y_train] y_test].
  bind_inv Hb. destruct a1 as [sc X_train_scaled].
  bind_inv Hb. bind_inv Hb. destruct a2 as [[model kind] metrics].
  injection Hb as <-. simpl. split; [reflexivity | eauto 6].
Qed.


End Trainer.

(** C4: for every cleaned table and configured dataset type, [train_model]
    returns the "no features" error result when the expanded feature list is
    empty, and the "target not found" error result when the features are there
    and the target column is not in the table; whenever it returns an error
    result, the model registry is the one it started with, so nothing is
    registered for the dataset type. *)
Theorem train_model_degenerate_input `{Sklearn} (datasets : gmap string DatasetConfig)
    (models : gmap string bundle) (df : DataFrame) (dataset_type : string)
    (cfg : DatasetConfig) (new_features : list string) :
  datasets !! dataset_type = Some cfg ->
  (new_features = [] ->
   train_model datasets models df dataset_type new_features
   = (Ret (TrainError "No features available for training."), models))
  /\ (new_features <> [] -> has_column (ds_target cfg) df = false ->
      train_model datasets models df dataset_type new_features
      = (Ret (TrainError ("Target column '" +:+ ds_target cfg +:+ "' not found.")), models))
  /\ (forall error models',
         train_model datasets models df dataset_type new_features
         = (Ret (TrainError error), models') ->
         models' = models /\ models' !! dataset_type = models !! dataset_type).
Proof.
  intros Hcfg. unfold train_model, dataset_info. rewrite Hcfg.
  split; [| split].
  - now intros ->.
  - intros Hne Htarget. destruct new_features; [congruence |]. now rewrite Htarget.
  - intros error models' Hrun.
    assert (models' = models); [| now subst].
    destruct new_features; [now injection Hrun |].
    destruct (negb (has_column (ds_target cfg) df)); [now injection Hrun |].
    destruct (train_bundle _ _ _); discriminate || injection Hrun; discriminate.
Qed.

Lemma train_model_degenerate_input_witness :
  train_model (H := toy_sklearn) {["network" := network_config]} ∅
    [("signal_strength", NumSeries [Some (Finite 70)])] "network" ["signal_strength"]
  = (Ret (TrainError "Target column 'reliability_score' not found."), ∅).
Proof.
  apply (train_model_degenerate_input (H := toy_sklearn) {["network" := network_config]} ∅
           [("signal_strength", NumSeries [Some (Finite 70)])] "network" network_config
           ["signal_strength"]).
  - reflexivity.
  - discriminate.
  - reflexivity.
Defined.



(** ** Model registry: loading *)

(** C6 (as stated) fails: with the three files in place and a model file that
    joblib cannot read, [load_model] returns [False] and registers nothing. *)
Lemma load_model_existing_artifacts_counterexample :
  ~ (forall (S : Sklearn) (FS : FileSystem) (models : gmap string bundle)
            (dataset_type : string),
        artifacts_exist dataset_type = true ->
        exists b, load_model models dataset_type = (true, <[dataset_type := b]> models)).
Proof.
  intros Hclaim.
  destruct (Hclaim toy_sklearn truncated_model_file ∅ "network" eq_refl) as [b Hb].
  discriminate Hb.
Qed.

(** C6 (amended): [load_model] returns [False] unless the model file, the
    scaler file and the metadata document all exist; when all three exist and
    can be read (joblib loads both objects, the metadata parses and has
    [features] and [info]) it rebuilds the bundle from the model, the scaler,
    the feature list and the info, registers it under the dataset type and
    returns [True]; whenever it returns [False] the registry is unchanged;
    loading a second time gives the same flag and the same registry. *)
Theorem load_model_all_or_nothing `{FileSystem} (models : gmap string bundle)
    (dataset_type : string) :
  ((load_model models dataset_type).1 = true ->
   path_exists (model_path dataset_type) = true
   /\ path_exists (scaler_path dataset_type) = true
   /\ path_exists (metadata_path dataset_type) = true)
  /\ (forall model sc features doc,
         import_joblib = Ret tt ->
         artifacts_exist dataset_type = true ->
         joblib_load_model (model_path dataset_type) = Ret model ->
         joblib_load_scaler (scaler_path dataset_type) = Ret sc ->
         json_load (metadata_path dataset_type)
         = Ret {| md_features := Some features; md_info := Some doc |} ->
         load_model models dataset_type
         = (true,
            <[dataset_type :=
                {| bundle_model := model; bundle_features := features;
                   bundle_info := {| info := doc; info_scaler := sc |} |}]> models))
  /\ (forall models', load_model models dataset_type = (false, models') -> models' = models)
  /\ load_model (load_model models dataset_type).2 dataset_type
     = load_model models dataset_type.
Proof.
  unfold load_model, artifacts_exist. split; [| split; [| split]].
  - destruct import_joblib; [| discriminate].
    destruct (forallb _ _) eqn:E; [| discriminate]. intros _.
    simpl in E. rewrite !andb_true_iff in E. tauto.
  - intros model sc features doc -> -> Hm Hs Hj. unfold read_bundle.
    now rewrite Hm, Hs, Hj.
  - intros models'. destruct import_joblib; [| now intros [= <-]].
    destruct (negb _); [now intros [= <-] |].
    destruct (read_bundle dataset_type); [discriminate | now intros [= <-]].
  - destruct import_joblib; [| reflexivity].
    destruct (negb _); [reflexivity |].
    destruct (read_bundle dataset_type); [| reflexivity].
    simpl. now rewrite insert_insert_eq.
Qed.

Lemma load_model_all_or_nothing_witness :
  load_model (H0 := saved_classifier) ∅ "network"
  = (true,
     <["network" :=
         {| bundle_model := RandomForestClassifier (tt : @fitted toy_sklearn);
            bundle_features := ["signal_strength"];
            bundle_info :=
              {| info := {| info_type := "classification"; info_metrics := [];
                            info_feature_importance := None |};
                 info_scaler := (tt : @scaler toy_sklearn) |} |}]> ∅).
Proof.
  apply (load_model_all_or_nothing (H0 := saved_classifier) ∅ "network"); reflexivity.
Defined.

(** ** Predictor: confidence *)

Lemma proba_max_spec (proba : list Q) (m : Q) :
  proba_max proba = Ret m -> m ∈ proba /\ Forall (fun p => (p <= m)%Q) proba.
Proof.
  destruct proba as [|p ps]; [discriminate |]. simpl. intros [= <-].
  assert (Hgen : forall (ps seen : list Q) (p : Q),
             p ∈ (seen ++ [p])%list -> Forall (fun q => (q <= p)%Q) (seen ++ [p])%list ->
             let m := fold_left (fun m q => if Qle_bool m q then q else m) ps p in
             m ∈ (seen ++ p :: ps)%list
             /\ Forall (fun q => (q <= m)%Q) (seen ++ p :: ps)%list).
  { clear. induction ps as [|q ps IH]; intros seen p Hin Hall; [auto |].
    cbn [fold_left].
    destruct (Qle_bool p q) eqn:E.
    - apply Qle_bool_iff in E.
      destruct (IH (seen ++ [p])%list q) as [IH1 IH2].
      + apply elem_of_app. right. apply list_elem_of_here.
      + apply Forall_app. split; [| repeat constructor; apply Qle_refl].
        eapply Forall_impl; [exact Hall |]. intros x Hx. simpl in Hx. now apply Qle_trans with p.
      + rewrite <- app_assoc in IH1, IH2. auto.
    - assert (Hqp : (q <= p)%Q).
      { apply Qlt_le_weak, Qnot_le_lt. intros Hle. apply Qle_bool_iff in Hle. congruence. }
      destruct (IH (seen ++ [q])%list p) as [IH1 IH2].
      + apply elem_of_app. right. apply list_elem_of_here.
      + apply Forall_app in Hall as [Hs Hp].
        apply Forall_app. split; [| repeat constructor; apply Qle_refl].
        apply Forall_app. split; [exact Hs | repeat constructor; exact Hqp].
      + rewrite <- app_assoc in IH1, IH2. simpl in IH1, IH2. split.
        * apply elem_of_app in IH1 as [IH1 | IH1]; [apply elem_of_app; now left |].
          apply elem_of_app. right.
          apply elem_of_cons in IH1 as [IH1 | IH1].
          -- rewrite IH1. apply list_elem_of_further, list_elem_of_here.
          -- apply elem_of_cons in IH1 as [IH1 | IH1].
             ++ rewrite IH1. apply list_elem_of_here.
             ++ now do 2 apply list_elem_of_further.
        * apply Forall_app in IH2 as [Hs Hr]. apply Forall_app. split; [exact Hs |].
          inversion Hr as [|? ? Hq Hr']; subst. inversion Hr' as [|? ? Hp Hr'']; subst.
          repeat constructor; assumption. }
  apply (Hgen ps [] p).
  - apply list_elem_of_here.
  - repeat constructor. apply Qle_refl.
Qed.

Lemma predict_with_confidence `{Sklearn} (model_data : bundle) (input_data : dict)
    (prediction : json) (confidence : option Q) :
  predict_with model_data input_data = Ret (Prediction prediction confidence) ->
  if has_predict_proba (bundle_model model_data)
  then exists c input_scaled rows proba,
      confidence = Some c
      /\ model_predict_proba (fitted_of (bundle_model model_data)) input_scaled = Ret rows
      /\ first rows = Ret proba
      /\ c ∈ proba /\ Forall (fun p => (p <= c)%Q) proba
      /\ (0 <= c)%Q /\ (c <= 1)%Q
  else confidence = None.
Proof.
  unfold predict_with. intros Hrun.
  bind_inv Hrun. bind_inv Hrun. bind_inv Hrun. bind_inv Hrun.
  injection Hrun as <- <-.
  destruct (has_predict_proba (bundle_model model_data)); [| now injection E2 as <-].
  bind_inv E2. bind_inv E2. bind_inv E2. injection E2 as <-.
  destruct (proba_max_spec _ _ E5) as [Hin Hmax].
  exists a5, a, a3, a4. repeat split; try assumption.
  - pose proof (proba_range _ _ _ E3) as Hrange.
    destruct a3 as [|row rows]; [discriminate |]. injection E4 as ->.
    inversion Hrange as [|? ? Hrow _]; subst.
    rewrite Forall_forall in Hrow. now apply Hrow.
  - pose proof (proba_range _ _ _ E3) as Hrange.
    destruct a3 as [|row rows]; [discriminate |]. injection E4 as ->.
    inversion Hrange as [|? ? Hrow _]; subst.
    rewrite Forall_forall in Hrow. now apply Hrow.
Qed.



(** ** Chunk synthesizer *)

Section Chunks.

Context `{PyFormat}.

Lemma append_if_optional (section : json) (text : res string) (chunks chunks' : list string) :
  append_if section text chunks = Ret chunks' ->
  exists part, optional_chunk (truthy section) text = Ret part
               /\ chunks' = (chunks ++ part)%list.
Proof.
  unfold append_if, optional_chunk. destruct (truthy section).
  - destruct text as [t | e]; [| discriminate]. intros [= <-]. eauto.
  - intros [= <-]. exists []. now rewrite app_nil_r.
Qed.

Lemma optional_chunk_length (present : bool) (text : res string) (part : list string) :
  optional_chunk present text = Ret part -> length part = bool_to_nat present.
Proof.
  unfold optional_chunk. destruct present.
  - destruct text; [| discriminate]. now intros [= <-].
  - now intros [= <-].
Qed.

(** The personality block appends the chunks of its three sections, in
    order. *)
Lemma personality_block_parts (record : dict) (chunks chunks' : list string) :
  personality_block record chunks = Ret chunks' ->
  exists traits voice cultural,
    chunks' = (chunks ++ traits ++ voice ++ cultural)%list
    /\ optional_chunk (has_section "traits" record)
         (traits_chunk (location_name_of record) (section_of "traits" record)) = Ret traits
    /\ optional_chunk (has_section "voiceCharacteristics" record)
         (voice_chunk (section_of "voiceCharacteristics" record)) = Ret voice
    /\ optional_chunk (has_section "culturalInfluence" record)
         (cultural_chunk (location_name_of record) (section_of "culturalInfluence" record))
       = Ret cultural.
Proof.
  unfold personality_block, has_section, section_of, personality_data_of.
  destruct (dict_get "personality_data" record) as [[| | | | |[|kv rest]]|];
    try (intros [= <-]; exists [], [], []; rewrite app_nil_r; auto).
  intros Hrun.
  bind_inv Hrun. apply append_if_optional in E as (traits & Ht & ->).
  bind_inv Hrun. apply append_if_optional in E as (voice & Hv & ->).
  apply append_if_optional in Hrun as (cultural & Hc & ->).
  exists traits, voice, cultural. rewrite <- !app_assoc. auto.
Qed.

Lemma voice_profile_block_parts (record : dict) (chunks chunks' : list string) :
  voice_profile_block record chunks = Ret chunks' ->
  exists profile,
    chunks' = (chunks ++ profile)%list
    /\ optional_chunk (has_voice_profile record)
         (voice_profile_chunk (location_name_of record) (voice_profile_of record))
       = Ret profile.
Proof.
  unfold voice_profile_block, has_voice_profile, voice_profile_of, optional_chunk.
  destruct (dict_get "voice_profile" record) as [[| | | | |[|kv rest]]|];
    try (intros [= <-]; exists []; rewrite app_nil_r; auto).
  intros Hrun. bind_inv Hrun. injection Hrun as <-.
  exists [a]. simpl. now rewrite E.
Qed.

Lemma percent_number (v : json) : is_share v = true -> is_ret (percent v) = true.
Proof.
  destruct v as [| b | q | | |]; try discriminate; simpl; intros Hv.
  - destruct b; apply format_0f_in_range; vm_compute; reflexivity.
  - now apply format_0f_in_range.
Qed.

Lemma traits_chunk_ok (name traits : json) :
  traits_ok traits = true -> truthy traits = true ->
  is_ret (traits_chunk name traits) = true.
Proof.
  unfold traits_chunk, traits_ok.
  destruct traits as [| | | | |d]; simpl; intros Hall Ht;
    try discriminate; try (rewrite Ht in Hall; discriminate).
  - assert (Hparts : is_ret (res_map
                      (fun kv => p ← percent kv.2;
                                 Ret (underscores_to_spaces kv.1 +:+ ": " +:+ p +:+ "%")) d)
                     = true).
    { clear Ht. induction d as [|[k v] d IH]; [reflexivity |].
      simpl in Hall. apply andb_prop in Hall as [Hv Hd]. simpl.
      destruct (is_ret_true _ (percent_number v Hv)) as [p ->]. simpl.
      destruct (is_ret_true _ (IH Hd)) as [ps ->]. reflexivity. }
    destruct (is_ret_true _ Hparts) as [ps ->]. reflexivity.
Qed.

Lemma voice_chunk_ok (voice_char : json) :
  mapping_ok voice_char = true -> truthy voice_char = true ->
  is_ret (voice_chunk voice_char) = true.
Proof.
  unfold voice_chunk, mapping_ok.
  destruct voice_char; simpl; intros Hn Ht;
    try reflexivity; try discriminate; rewrite Ht in Hn; discriminate.
Qed.

Lemma join_items_ok (languages : json) :
  languages_ok languages = true -> is_ret (join_items languages) = true.
Proof.
  destruct languages as [| | | |l|]; simpl; try discriminate; try reflexivity.
  induction l as [|x l IH]; [reflexivity |].
  simpl. intros Hall. apply andb_prop in Hall as [Hx Hl].
  destruct x; try discriminate. simpl.
  destruct (is_ret_true _ (IH Hl)) as [ps ->]. reflexivity.
Qed.

Lemma cultural_chunk_ok (name cultural : json) :
  cultural_ok cultural = true -> truthy cultural = true ->
  is_ret (cultural_chunk name cultural) = true.
Proof.
  unfold cultural_chunk, cultural_ok.
  destruct cultural as [| | | | |d]; simpl; intros Hl Ht;
    try discriminate; try (rewrite Ht in Hl; discriminate).
  destruct (is_ret_true _ (join_items_ok _ Hl)) as [ps ->]. reflexivity.
Qed.

Lemma append_if_ok (section : json) (text : res string) (chunks : list string) :
  (truthy section = true -> is_ret text = true) ->
  exists part, append_if section text chunks = Ret (chunks ++ part)%list.
Proof.
  unfold append_if. destruct (truthy section).
  - intros Hok. destruct (is_ret_true _ (Hok eq_refl)) as [t ->]. exists [t]. reflexivity.
  - intros _. exists []. now rewrite app_nil_r.
Qed.

(** On a record of the schema no step raises. *)
Lemma process_record_ok (record : dict) :
  record_ok record = true -> is_ret (process_location_memory_to_chunks record) = true.
Proof.
  unfold record_ok, process_location_memory_to_chunks. rewrite !andb_true_iff.
  intros [[[Ht Hv] Hc] Hp].
  assert (Hpers : is_ret (personality_block record [identity_chunk record]) = true).
  { unfold personality_block.
    unfold section_of, personality_data_of in Ht, Hv, Hc.
    destruct (dict_get "personality_data" record) as [[| | | | |[|kv rest]]|];
      try reflexivity.
    destruct (append_if_ok
                (dict_get_default "traits" (JDict []) (kv :: rest))
                (traits_chunk (location_name_of record)
                   (dict_get_default "traits" (JDict []) (kv :: rest)))
                [identity_chunk record]) as [p1 ->]; [now apply traits_chunk_ok |].
    cbn [mbind res_bind].
    destruct (append_if_ok
                (dict_get_default "voiceCharacteristics" (JDict []) (kv :: rest))
                (voice_chunk (dict_get_default "voiceCharacteristics" (JDict []) (kv :: rest)))
                ([identity_chunk record] ++ p1)%list) as [p2 ->]; [now apply voice_chunk_ok |].
    cbn [mbind res_bind].
    destruct (append_if_ok
                (dict_get_default "culturalInfluence" (JDict []) (kv :: rest))
                (cultural_chunk (location_name_of record)
                   (dict_get_default "culturalInfluence" (JDict []) (kv :: rest)))
                (([identity_chunk record] ++ p1) ++ p2)%list) as [p3 ->];
      [now apply cultural_chunk_ok |].
    reflexivity. }
  destruct (is_ret_true _ Hpers) as [chunks ->]. cbn [mbind res_bind].
  unfold voice_profile_block. unfold voice_profile_ok, voice_profile_of in Hp.
  destruct (dict_get "voice_profile" record) as [[| | | | |[|kv rest]]|]; try reflexivity.
  unfold voice_profile_chunk. apply andb_prop in Hp as [Hs Hb].
  destruct (is_ret_true _ (percent_number _ Hs)) as [s ->]. cbn [mbind res_bind].
  destruct (is_ret_true _ (percent_number _ Hb)) as [b ->]. reflexivity.
Qed.

End Chunks.

(** C8: [process_location_memory_to_chunks] emits the chunk with identity,
    coordinates and interaction summary first; after it come, in this order,
    the chunks of the personality traits, the voice characteristics, the
    cultural influences and the voice profile, one chunk for each of these
    sections that exists and is not empty on the record and none for the
    others, so that the number of chunks is one plus the number of present
    sections; a record without optional sections gives exactly the first
    chunk.  On a record that follows the schema the function returns; the
    schema asks that the traits, the stability and the similarity boost are
    numbers whose hundredfold a float can hold (the percentage of a larger
    [int] raises [OverflowError]). *)
Theorem chunks_count_and_order `{PyFormat} (record : dict) :
  (record_ok record = true -> is_ret (process_location_memory_to_chunks record) = true)
  /\ (forall chunks,
         process_location_memory_to_chunks record = Ret chunks ->
         exists traits voice cultural profile,
           chunks = identity_chunk record :: (traits ++ voice ++ cultural ++ profile)%list
           /\ optional_chunk (has_section "traits" record)
                (traits_chunk (location_name_of record) (section_of "traits" record))
              = Ret traits
           /\ optional_chunk (has_section "voiceCharacteristics" record)
                (voice_chunk (section_of "voiceCharacteristics" record))
              = Ret voice
           /\ optional_chunk (has_section "culturalInfluence" record)
                (cultural_chunk (location_name_of record)
                   (section_of "culturalInfluence" record))
              = Ret cultural
           /\ optional_chunk (has_voice_profile record)
                (voice_profile_chunk (location_name_of record) (voice_profile_of record))
              = Ret profile
           /\ length traits = bool_to_nat (has_section "traits" record)
           /\ length voice = bool_to_nat (has_section "voiceCharacteristics" record)
           /\ length cultural = bool_to_nat (has_section "culturalInfluence" record)
           /\ length profile = bool_to_nat (has_voice_profile record)
           /\ length chunks = S (present_sections record))
  /\ (present_sections record = 0%nat ->
      process_location_memory_to_chunks record = Ret [identity_chunk record]).
Proof.
  assert (Hshape : forall chunks,
             process_location_memory_to_chunks record = Ret chunks ->
             exists traits voice cultural profile,
               chunks = identity_chunk record :: (traits ++ voice ++ cultural ++ profile)%list
               /\ optional_chunk (has_section "traits" record)
                    (traits_chunk (location_name_of record) (section_of "traits" record))
                  = Ret traits
               /\ optional_chunk (has_section "voiceCharacteristics" record)
                    (voice_chunk (section_of "voiceCharacteristics" record))
                  = Ret voice
               /\ optional_chunk (has_section "culturalInfluence" record)
                    (cultural_chunk (location_name_of record)
                       (section_of "culturalInfluence" record))
                  = Ret cultural
               /\ optional_chunk (has_voice_profile record)
                    (voice_profile_chunk (location_name_of record) (voice_profile_of record))
                  = Ret profile
               /\ length traits = bool_to_nat (has_section "traits" record)
               /\ length voice = bool_to_nat (has_section "voiceCharacteristics" record)
               /\ length cultural = bool_to_nat (has_section "culturalInfluence" record)
               /\ length profile = bool_to_nat (has_voice_profile record)
               /\ length chunks = S (present_sections record)).
  { intros chunks Hrun. unfold process_location_memory_to_chunks in Hrun.
    bind_inv Hrun.
    apply personality_block_parts in E as (traits & voice & cultural & -> & Ht & Hv & Hc).
    apply voice_profile_block_parts in Hrun as (profile & -> & Hp).
    exists traits, voice, cultural, profile.
    pose proof (optional_chunk_length _ _ _ Ht) as Lt.
    pose proof (optional_chunk_length _ _ _ Hv) as Lv.
    pose proof (optional_chunk_length _ _ _ Hc) as Lc.
    pose proof (optional_chunk_length _ _ _ Hp) as Lp.
    repeat split; try assumption.
    - simpl. now rewrite <- !app_assoc.
    - unfold present_sections. rewrite !length_app, Lt, Lv, Lc, Lp. simpl. lia. }
  split; [apply process_record_ok |]. split; [exact Hshape |].
  intros Hnone.
  assert (Hok : record_ok record = true).
  { unfold present_sections, has_section, has_voice_profile in Hnone.
    unfold record_ok, voice_profile_ok.
    destruct (truthy (section_of "traits" record)) eqn:E1; [simpl in Hnone; lia |].
    destruct (truthy (section_of "voiceCharacteristics" record)) eqn:E2;
      [simpl in Hnone; lia |].
    destruct (truthy (section_of "culturalInfluence" record)) eqn:E3;
      [simpl in Hnone; lia |].
    destruct (voice_profile_of record) as [|kv rest]; [| simpl in Hnone; lia].
    assert (Hfalsy : forall v, truthy v = false ->
                       traits_ok v = true /\ mapping_ok v = true /\ cultural_ok v = true).
    { intros [| | | | |[|kv rest]] Hv; simpl in *; try discriminate; rewrite ?Hv; auto. }
    destruct (Hfalsy _ E1) as (-> & _ & _).
    destruct (Hfalsy _ E2) as (_ & -> & _).
    destruct (Hfalsy _ E3) as (_ & _ & ->). reflexivity. }
  destruct (is_ret_true _ (process_record_ok record Hok)) as [chunks Hrun].
  rewrite Hrun. f_equal.
  destruct (Hshape chunks Hrun)
    as (traits & voice & cultural & profile & -> & _ & _ & _ & _ & Lt & Lv & Lc & Lp & Hlen).
  rewrite Hnone in Hlen. simpl in Hlen.
  destruct traits, voice, cultural, profile; simpl in Hlen; try lia. reflexivity.
Qed.

Lemma chunks_count_and_order_witness :
  exists chunks,
    process_location_memory_to_chunks (H := plain_format) full_record = Ret chunks
    /\ length chunks = 5%nat.
Proof.
  destruct (chunks_count_and_order (H := plain_format) full_record) as (Hret & Hshape & _).
  destruct (process_location_memory_to_chunks (H := plain_format) full_record)
    as [chunks | e] eqn:Hrun; [| specialize (Hret eq_refl); discriminate Hret].
  exists chunks. split; [reflexivity |].
  destruct (Hshape chunks eq_refl) as (t & v & c & p & _ & _ & _ & _ & _ & _ & _ & _ & _ & Hlen).
  exact Hlen.
Defined.

(** ** Dictionaries *)

Lemma dict_get_set_eq (k : string) (v : json) (d : dict) :
  dict_get k (dict_set k v d) = Some v.
Proof.
  induction d as [|[k' v'] d IH]; simpl.
  - now rewrite String.eqb_refl.
  - destruct (String.eqb k' k) eqn:E; simpl; rewrite E; [reflexivity | exact IH].
Qed.

Lemma dict_get_set_ne (k k' : string) (v : json) (d : dict) :
  k <> k' -> dict_get k (dict_set k' v d) = dict_get k d.
Proof.
  intros Hne. induction d as [|[k0 v0] d IH]; simpl.
  - apply String.eqb_neq in Hne. now rewrite String.eqb_sym, Hne.
  - destruct (String.eqb k0 k') eqn:E; simpl.
    + apply String.eqb_eq in E as ->.
      assert (String.eqb k' k = false) as -> by (apply String.eqb_neq; congruence).
      reflexivity.
    + now rewrite IH.
Qed.

(** ** Clock: the timestamp is ISO 8601 *)

Lemma is_digit_digit (n : nat) : is_digit (digit n) = true.
Proof.
  unfold is_digit, digit.
  pose proof (Nat.mod_upper_bound n 10 ltac:(lia)) as Hlt.
  rewrite nat_ascii_embedding by lia.
  apply andb_true_intro. split; apply Nat.leb_le; lia.
Qed.

Lemma isoformat_is_iso8601 (d : datetime) : is_iso8601 (isoformat d) = true.
Proof.
  unfold isoformat. cbn [fixed].
  repeat match goal with
         | |- context [digit ?x] =>
             let c := fresh "c" in
             let Hc := fresh "Hc" in
             pose proof (is_digit_digit x) as Hc;
             generalize dependent (digit x); intros c Hc
         end.
  destruct (microsecond d =? 0)%nat;
    cbv [is_iso8601 String.append substring all_digits String.length Nat.eqb String.eqb];
    rewrite ?Ascii.eqb_refl;
    repeat match goal with
           | Hc : is_digit _ = true |- _ => rewrite Hc; clear Hc
           end;
    reflexivity.
Qed.

(** ** Enhancement composer *)

Section Composer.

Context `{FileSystem} `{Clock} `{FL : Floats}.

Lemma feature_missing_check (cfg : DatasetConfig) (input : dict) :
  feature_missing cfg input ->
  forallb (fun feat => dict_mem feat (filter_not_none input)) (ds_features cfg) = false.
Proof.
  intros (feat & Hin & Hmem). apply not_true_is_false. intros Hall.
  rewrite forallb_forall in Hall. apply list_elem_of_In in Hin.
  rewrite (Hall feat Hin) in Hmem. discriminate.
Qed.

Lemma set_nested_other (section k : string) (v : json) (e e' : dict) :
  set_nested section k v e = Ret e' ->
  (forall k', k' <> section -> dict_get k' e' = dict_get k' e)
  /\ exists d, dict_get section e' = Some (JDict d).
Proof.
  unfold set_nested.
  destruct (dict_get section e) as [[| | | | |d]|]; try discriminate; intros [= <-].
  - split; [intros k' Hne; now apply dict_get_set_ne |].
    eexists. apply dict_get_set_eq.
  - split; [intros k' Hne; now apply dict_get_set_ne |].
    eexists. apply dict_get_set_eq.
Qed.

Lemma set_nested_ok (section k : string) (v : json) (e : dict) (d : dict) :
  dict_get section e = Some (JDict d) -> is_ret (set_nested section k v e) = true.
Proof. unfold set_nested. now intros ->. Qed.

(** A sub-domain only touches its own section of the entity. *)
Lemma enhance_section_other (models models' : gmap string bundle)
    (dataset_type section field : string) (required : list string)
    (input e e' : dict) :
  enhance_section models dataset_type section field required input e = (Ret e', models') ->
  forall k, k <> section -> dict_get k e' = dict_get k e.
Proof.
  unfold enhance_section.
  destruct (forallb _ required); [| now intros [= <- _]].
  destruct (predict models dataset_type input) as [[error | prediction confidence] models1];
    [now intros [= <- _] |].
  intros [= Hset _] k Hne.
  bind_inv Hset.
  destruct (set_nested_other _ _ _ _ _ E) as [H1' _].
  destruct (set_nested_other _ _ _ _ _ Hset) as [H2' _].
  now rewrite H2', H1'.
Qed.

Lemma enhance_section_ok (models : gmap string bundle)
    (dataset_type section field : string) (required : list string)
    (input e d : dict) :
  dict_get section e = Some (JDict d) ->
  is_ret (enhance_section models dataset_type section field required input e).1 = true.
Proof.
  intros Hd. unfold enhance_section.
  destruct (forallb _ required); [| reflexivity].
  destruct (predict models dataset_type input) as [[error | prediction confidence] models1];
    [reflexivity |].
  simpl.
  pose proof (set_nested_ok section field prediction e d Hd) as Hok.
  destruct (set_nested section field prediction e) as [e1 | x] eqn:E1; [| discriminate].
  simpl. destruct (set_nested_other _ _ _ _ _ E1) as [_ [d1 Hd1]].
  apply (set_nested_ok _ _ _ _ _ Hd1).
Qed.

Lemma enhance_subdomain_other (datasets : gmap string DatasetConfig)
    (dataset_type section field : string) (build_input : dict -> res dict)
    (location_data e e' : dict) (models models' : gmap string bundle) :
  enhance_subdomain datasets dataset_type section field build_input location_data (e, models)
  = (Ret e', models') ->
  forall k, k <> section -> dict_get k e' = dict_get k e.
Proof.
  unfold enhance_subdomain.
  destruct (datasets !! dataset_type) as [cfg |]; [| now intros [= <- _]].
  destruct (dict_mem section location_data); [| now intros [= <- _]].
  destruct (build_input location_data) as [input | x]; [| discriminate].
  apply enhance_section_other.
Qed.

(** A sub-domain with a missing required feature leaves the entity and the
    registry as they are. *)
Lemma enhance_subdomain_skip (datasets : gmap string DatasetConfig)
    (dataset_type section field : string) (build_input : dict -> res dict)
    (location_data e input : dict) (models : gmap string bundle) (cfg : DatasetConfig) :
  datasets !! dataset_type = Some cfg ->
  build_input location_data = Ret input ->
  feature_missing cfg input ->
  enhance_subdomain datasets dataset_type section field build_input location_data (e, models)
  = (Ret e, models).
Proof.
  intros Hcfg Hin Hmiss. unfold enhance_subdomain, enhance_section.
  rewrite Hcfg, Hin, (feature_missing_check _ _ Hmiss).
  now destruct (dict_mem section location_data).
Qed.

Lemma enhance_subdomain_ok (datasets : gmap string DatasetConfig)
    (dataset_type section field : string) (build_input : dict -> res dict)
    (location_data e : dict) (models : gmap string bundle) :
  dict_get section e = dict_get section location_data ->
  (forall v, dict_get section location_data = Some v ->
             is_ret (build_input location_data) = true /\ exists d, v = JDict d) ->
  is_ret (enhance_subdomain datasets dataset_type section field build_input
            location_data (e, models)).1 = true.
Proof.
  intros Hsame Hbuild. unfold enhance_subdomain, dict_mem.
  destruct (datasets !! dataset_type) as [cfg |]; [| reflexivity].
  destruct (dict_get section location_data) as [v |] eqn:Hv; [| reflexivity].
  destruct (Hbuild v eq_refl) as [Hret [d ->]].
  destruct (is_ret_true _ Hret) as [input ->].
  apply (enhance_section_ok _ _ _ _ _ _ _ d). now rewrite Hsame.
Qed.

Lemma network_input_ok (location_data : dict) (v : json) :
  section_is_mapping "connectivity" location_data = true ->
  dict_get "connectivity" location_data = Some v ->
  is_ret (network_input location_data) = true /\ exists d, v = JDict d.
Proof.
  unfold section_is_mapping, network_input. intros Hm Hv. rewrite Hv in *.
  destruct v; try discriminate. eauto.
Qed.

Lemma social_input_ok (location_data : dict) (v : json) :
  section_is_mapping "social" location_data = true ->
  volume_is_number location_data = true ->
  dict_get "social" location_data = Some v ->
  is_ret (social_input location_data) = true /\ exists d, v = JDict d.
Proof.
  unfold section_is_mapping, volume_is_number, social_input. intros Hm Hn Hv.
  rewrite Hv in *. destruct v as [| | | | |d]; try discriminate.
  split; [| eauto].
  destruct (dict_get_default "volume" (JNum 0) d) as [| b | q | | |];
    try discriminate; [reflexivity |].
  simpl in Hn. cbn [mul_int mul_float mbind res_bind]. now rewrite Hn.
Qed.

(** A social volume that no float can hold: the input mapping is not built. *)
Lemma social_input_overflow (location_data social : dict) (q : Q) :
  dict_get "social" location_data = Some (JDict social) ->
  dict_get "volume" social = Some (JNum q) ->
  in_float_range q = false ->
  social_input location_data = Raise OverflowError.
Proof.
  unfold social_input, dict_get_default. intros -> -> Hq.
  cbn [mul_int mul_float mbind res_bind]. now rewrite Hq.
Qed.

Lemma stamp_fields (e : dict) :
  dict_get "enhanced_by_deepmind" (stamp e) = Some (JBool true)
  /\ dict_get "enhancement_timestamp" (stamp e) = Some (JStr (isoformat now))
  /\ forall k, k <> "enhanced_by_deepmind" -> k <> "enhancement_timestamp" ->
               dict_get k (stamp e) = dict_get k e.
Proof.
  unfold stamp. split; [| split].
  - rewrite dict_get_set_ne by discriminate. apply dict_get_set_eq.
  - apply dict_get_set_eq.
  - intros k H1' H2'. now rewrite !dict_get_set_ne.
Qed.

End Composer.

(** C3: when [enhance_location_data] returns, the entity is stamped:
    [enhanced_by_deepmind] is [True] and [enhancement_timestamp] is the ISO 8601
    text of the clock, whatever the sub-domains produced.  When a feature that
    the network (social) dataset requires is missing from the derived input
    after the [None] values are filtered out, the connectivity (social) section
    of the returned entity is the one of the input entity: no prediction field
    is added; when both sub-domains are skipped the result is the stamped input
    and the registry is untouched.  The function returns for every entity whose
    connectivity and social sections are mappings and whose social volume is a
    number that a float can hold (for a larger [int] the product with 0.3
    raises [OverflowError]). *)
Theorem enhance_skip_and_stamp `{FileSystem} `{Clock} `{FL : Floats}
    (datasets : gmap string DatasetConfig) (models : gmap string bundle)
    (location_data : dict) :
  (entity_ok location_data = true ->
   is_ret (enhance_location_data datasets models location_data).1 = true)
  /\ (forall enhanced models',
         enhance_location_data datasets models location_data = (Ret enhanced, models') ->
         dict_get "enhanced_by_deepmind" enhanced = Some (JBool true)
         /\ (exists ts, dict_get "enhancement_timestamp" enhanced = Some (JStr ts)
                        /\ is_iso8601 ts = true)
         /\ (forall cfg input,
                datasets !! "network" = Some cfg ->
                network_input location_data = Ret input ->
                feature_missing cfg input ->
                dict_get "connectivity" enhanced = dict_get "connectivity" location_data)
         /\ (forall cfg input,
                datasets !! "social" = Some cfg ->
                social_input location_data = Ret input ->
                feature_missing cfg input ->
                dict_get "social" enhanced = dict_get "social" location_data)
         /\ (forall cfg input cfg' input',
                datasets !! "network" = Some cfg ->
                network_input location_data = Ret input ->
                feature_missing cfg input ->
                datasets !! "social" = Some cfg' ->
                social_input location_data = Ret input' ->
                feature_missing cfg' input' ->
                enhanced = stamp location_data /\ models' = models)).
Proof.
  unfold enhance_location_data. split.
  - unfold entity_ok. rewrite !andb_true_iff. intros [[Hc Hs] Hv].
    pose proof (enhance_subdomain_ok datasets "network" "connectivity" "reliability_score"
                  network_input location_data location_data models eq_refl
                  (fun v => network_input_ok location_data v Hc)) as H1'.
    destruct (enhance_subdomain datasets "network" "connectivity" "reliability_score"
                network_input location_data (location_data, models))
      as [[e1 | x] m1] eqn:E1; [| discriminate].
    pose proof (enhance_subdomain_other _ _ _ _ _ _ _ _ _ _ E1 "social" ltac:(discriminate))
      as Hsocial.
    pose proof (enhance_subdomain_ok datasets "social" "social" "enhanced_sentiment"
                  social_input location_data e1 m1 Hsocial
                  (fun v => social_input_ok location_data v Hs Hv)) as H2'.
    destruct (enhance_subdomain datasets "social" "social" "enhanced_sentiment"
                social_input location_data (e1, m1))
      as [[e2 | x] m2] eqn:E2; [reflexivity | discriminate].
  - intros enhanced models'.
    destruct (enhance_subdomain datasets "network" "connectivity" "reliability_score"
                network_input location_data (location_data, models))
      as [[e1 | x] m1] eqn:E1; [| discriminate].
    destruct (enhance_subdomain datasets "social" "social" "enhanced_sentiment"
                social_input location_data (e1, m1))
      as [[e2 | x] m2] eqn:E2; [| discriminate].
    intros [= <- <-].
    destruct (stamp_fields e2) as (Hflag & Hts & Hrest).
    split; [exact Hflag |].
    split; [exists (isoformat now); split; [exact Hts | apply isoformat_is_iso8601] |].
    split; [| split].
    + intros cfg input Hcfg Hin Hmiss.
      rewrite (enhance_subdomain_skip _ _ _ _ _ _ _ _ _ cfg Hcfg Hin Hmiss) in E1.
      injection E1 as <- <-.
      rewrite Hrest by discriminate.
      apply (enhance_subdomain_other _ _ _ _ _ _ _ _ _ _ E2). discriminate.
    + intros cfg input Hcfg Hin Hmiss.
      rewrite (enhance_subdomain_skip _ _ _ _ _ _ _ _ _ cfg Hcfg Hin Hmiss) in E2.
      injection E2 as <- <-.
      rewrite Hrest by discriminate.
      apply (enhance_subdomain_other _ _ _ _ _ _ _ _ _ _ E1). discriminate.
    + intros cfg input cfg' input' Hcfg Hin Hmiss Hcfg' Hin' Hmiss'.
      rewrite (enhance_subdomain_skip _ _ _ _ _ _ _ _ _ cfg Hcfg Hin Hmiss) in E1.
      injection E1 as <- <-.
      rewrite (enhance_subdomain_skip _ _ _ _ _ _ _ _ _ cfg' Hcfg' Hin' Hmiss') in E2.
      injection E2 as <- <-. auto.
Qed.

Lemma enhance_skip_and_stamp_witness :
  exists enhanced models',
    enhance_location_data (H0 := empty_directory) (H1 := new_year)
      {["network" := network_signal_config]} ∅ weak_entity
    = (Ret enhanced, models')
    /\ dict_get "enhanced_by_deepmind" enhanced = Some (JBool true)
    /\ dict_get "connectivity" enhanced = dict_get "connectivity" weak_entity.
Proof.
  destruct (enhance_skip_and_stamp (H0 := empty_directory) (H1 := new_year)
              {["network" := network_signal_config]} ∅ weak_entity) as [Hret Hstamp].
  destruct (enhance_location_data (H0 := empty_directory) (H1 := new_year)
              {["network" := network_signal_config]} ∅ weak_entity)
    as [[enhanced | x] models'] eqn:Hrun; [| specialize (Hret eq_refl); discriminate Hret].
  exists enhanced, models'. split; [reflexivity |].
  destruct (Hstamp enhanced models' eq_refl) as (Hflag & _ & Hnet & _).
  split; [exact Hflag |].
  apply (Hnet network_signal_config
           [("network_type", JStr "5G"); ("signal_strength", JNull);
            ("download_speed", JNull); ("latency", JNull)]).
  - reflexivity.
  - reflexivity.
  - exists "signal_strength". split; [| reflexivity].
    apply list_elem_of_further, list_elem_of_here.
Defined.

(** * Further properties *)

(** ** Predictor *)

(** X1: the row that [predict] hands to the scaler has one cell per stored
    feature, in the stored order, and the cell at a position is the one the
    reconstruction rule gives for the name at that position (a name that is
    stored twice gets the same cell twice). *)
Theorem feature_row_one_cell_per_feature (input_data : dict) (features : list string) :
  length (feature_row input_data features) = length features
  /\ forall i feature,
      features !! i = Some feature ->
      feature_row input_data features !! i = Some (cell input_data feature).
Proof.
  rewrite feature_row_cells. split.
  - apply length_fmap.
  - intros i feature Hi. now rewrite list_lookup_fmap, Hi.
Qed.

Lemma feature_row_one_cell_per_feature_witness :
  feature_row [("signal", JStr "strength")] ["latency"; "signal_strength"] !! 1%nat
  = Some (JNum 1).
Proof.
  exact (proj2 (feature_row_one_cell_per_feature [("signal", JStr "strength")]
                  ["latency"; "signal_strength"]) 1%nat "signal_strength" eq_refl).
Defined.

Lemma cell_default (input_data : dict) (feature : string) :
  dict_get feature input_data = None ->
  dict_get (PyStr.split_first feature) input_data = None ->
  cell input_data feature = JNum 0.
Proof.
  intros Hf Hb. unfold cell, base_feature_name, direct_cell.
  destruct (PyStr.contains_underscore feature); [| now rewrite Hf].
  rewrite Hb, Hf. now destruct (PyStr.nonempty _).
Qed.

(** X2: a stored feature that the input mapping does not mention, neither
    under its full name nor under the text before its first underscore, gets
    the value 0: an input whose keys match nothing is turned into the zero
    row, not into an error. *)
Theorem feature_row_defaults_to_zero (input_data : dict) (features : list string) :
  Forall (fun feature =>
            dict_get feature input_data = None
            /\ dict_get (PyStr.split_first feature) input_data = None) features ->
  feature_row input_data features = replicate (length features) (JNum 0).
Proof.
  intros Hall. rewrite feature_row_cells.
  induction Hall as [|feature features [Hf Hb] _ IH]; [reflexivity |].
  rewrite fmap_cons. cbn [length replicate]. f_equal; [now apply cell_default | exact IH].
Qed.

Lemma feature_row_defaults_to_zero_witness :
  feature_row [("signalStrength", JNum 80)] ["signal_strength"; "latency"]
  = [JNum 0; JNum 0].
Proof.
  apply (feature_row_defaults_to_zero [("signalStrength", JNum 80)]
           ["signal_strength"; "latency"]).
  repeat constructor.
Defined.

(** X3: [predict] touches the registry only to load a missing model: with a
    registered model the registry is unchanged; the entries of the other
    dataset types are never changed; without a registered model and without
    the three files the answer is the error "No model available for ..." and
    the registry is unchanged. *)
Theorem predict_registry `{FileSystem} (models : gmap string bundle)
    (dataset_type : string) (input_data : dict) :
  (forall b, models !! dataset_type = Some b ->
             (predict models dataset_type input_data).2 = models)
  /\ (forall other, other <> dataset_type ->
                    (predict models dataset_type input_data).2 !! other = models !! other)
  /\ (models !! dataset_type = None -> artifacts_exist dataset_type = false ->
      predict models dataset_type input_data
      = (PredictError ("No model available for " +:+ dataset_type), models)).
Proof.
  unfold predict. split; [| split].
  - intros b Hb. rewrite Hb. simpl. rewrite Hb.
    now destruct (predict_with b input_data).
  - intros other Hne.
    assert (Hload : (load_model models dataset_type).2 !! other = models !! other).
    { unfold load_model. destruct import_joblib; [| reflexivity].
      destruct (negb _); [reflexivity |].
      destruct (read_bundle dataset_type); [| reflexivity].
      simpl. now rewrite lookup_insert_ne. }
    destruct (models !! dataset_type) as [b |] eqn:Hb.
    + simpl. rewrite Hb. now destruct (predict_with b input_data).
    + destruct (load_model models dataset_type) as [available models1]. simpl in Hload.
      destruct (negb available); [exact Hload |].
      destruct (models1 !! dataset_type) as [b |]; [| exact Hload].
      now destruct (predict_with b input_data).
  - intros Hnone Hfiles. rewrite Hnone. unfold load_model. rewrite Hfiles.
    now destruct import_joblib.
Qed.

Lemma predict_registry_witness :
  predict (H0 := empty_directory) ∅ "network" [("signal_strength", JNum 80)]
  = (PredictError "No model available for network", ∅).
Proof.
  apply (predict_registry (H0 := empty_directory) ∅ "network"
           [("signal_strength", JNum 80)]); reflexivity.
Defined.

(** X4: a model that [train_model] has just registered is used by [predict]
    as it is, without any loading, and the confidence of a successful
    prediction is [None] exactly when the target of the dataset is one of the
    two score names, that is when a regressor was trained. *)
Theorem trained_model_confidence `{FileSystem} (datasets : gmap string DatasetConfig)
    (models models' models'' : gmap string bundle) (df : DataFrame) (dataset_type : string)
    (cfg : DatasetConfig) (new_features : list string) (model_info : model_info)
    (input_data : dict) (prediction : json) (confidence : option Q) :
  datasets !! dataset_type = Some cfg ->
  train_model datasets models df dataset_type new_features
  = (Ret (TrainInfo model_info), models') ->
  predict models' dataset_type input_data = (Prediction prediction confidence, models'') ->
  models'' = models'
  /\ (confidence = None <-> is_score_target (ds_target cfg) = true).
Proof.
  intros Hcfg Htrain Hpredict.
  unfold train_model, dataset_info in Htrain. rewrite Hcfg in Htrain.
  destruct new_features as [|c cs] eqn:Hnf; [discriminate |]. rewrite <- Hnf in Htrain.
  destruct (negb (has_column (ds_target cfg) df)); [discriminate |].
  destruct (train_bundle df (ds_target cfg) new_features) as [b | e] eqn:Hb; [| discriminate].
  injection Htrain as _ <-.
  destruct (train_bundle_kind _ _ _ _ Hb) as (_ & Xa & Xb & ya & yb & Hfit).
  apply fit_model_kind in Hfit.
  unfold predict in Hpredict. rewrite lookup_insert_eq in Hpredict. simpl in Hpredict.
  rewrite lookup_insert_eq in Hpredict.
  destruct (predict_with b input_data) as [result | e] eqn:Hwith; [| discriminate].
  injection Hpredict as -> <-. split; [reflexivity |].
  apply predict_with_confidence in Hwith.
  destruct (is_score_target (ds_target cfg)).
  - destruct Hfit as (f & _ & _ & _ & _ & _ & _ & Hm & _). rewrite Hm in Hwith.
    simpl in Hwith. now split.
  - destruct Hfit as (f & _ & _ & _ & _ & _ & _ & Hm & _). rewrite Hm in Hwith.
    simpl in Hwith. destruct Hwith as (conf & _ & _ & _ & -> & _). split; discriminate.
Qed.

Lemma trained_model_confidence_witness :
  @None Q = None <-> is_score_target (ds_target network_config) = true.
Proof.
  eapply proj2.
  eapply (trained_model_confidence (H0 := empty_directory)
            {["network" := network_config]} ∅ _ _ signal_table "network"
            network_config ["signal_strength"] _ [("signal_strength", JNum 80)] _ None).
  - reflexivity.
  - lazy. reflexivity.
  - lazy. reflexivity.
Defined.

(** ** Preprocessor: imputation and one-hot columns *)

Lemma get_set_eq (col : string) (s s0 : series) (df : DataFrame) :
  Pandas.get col df = Some s0 -> Pandas.get col (Pandas.set col s df) = Some s.
Proof.
  induction df as [|[c s'] df IH]; simpl; [discriminate |].
  destruct (String.eqb c col) eqn:E; simpl; rewrite E; [reflexivity | exact IH].
Qed.

Lemma get_set_ne (col c : string) (s : series) (df : DataFrame) :
  col <> c -> is_Some (Pandas.get c df) ->
  Pandas.get col (Pandas.set c s df) = Pandas.get col df.
Proof.
  intros Hne. induction df as [|[c' s'] df IH]; simpl; [intros [x Hx]; discriminate |].
  destruct (String.eqb c' c) eqn:E; simpl.
  - apply String.eqb_eq in E as ->.
    assert (String.eqb c col = false) as -> by (apply String.eqb_neq; congruence).
    reflexivity.
  - intros Hs. destruct (String.eqb c' col); [reflexivity | now apply IH].
Qed.

Lemma fillna_no_missing {A : Type} (v : A) (xs : list (option A)) :
  Forall (fun x => x <> None) (fillna v xs).
Proof.
  unfold fillna. apply Forall_fmap, Forall_forall. intros [a |] _; simpl; discriminate.
Qed.

(** After the imputation of [col] the column is filled, or numeric with a
    NaN mean. *)
Lemma impute_fills `{FL : Floats} (df : DataFrame) (col : string) (s : series) :
  Pandas.get col (impute df col) = Some s -> no_missing s \/ mean_is_nan s.
Proof.
  unfold impute. destruct (Pandas.get col df) as [[xs | xs] |] eqn:E.
  - rewrite (get_set_eq _ _ _ _ E). intros [= <-].
    destruct (mean xs) eqn:Hm; [left; apply fillna_no_missing | right; exact Hm].
  - rewrite (get_set_eq _ _ _ _ E). intros [= <-]. left. apply fillna_no_missing.
  - now rewrite E.
Qed.

Lemma impute_other `{FL : Floats} (df : DataFrame) (col c : string) :
  col <> c -> Pandas.get col (impute df c) = Pandas.get col df.
Proof.
  intros Hne. unfold impute.
  destruct (Pandas.get c df) as [[xs | xs] |] eqn:E; [| | reflexivity];
    apply get_set_ne; rewrite ?E; eauto.
Qed.

Lemma impute_keeps_filled `{FL : Floats} (df : DataFrame) (col c : string) :
  (forall s, Pandas.get col df = Some s -> no_missing s \/ mean_is_nan s) ->
  forall s, Pandas.get col (impute df c) = Some s -> no_missing s \/ mean_is_nan s.
Proof.
  intros Hok s. destruct (decide (col = c)) as [-> | Hne]; [apply impute_fills |].
  rewrite (impute_other _ _ _ Hne). apply Hok.
Qed.

Lemma fold_impute_keeps_filled `{FL : Floats} (cols : list string) (df : DataFrame) (col : string) :
  (forall s, Pandas.get col df = Some s -> no_missing s \/ mean_is_nan s) ->
  forall s, Pandas.get col (fold_left impute cols df) = Some s ->
            no_missing s \/ mean_is_nan s.
Proof.
  revert df. induction cols as [|c cols IH]; intros df Hok; [exact Hok |].
  simpl. apply IH. now apply impute_keeps_filled.
Qed.

Lemma fold_impute_fills `{FL : Floats} (cols : list string) (df : DataFrame) (col : string) :
  col ∈ cols ->
  forall s, Pandas.get col (fold_left impute cols df) = Some s ->
            no_missing s \/ mean_is_nan s.
Proof.
  revert df. induction cols as [|c cols IH]; intros df Hin; [inversion Hin |].
  simpl. apply elem_of_cons in Hin as [-> | Hin].
  - apply fold_impute_keeps_filled. intros s. apply impute_fills.
  - now apply IH.
Qed.

Lemma get_app (col : string) (a b : DataFrame) :
  Pandas.get col (a ++ b)%list
  = match Pandas.get col a with Some s => Some s | None => Pandas.get col b end.
Proof.
  induction a as [|[c s] a IH]; simpl; [reflexivity |].
  destruct (String.eqb c col); [reflexivity | exact IH].
Qed.

Lemma get_drop_column (col c : string) (df : DataFrame) (s : series) :
  Pandas.get col (drop_column c df) = Some s -> Pandas.get col df = Some s.
Proof.
  unfold drop_column. induction df as [|[c' s'] df IH]; simpl; [discriminate |].
  destruct (String.eqb c' c) eqn:Ec; simpl.
  - intros Hget. destruct (String.eqb c' col) eqn:E; [| now apply IH].
    exfalso. apply String.eqb_eq in Ec as ->. apply String.eqb_eq in E as ->.
    clear IH. induction df as [|[c2 s2] df IH]; simpl in Hget; [discriminate |].
    destruct (String.eqb c2 col) eqn:E2; simpl in Hget; [now apply IH |].
    rewrite E2 in Hget. now apply IH.
  - destruct (String.eqb c' col); [auto | apply IH].
Qed.

Lemma indicator_no_missing (v : string) (xs : list (option string)) :
  no_missing (indicator v xs).
Proof.
  unfold indicator. simpl. apply Forall_fmap, Forall_forall.
  intros [w |] _; simpl; discriminate.
Qed.

Lemma get_indicators (col c : string) (xs : list (option string)) (ls : list string)
    (s : series) :
  Pandas.get col ((fun v => (c +:+ "_" +:+ v, indicator v xs)) <$> ls) = Some s ->
  exists v, s = indicator v xs.
Proof.
  induction ls as [|v ls IH]; simpl; [discriminate |].
  destruct (String.eqb _ col); [intros [= <-]; eauto | exact IH].
Qed.

Lemma expand_keeps_filled `{FL : Floats} (st : list string * DataFrame) (col c : string) :
  (forall s, Pandas.get col st.2 = Some s -> no_missing s \/ mean_is_nan s) ->
  forall s, Pandas.get col (expand st c).2 = Some s ->
            no_missing s \/ mean_is_nan s.
Proof.
  intros Hok s. unfold expand.
  destruct (Pandas.get c st.2) as [[xs | xs] |]; [apply Hok | | apply Hok].
  simpl. unfold get_dummies. rewrite get_app.
  destruct (Pandas.get col (drop_column c st.2)) as [s' |] eqn:E.
  - intros [= <-]. apply Hok. now apply get_drop_column in E.
  - intros Hget. apply get_indicators in Hget as [v ->]. left. apply indicator_no_missing.
Qed.

Lemma fold_expand_keeps_filled `{FL : Floats} (features : list string) (st : list string * DataFrame)
    (col : string) :
  (forall s, Pandas.get col st.2 = Some s -> no_missing s \/ mean_is_nan s) ->
  forall s, Pandas.get col (fold_left expand features st).2 = Some s ->
            no_missing s \/ mean_is_nan s.
Proof.
  revert st. induction features as [|c features IH]; intros st Hok; [exact Hok |].
  simpl. apply IH. now apply expand_keeps_filled.
Qed.

(** X5: in the table [preprocess_data] returns for a raw table with distinct
    column names, a column that has the name of a configured feature or of
    the target has no missing entry left, unless it is a numeric column whose
    mean is NaN (a column without any value, for instance, or one that holds
    both infinities): filling with NaN fills nothing. *)
Theorem preprocess_imputes `{FL : Floats} (datasets : gmap string DatasetConfig)
    (df cleaned : DataFrame) (dataset_type : string) (cfg : DatasetConfig)
    (new_features : list string) (col : string) (s : series) :
  datasets !! dataset_type = Some cfg ->
  NoDup (columns df) ->
  preprocess_data datasets df dataset_type = Ret (cleaned, new_features) ->
  col ∈ (ds_features cfg ++ [ds_target cfg])%list ->
  Pandas.get col cleaned = Some s ->
  no_missing s \/ mean_is_nan s.
Proof.
  intros Hcfg _ Hrun Hin. apply (preprocess_data_table _ _ _ _ _ Hcfg) in Hrun.
  unfold preprocess_table in Hrun. injection Hrun as -> _.
  apply fold_expand_keeps_filled. cbn [snd]. now apply fold_impute_fills.
Qed.

Lemma preprocess_imputes_witness :
  no_missing (NumSeries [Some (Finite 1); Some (Finite 2); Some (Finite 3)])
  \/ mean_is_nan (NumSeries [Some (Finite 1); Some (Finite 2); Some (Finite 3)]).
Proof.
  refine (preprocess_imputes {["network" := signal_config]}
            [("signal_strength", NumSeries [Some (Finite 1); None; Some (Finite 3)]);
             ("reliability_score",
              NumSeries [Some (Finite 0.5); Some (Finite 0.5); Some (Finite 0.5)])]
            _ "network" signal_config _ "signal_strength" _ _ _ _ _ _).
  - reflexivity.
  - repeat constructor; rewrite ?elem_of_cons, ?elem_of_nil; intuition discriminate.
  - vm_compute. reflexivity.
  - apply list_elem_of_here.
  - vm_compute. reflexivity.
Defined.

(** ** The order of strings *)

Lemma ascii_compare_lt_trans (a b c : ascii) :
  Ascii.compare a b = Lt -> Ascii.compare b c = Lt -> Ascii.compare a c = Lt.
Proof.
  unfold Ascii.compare. rewrite !N.compare_lt_iff. apply N.lt_trans.
Qed.

Lemma string_compare_lt_trans (a b c : string) :
  String.compare a b = Lt -> String.compare b c = Lt -> String.compare a c = Lt.
Proof.
  revert b c. induction a as [|x a IH]; intros [|y b] [|z c]; simpl;
    try discriminate; try reflexivity.
  destruct (Ascii.compare x y) eqn:Exy; try discriminate;
    destruct (Ascii.compare y z) eqn:Eyz; try discriminate; intros Hab Hbc.
  - apply Ascii.compare_eq_iff in Exy as ->. rewrite Eyz. now apply (IH b c).
  - apply Ascii.compare_eq_iff in Exy as ->. now rewrite Eyz.
  - apply Ascii.compare_eq_iff in Eyz as <-. now rewrite Exy.
  - now rewrite (ascii_compare_lt_trans _ _ _ Exy Eyz).
Qed.

Lemma string_compare_refl (a : string) : String.compare a a = Eq.
Proof.
  induction a as [|x a IH]; [reflexivity |]. simpl.
  unfold Ascii.compare. now rewrite N.compare_refl.
Qed.

Lemma string_lt_trans (a b c : string) : string_lt a b -> string_lt b c -> string_lt a c.
Proof.
  unfold string_lt, String.ltb.
  destruct (String.compare a b) eqn:Eab; try discriminate.
  destruct (String.compare b c) eqn:Ebc; try discriminate.
  now rewrite (string_compare_lt_trans _ _ _ Eab Ebc).
Qed.

Lemma string_lt_irrefl (a : string) : ~ string_lt a a.
Proof. unfold string_lt, String.ltb. now rewrite string_compare_refl. Qed.

Lemma string_lt_total (a b : string) :
  String.eqb a b = false -> String.ltb a b = false -> string_lt b a.
Proof.
  unfold string_lt, String.ltb. intros Hne.
  rewrite (String.compare_antisym b a).
  destruct (String.compare a b) eqn:E; try discriminate; [| reflexivity].
  apply String.compare_eq_iff in E. apply String.eqb_neq in Hne. contradiction.
Qed.

(** ** One-hot columns *)

Lemma insert_level_elem (v w : string) (l : list string) :
  w ∈ insert_level v l <-> w = v \/ w ∈ l.
Proof.
  induction l as [|x l IH]; simpl.
  - rewrite list_elem_of_singleton. split; [auto | intros [H | H]; [exact H | inversion H]].
  - destruct (String.eqb_spec v x) as [-> | Hne].
    + rewrite elem_of_cons. tauto.
    + destruct (String.ltb v x).
      * rewrite elem_of_cons. tauto.
      * rewrite !elem_of_cons, IH. tauto.
Qed.

Lemma insert_level_sorted (v : string) (l : list string) :
  StronglySorted string_lt l -> StronglySorted string_lt (insert_level v l).
Proof.
  induction 1 as [|x l Hs IH Hx]; simpl.
  - repeat constructor.
  - destruct (String.eqb v x) eqn:Eq; [now constructor |].
    destruct (String.ltb v x) eqn:Elt.
    + constructor; [now constructor |]. constructor; [exact Elt |].
      eapply Forall_impl; [exact Hx |]. intros y Hy. simpl in Hy.
      now apply string_lt_trans with x.
    + constructor; [exact IH |].
      apply Forall_forall. intros y Hy. apply insert_level_elem in Hy as [-> | Hy].
      * now apply string_lt_total.
      * rewrite Forall_forall in Hx. now apply Hx.
Qed.

Lemma levels_sorted (xs : list (option string)) : StronglySorted string_lt (levels xs).
Proof.
  unfold levels. induction (present xs) as [|v l IH]; simpl; [constructor |].
  now apply insert_level_sorted.
Qed.

Lemma sorted_no_dup (l : list string) : StronglySorted string_lt l -> NoDup l.
Proof.
  induction 1 as [|x l Hs IH Hx]; constructor; [| exact IH].
  intros Hin. rewrite Forall_forall in Hx. exact (string_lt_irrefl x (Hx x Hin)).
Qed.

Lemma levels_elem (xs : list (option string)) (v : string) :
  v ∈ levels xs <-> Some v ∈ xs.
Proof.
  unfold levels, present. induction xs as [|[w |] xs IH]; simpl.
  - split; intros H; inversion H.
  - rewrite insert_level_elem, IH, elem_of_cons. split.
    + intros [-> | H]; [now left | now right].
    + intros [[= ->] | H]; [now left | now right].
  - rewrite IH, elem_of_cons. split; [now right | intros [[=] | H]; exact H].
Qed.

Lemma filter_eqb_no_dup (v : string) (l : list string) :
  NoDup l -> v ∈ l -> List.filter (String.eqb v) l = [v].
Proof.
  induction 1 as [|x l Hx Hnd IH]; intros Hin; [inversion Hin |].
  simpl. destruct (String.eqb_spec v x) as [<- | Hne].
  - f_equal. clear IH Hin. induction l as [|y l IH]; [reflexivity |].
    apply not_elem_of_cons in Hx as [Hy Hx]. inversion Hnd; subst.
    simpl. destruct (String.eqb_spec v y); [congruence | auto].
  - apply elem_of_cons in Hin as [-> | Hin]; [congruence | auto].
Qed.

(** X6: the one-hot columns of a categorical column are its distinct observed
    values, each once, in increasing order; in a row that holds the value [v]
    the indicator of a category is 1 for [v] and 0 for the others, so exactly
    one indicator of the row is 1; in a row without value all are 0. *)
Theorem one_hot_columns (xs : list (option string)) :
  StronglySorted string_lt (levels xs)
  /\ NoDup (levels xs)
  /\ (forall v, v ∈ levels xs <-> Some v ∈ xs)
  /\ (forall i v w,
         xs !! i = Some (Some v) ->
         numeric_at (indicator w xs) i
         = Some (Some (Finite (if String.eqb v w then 1 else 0)))
         /\ List.filter (String.eqb v) (levels xs) = [v])
  /\ (forall i w, xs !! i = Some None ->
                  numeric_at (indicator w xs) i = Some (Some (Finite 0))).
Proof.
  pose proof (levels_sorted xs) as Hs.
  split; [exact Hs |]. split; [now apply sorted_no_dup |].
  split; [apply levels_elem |]. split.
  - intros i v w Hi. split.
    + unfold indicator, numeric_at. now rewrite list_lookup_fmap, Hi.
    + apply filter_eqb_no_dup; [now apply sorted_no_dup |].
      apply levels_elem. apply list_elem_of_lookup. eauto.
  - intros i w Hi. unfold indicator, numeric_at. now rewrite list_lookup_fmap, Hi.
Qed.

Lemma one_hot_columns_witness :
  numeric_at (indicator "4G" [Some "5G"; Some "4G"; None]) 1 = Some (Some (Finite 1))
  /\ List.filter (String.eqb "4G") (levels [Some "5G"; Some "4G"; None]) = ["4G"].
Proof.
  destruct (one_hot_columns [Some "5G"; Some "4G"; None]) as (_ & _ & _ & Hrow & _).
  exact (Hrow 1%nat "4G" "4G" eq_refl).
Defined.

(** ** Numeric features pass through *)






(** ** Embedding pipeline: provenance *)

Section Provenance.

Context `{GenAI}.

Lemma without_embedding_provenance (table rid model : string) (chunks : list string) :
  Forall (fun r => source_table r = table /\ source_record_id r = rid
                   /\ model_used r = model /\ embedding r = None)
    (without_embedding table rid model chunks).
Proof. unfold without_embedding. apply Forall_fmap, Forall_forall. now intros. Qed.

Lemma zip_with_Forall {A B C : Type} (f : A -> B -> C) (P : C -> Prop)
    (l : list A) (k : list B) :
  (forall a b, P (f a b)) -> Forall P (zip_with f l k).
Proof.
  intros HP. revert k. induction l as [|a l IH]; intros [|b k]; simpl; constructor; auto.
Qed.

Lemma embed_batch_provenance (table rid : string) (i : nat) (batch : list string) :
  Forall (fun r => source_table r = table /\ source_record_id r = rid
                   /\ model_used r = embedding_model)
    (embed_batch table rid i batch).
Proof.
  unfold embed_batch.
  assert (Hnone : Forall (fun r => source_table r = table /\ source_record_id r = rid
                                   /\ model_used r = embedding_model)
                    (without_embedding table rid embedding_model batch)).
  { eapply Forall_impl; [apply without_embedding_provenance |]. simpl. tauto. }
  destruct (embed_content _ _ _) as [response | e]; [| exact Hnone].
  simpl. destruct (_ =? _)%nat; [| exact Hnone].
  apply zip_with_Forall. now intros.
Qed.

End Provenance.

(** X8: every record of [generate_embeddings_for_chunks] carries the source
    table and the record id of the call.  The records of one call all name the
    same model: ["N/A"] when the API key is missing or the configuration
    fails, the embedding model otherwise; hence a record that has a vector
    names the embedding model. *)
Theorem embedding_provenance `{GenAI} (text_chunks : list string) (table rid : string) :
  let results := generate_embeddings_for_chunks text_chunks table rid in
  Forall (fun r => source_table r = table /\ source_record_id r = rid) results
  /\ (Forall (fun r => model_used r = embedding_model) results
      \/ Forall (fun r => model_used r = "N/A" /\ embedding r = None) results)
  /\ Forall (fun r => embedding r <> None -> model_used r = embedding_model) results.
Proof.
  intros results.
  assert (Hcases :
            Forall (fun r => source_table r = table /\ source_record_id r = rid
                             /\ model_used r = embedding_model) results
            \/ Forall (fun r => source_table r = table /\ source_record_id r = rid
                                /\ model_used r = "N/A" /\ embedding r = None) results).
  { subst results. unfold generate_embeddings_for_chunks.
    destruct GOOGLE_GEMINI_API_KEY as [key |];
      [| right; apply without_embedding_provenance].
    destruct (PyStr.nonempty key); [| right; apply without_embedding_provenance].
    destruct (configure key); [| right; apply without_embedding_provenance].
    left. rewrite embed_batches_concat. apply Forall_concat, Forall_fmap, Forall_forall.
    intros k _. apply embed_batch_provenance. }
  destruct Hcases as [Hall | Hall].
  - split; [eapply Forall_impl; [exact Hall |]; simpl; tauto |].
    split; [left; eapply Forall_impl; [exact Hall |]; simpl; tauto |].
    eapply Forall_impl; [exact Hall |]. simpl. tauto.
  - split; [eapply Forall_impl; [exact Hall |]; simpl; tauto |].
    split; [right; eapply Forall_impl; [exact Hall |]; simpl; tauto |].
    eapply Forall_impl; [exact Hall |]. simpl. intros r (_ & _ & _ & Hn) Hsome.
    contradiction.
Qed.

(** ** Storing the embeddings *)

Lemma filter_has_embedding_none `{GenAI} (table rid model : string) (chunks : list string) :
  List.filter has_embedding (without_embedding table rid model chunks) = [].
Proof.
  unfold without_embedding. induction chunks as [|c chunks IH]; [reflexivity | exact IH].
Qed.

(** X9: [store_embeddings_in_supabase] never forwards a record without
    vector: when it posts, the rows are those of the records that have a
    vector, in their order, and there is at least one; without a connection it
    returns [False] and, with a connection, [True] when no record has a
    vector, in both cases without a request; after a request it returns
    [True] only if the answer is 201 with as many rows as were sent. *)
Theorem store_forwards_valid_only `{Supabase} `{PyFormat}
    (embeddings_data : list EmbeddingRecord) :
  (forall ok rows,
      store_embeddings_in_supabase embeddings_data = (ok, Some rows) ->
      rows = storage_record <$> List.filter has_embedding embeddings_data
      /\ rows <> []
      /\ sr_text_chunk <$> rows
         = text_chunk <$> List.filter has_embedding embeddings_data
      /\ (ok = true ->
          supabase_post "knowledge_vectors" rows = Ret (201%nat, Ret (length rows))))
  /\ (connect_to_supabase = false ->
      store_embeddings_in_supabase embeddings_data = (false, None))
  /\ (connect_to_supabase = true ->
      List.filter has_embedding embeddings_data = [] ->
      store_embeddings_in_supabase embeddings_data = (true, None)).
Proof.
  unfold store_embeddings_in_supabase. split; [| split].
  - intros ok rows. destruct (negb connect_to_supabase); [discriminate |].
    destruct embeddings_data as [|d ds] eqn:Hd; [discriminate |]. rewrite <- Hd.
    destruct (List.filter has_embedding embeddings_data) as [|v vs] eqn:Hv; [discriminate |].
    assert (Htext : sr_text_chunk <$> (storage_record <$> v :: vs) = text_chunk <$> v :: vs).
    { rewrite <- list_fmap_compose. now apply list_fmap_ext. }
    destruct (supabase_post _ _) as [[status json_length] | e] eqn:Hpost.
    + destruct (Nat.eqb_spec status 201) as [-> | _].
      * destruct json_length as [n | e].
        -- intros [= <- <-]. repeat split; try assumption; try discriminate.
           intros Hn. apply Nat.eqb_eq in Hn. rewrite Hn in Hpost. exact Hpost.
        -- intros [= <- <-]. repeat split; try assumption; discriminate.
      * intros [= <- <-]. repeat split; try assumption; discriminate.
    + intros [= <- <-]. repeat split; try assumption; discriminate.
  - now intros ->.
  - intros -> Hnone. simpl. rewrite Hnone. now destruct embeddings_data.
Qed.

Lemma store_forwards_valid_only_witness :
  store_embeddings_in_supabase (H := toy_supabase) (H0 := plain_format)
    (without_embedding "location_memories" "42" "N/A" ["a"; "b"])
  = (true, None).
Proof.
  apply (store_forwards_valid_only (H := toy_supabase) (H0 := plain_format)); reflexivity.
Defined.

(** X10: when the API key is missing, the records of
    [generate_embeddings_for_chunks] are stored "successfully" without any
    request: [store_embeddings_in_supabase] returns [True] and nothing reaches
    the knowledge base. *)
Theorem no_api_key_stores_nothing `{GenAI} `{Supabase} `{PyFormat}
    (text_chunks : list string) (table rid : string) :
  GOOGLE_GEMINI_API_KEY = None ->
  connect_to_supabase = true ->
  store_embeddings_in_supabase (generate_embeddings_for_chunks text_chunks table rid)
  = (true, None).
Proof.
  intros Hkey Hconn. unfold generate_embeddings_for_chunks. rewrite Hkey.
  unfold store_embeddings_in_supabase. rewrite Hconn. simpl.
  rewrite filter_has_embedding_none. now destruct (without_embedding _ _ _ _).
Qed.

Lemma no_api_key_stores_nothing_witness :
  store_embeddings_in_supabase (H := toy_supabase) (H0 := plain_format)
    (generate_embeddings_for_chunks (H := no_api_key) ["a"; "b"] "location_memories" "42")
  = (true, None).
Proof.
  apply (no_api_key_stores_nothing (H := no_api_key) (H0 := toy_supabase)
           (H1 := plain_format)); reflexivity.
Defined.

(** ** Saving and loading *)

Lemma append_inj_l (p a b : string) : p +:+ a = p +:+ b -> a = b.
Proof.
  induction p as [|c p IH]; [auto |]. rewrite !append_cons. intros [= Heq]. auto.
Qed.

Lemma paths_distinct (dataset_type : string) :
  model_path dataset_type <> scaler_path dataset_type
  /\ model_path dataset_type <> metadata_path dataset_type
  /\ scaler_path dataset_type <> metadata_path dataset_type.
Proof.
  unfold model_path, scaler_path, metadata_path.
  repeat split; intros Heq; do 2 apply append_inj_l in Heq; discriminate Heq.
Qed.

Section SaveLoad.

Context `{Sklearn} `{Disk}.

(** Loading from a directory that holds the three files of a bundle. *)
Lemma load_model_from_directory (store : gmap string file) (models : gmap string bundle)
    (dataset_type : string) (model : estimator) (sc : scaler) (features : list string)
    (doc : info_doc) :
  joblib_importable = true ->
  store !! model_path dataset_type = Some (ModelFile model) ->
  store !! scaler_path dataset_type = Some (ScalerFile sc) ->
  store !! metadata_path dataset_type
  = Some (MetadataFile {| md_features := Some features; md_info := Some doc |}) ->
  load_model (H0 := directory store) models dataset_type
  = (true,
     <[dataset_type :=
         {| bundle_model := model; bundle_features := features;
            bundle_info := {| info := doc; info_scaler := sc |} |}]> models).
Proof.
  intros Himp Hm Hs Hj.
  unfold load_model, artifacts_exist, read_bundle. simpl.
  now rewrite Himp, Hm, Hs, Hj.
Qed.

Lemma predict_registered (fs : FileSystem) (models : gmap string bundle)
    (dataset_type : string) (b : bundle) (input_data : dict) :
  models !! dataset_type = Some b ->
  (predict (H0 := fs) models dataset_type input_data).1
  = match predict_with b input_data with
    | Ret result => result
    | Raise e => PredictError (exn_str e)
    end.
Proof.
  intros Hb. unfold predict. rewrite Hb. simpl. rewrite Hb.
  now destruct (predict_with b input_data).
Qed.

End SaveLoad.

(** X11: saving and loading are inverse.  When a bundle is registered and the
    three files can be written, [save_model] returns [True]; [load_model] on
    the directory it leaves returns [True] and registers, in any registry, the
    very bundle that was saved (model, scaler, feature list in its order,
    info); a prediction made after loading into an empty registry equals the
    prediction made before saving. *)
Theorem save_load_round_trip `{Sklearn} `{Disk} (models : gmap string bundle)
    (dataset_type : string) (store : gmap string file) (b : bundle) :
  models !! dataset_type = Some b ->
  joblib_importable = true ->
  makedirs_models = true ->
  writable (model_path dataset_type) = true ->
  writable (scaler_path dataset_type) = true ->
  writable (metadata_path dataset_type) = true ->
  exists store',
    save_model models dataset_type store = (true, store')
    /\ (forall models0,
           load_model (H0 := directory store') models0 dataset_type
           = (true, <[dataset_type := b]> models0))
    /\ (forall input_data,
           (predict (H0 := directory store') ∅ dataset_type input_data).1
           = (predict (H0 := directory store) models dataset_type input_data).1).
Proof.
  intros Hb Himp Hdir Hwm Hws Hwj.
  destruct (paths_distinct dataset_type) as (Hms & Hmj & Hsj).
  unfold save_model, write_bundle, write_file. rewrite Hb, Himp, Hdir, Hwm, Hws, Hwj. simpl.
  eexists. split; [reflexivity |].
  assert (Hload : forall models0,
             load_model
               (H0 := directory
                  (<[metadata_path dataset_type :=
                       MetadataFile {| md_features := Some (bundle_features b);
                                       md_info := Some (info (bundle_info b)) |}]>
                     (<[scaler_path dataset_type := ScalerFile (info_scaler (bundle_info b))]>
                        (<[model_path dataset_type := ModelFile (bundle_model b)]> store))))
               models0 dataset_type
             = (true, <[dataset_type := b]> models0)).
  { intros models0.
    rewrite (load_model_from_directory _ models0 dataset_type (bundle_model b)
               (info_scaler (bundle_info b)) (bundle_features b) (info (bundle_info b)));
      [| exact Himp | | | ].
    - destruct b as [m fs [doc sc]]. reflexivity.
    - rewrite lookup_insert_ne by congruence. rewrite lookup_insert_ne by congruence.
      apply lookup_insert_eq.
    - rewrite lookup_insert_ne by congruence. apply lookup_insert_eq.
    - apply lookup_insert_eq. }
  split; [exact Hload |].
  intros input_data.
  rewrite (predict_registered _ models dataset_type b input_data Hb).
  unfold predict. rewrite lookup_empty, Hload. simpl. rewrite lookup_insert_eq.
  now destruct (predict_with b input_data).
Qed.

Lemma save_load_round_trip_witness :
  exists store',
    save_model (H0 := good_disk) {["network" := toy_bundle]} "network" ∅ = (true, store')
    /\ (forall models0,
           load_model (H0 := directory (H0 := good_disk) store') models0 "network"
           = (true, <["network" := toy_bundle]> models0))
    /\ (forall input_data,
           (predict (H0 := directory (H0 := good_disk) store') ∅ "network" input_data).1
           = (predict (H0 := directory (H0 := good_disk) ∅) {["network" := toy_bundle]}
                "network" input_data).1).
Proof.
  apply (save_load_round_trip (H0 := good_disk) {["network" := toy_bundle]} "network" ∅
           toy_bundle); reflexivity.
Defined.

(** X12: the three files are not written together.  When the model file can
    be written and the scaler file cannot, [save_model] returns [False] but
    the new model file stays; if a scaler file and a metadata document of an
    earlier save are in the directory, [load_model] then returns [True] and
    registers a bundle made of the new model with the old scaler, the old
    feature list and the old info. *)
Theorem save_model_partial_write `{Sklearn} `{Disk} (models models0 : gmap string bundle)
    (dataset_type : string) (store : gmap string file) (b : bundle)
    (old_scaler : scaler) (old_features : list string) (old_info : info_doc) :
  models !! dataset_type = Some b ->
  joblib_importable = true ->
  makedirs_models = true ->
  writable (model_path dataset_type) = true ->
  writable (scaler_path dataset_type) = false ->
  store !! scaler_path dataset_type = Some (ScalerFile old_scaler) ->
  store !! metadata_path dataset_type
  = Some (MetadataFile {| md_features := Some old_features; md_info := Some old_info |}) ->
  exists store',
    save_model models dataset_type store = (false, store')
    /\ store' !! model_path dataset_type = Some (ModelFile (bundle_model b))
    /\ load_model (H0 := directory store') models0 dataset_type
       = (true,
          <[dataset_type :=
              {| bundle_model := bundle_model b; bundle_features := old_features;
                 bundle_info := {| info := old_info; info_scaler := old_scaler |} |}]>
            models0).
Proof.
  intros Hb Himp Hdir Hwm Hws Hs Hj.
  destruct (paths_distinct dataset_type) as (Hms & Hmj & Hsj).
  unfold save_model, write_bundle, write_file. rewrite Hb, Himp, Hdir, Hwm, Hws. simpl.
  eexists. split; [reflexivity |]. split; [apply lookup_insert_eq |].
  apply load_model_from_directory; [exact Himp | apply lookup_insert_eq | |].
  - rewrite lookup_insert_ne by congruence. exact Hs.
  - rewrite lookup_insert_ne by congruence. exact Hj.
Qed.

Lemma save_model_partial_write_witness :
  exists store',
    save_model (H0 := scaler_locked) {["network" := toy_bundle]} "network" earlier_save
    = (false, store')
    /\ store' !! model_path "network" = Some (ModelFile (bundle_model toy_bundle))
    /\ load_model (H0 := directory (H0 := scaler_locked) store') ∅ "network"
       = (true,
          <["network" :=
              {| bundle_model := bundle_model toy_bundle; bundle_features := ["latency"];
                 bundle_info :=
                   {| info := {| info_type := "classification"; info_metrics := [];
                                 info_feature_importance := None |};
                      info_scaler := (tt : @scaler toy_sklearn) |} |}]> ∅).
Proof.
  apply (save_model_partial_write (H0 := scaler_locked) {["network" := toy_bundle]} ∅
           "network" earlier_save toy_bundle); reflexivity.
Defined.

(** ** The pipeline *)

Lemma nrows_has_rows (n : nat) (df : DataFrame) :
  has_rows n df -> df_empty df = false -> nrows df = n.
Proof.
  destruct df as [|[c s] df]; [discriminate |].
  intros Hrows _. inversion Hrows as [|? ? Hs _]. exact Hs.
Qed.

(** What a success report of [run_pipeline] implies. *)
Lemma run_pipeline_success `{Sklearn} `{Disk} `{Kaggle} `{Supabase} `{FL : Floats}
    (datasets : gmap string DatasetConfig) (models models' : gmap string bundle)
    (store store' : gmap string file) (dataset_type : string) (records : nat)
    (model_info : model_info) :
  run_pipeline datasets models store dataset_type
  = (PipelineSuccess records model_info, models', store') ->
  exists b df,
    models' = <[dataset_type := b]> models
    /\ bundle_info b = model_info
    /\ store' = (save_model models' dataset_type store).2
    /\ import_dataset datasets dataset_type = Some df
    /\ forall n, has_rows n df -> records = n.
Proof.
  unfold run_pipeline.
  destruct (import_dataset datasets dataset_type) as [df |]; [| discriminate].
  destruct (df_empty df) eqn:Hne; [discriminate |].
  destruct (preprocess_data datasets df dataset_type)
    as [[df_processed new_features] | e] eqn:Hpre; [| cbn beta iota; discriminate].
  cbn beta iota.
  destruct (df_empty df_processed) eqn:Hne'; [simpl; discriminate |]. simpl.
  unfold train_model.
  destruct (dataset_info datasets dataset_type) as [cfg | e] eqn:Hcfg;
    [| destruct new_features; simpl; discriminate].
  destruct new_features as [|c cs] eqn:Hnf; [discriminate |]. rewrite <- Hnf in *.
  destruct (negb (has_column (ds_target cfg) df_processed)); [discriminate |].
  destruct (train_bundle _ _ _) as [b | e]; [| discriminate].
  destruct (save_model _ _ _) as [saved store1] eqn:Hsave.
  intros [= <- <- <- <-]. exists b, df.
  split; [reflexivity |]. split; [reflexivity |].
  split; [now rewrite Hsave |]. split; [reflexivity |].
  intros n Hrows. apply nrows_has_rows; [| exact Hne'].
  assert (Hc : datasets !! dataset_type = Some cfg).
  { unfold dataset_info in Hcfg.
    destruct (datasets !! dataset_type); [now injection Hcfg as -> | discriminate]. }
  apply (preprocess_data_table _ _ _ _ _ Hc) in Hpre.
  unfold preprocess_table in Hpre. injection Hpre as -> _.
  destruct (fold_impute n (ds_features cfg ++ [ds_target cfg])%list df Hrows) as [_ Hr1].
  exact (proj1 (fold_expand n (ds_features cfg) ([], _) Hr1)).
Qed.

(** X13: the report of [run_pipeline] tells what happened to the registry.
    After a failure report the registry and the models directory are the ones
    before the run.  After a success report the bundle of the reported
    [model_info] is registered under the dataset type, the directory is the
    one [save_model] leaves, and the reported number of records is the number
    of rows of the imported table. *)
Theorem run_pipeline_report `{Sklearn} `{Disk} `{Kaggle} `{Supabase} `{FL : Floats}
    (datasets : gmap string DatasetConfig) (models : gmap string bundle)
    (store : gmap string file) (dataset_type : string) :
  (forall error models' store',
      run_pipeline datasets models store dataset_type
      = (PipelineFailure error, models', store') ->
      models' = models /\ store' = store)
  /\ (forall records model_info models' store',
         run_pipeline datasets models store dataset_type
         = (PipelineSuccess records model_info, models', store') ->
         exists b df,
           models' = <[dataset_type := b]> models
           /\ bundle_info b = model_info
           /\ store' = (save_model models' dataset_type store).2
           /\ import_dataset datasets dataset_type = Some df
           /\ forall n, has_rows n df -> records = n).
Proof.
  unfold run_pipeline. split.
  - intros error models' store'.
    destruct (import_dataset datasets dataset_type) as [df |]; [| now intros [= _ <- <-]].
    destruct (df_empty df); [now intros [= _ <- <-] |].
    destruct (preprocess_data datasets df dataset_type) as [[df_processed new_features] | e];
      [| now intros [= _ <- <-]].
    destruct (df_empty df_processed || _); [now intros [= _ <- <-] |].
    unfold train_model.
    destruct (dataset_info datasets dataset_type) as [cfg | e]; [| now intros [= _ <- <-]].
    destruct new_features as [|c cs]; [now intros [= _ <- <-] |].
    destruct (negb (has_column (ds_target cfg) df_processed)); [now intros [= _ <- <-] |].
    destruct (train_bundle _ _ _) as [b | e]; [| now intros [= _ <- <-]].
    destruct (save_model _ _ _). discriminate.
  - intros records model_info models' store'. apply run_pipeline_success.
Qed.

Lemma run_pipeline_report_witness :
  exists model_info models' store',
    run_pipeline (H := toy_sklearn) (H0 := good_disk) (H1 := toy_kaggle) (H2 := toy_supabase)
      {["network" := signal_config]} ∅ ∅ "network"
    = (PipelineSuccess 3 model_info, models', store').
Proof.
  destruct (run_pipeline (H := toy_sklearn) (H0 := good_disk) (H1 := toy_kaggle)
              (H2 := toy_supabase) {["network" := signal_config]} ∅ ∅ "network")
    as [[[error | records model_info] models'] store'] eqn:Hrun;
    [vm_compute in Hrun; discriminate Hrun |].
  exists model_info, models', store'.
  destruct (proj2 (run_pipeline_report (H := toy_sklearn) (H0 := good_disk)
                     (H1 := toy_kaggle) (H2 := toy_supabase)
                     {["network" := signal_config]} ∅ ∅ "network")
              records model_info models' store' Hrun)
    as (b & df & _ & _ & _ & Himport & Hrows).
  injection Himport as <-.
  now rewrite (Hrows 3%nat ltac:(repeat constructor)).
Defined.

(** X14: a success report does not mean that the model was persisted: the
    result of [save_model] is not looked at.  When the model file cannot be
    written, a run that reports success leaves the models directory as it was
    (and the bundle only in the registry). *)
Theorem run_pipeline_success_without_save `{Sklearn} `{Disk} `{Kaggle} `{Supabase} `{FL : Floats}
    (datasets : gmap string DatasetConfig) (models models' : gmap string bundle)
    (store store' : gmap string file) (dataset_type : string) (records : nat)
    (model_info : model_info) :
  writable (model_path dataset_type) = false ->
  run_pipeline datasets models store dataset_type
  = (PipelineSuccess records model_info, models', store') ->
  store' = store
  /\ save_model models' dataset_type store = (false, store)
  /\ is_Some (models' !! dataset_type).
Proof.
  intros Hw Hrun.
  destruct (run_pipeline_success _ _ _ _ _ _ _ _ Hrun) as (b & df & -> & _ & -> & _ & _).
  assert (Hsave : save_model (<[dataset_type := b]> models) dataset_type store
                  = (false, store)).
  { unfold save_model, write_bundle, write_file. rewrite lookup_insert_eq, Hw.
    destruct joblib_importable; [| reflexivity].
    now destruct makedirs_models. }
  rewrite Hsave. split; [reflexivity |]. split; [reflexivity |].
  rewrite lookup_insert_eq. eauto.
Qed.

Lemma run_pipeline_success_without_save_witness :
  exists records model_info models',
    run_pipeline (H := toy_sklearn) (H0 := read_only_disk) (H1 := toy_kaggle)
      (H2 := toy_supabase) {["network" := signal_config]} ∅ ∅ "network"
    = (PipelineSuccess records model_info, models', ∅).
Proof.
  destruct (run_pipeline (H := toy_sklearn) (H0 := read_only_disk) (H1 := toy_kaggle)
              (H2 := toy_supabase) {["network" := signal_config]} ∅ ∅ "network")
    as [[[error | records model_info] models'] store'] eqn:Hrun;
    [vm_compute in Hrun; discriminate Hrun |].
  exists records, model_info, models'.
  destruct (run_pipeline_success_without_save (H := toy_sklearn) (H0 := read_only_disk)
              (H1 := toy_kaggle) (H2 := toy_supabase) {["network" := signal_config]} ∅ models'
              ∅ store' "network" records model_info eq_refl Hrun) as [-> _].
  reflexivity.
Defined.

(** ** Chunk synthesizer: coordinates *)

Lemma rstrip_parens_plain (s : string) :
  none_of PyStr.is_paren s = true -> PyStr.rstrip_parens s = s.
Proof.
  induction s as [|c s IH]; [reflexivity |]. simpl.
  intros Hs. apply andb_prop in Hs as [Hc Hs]. rewrite (IH Hs).
  apply negb_true_iff in Hc. rewrite Hc. now destruct s.
Qed.

Lemma rstrip_parens_close (s : string) :
  PyStr.rstrip_parens (s +:+ ")") = PyStr.rstrip_parens s.
Proof.
  induction s as [|c s IH]; [reflexivity |].
  rewrite append_cons. simpl. now rewrite IH.
Qed.

Lemma lstrip_parens_plain (s : string) :
  none_of PyStr.is_paren s = true -> PyStr.lstrip_parens s = s.
Proof.
  destruct s as [|c s]; [reflexivity |]. simpl.
  intros Hs. apply andb_prop in Hs as [Hc _]. apply negb_true_iff in Hc. now rewrite Hc.
Qed.

Lemma none_of_append (p : ascii -> bool) (a b : string) :
  none_of p (a +:+ b) = none_of p a && none_of p b.
Proof.
  induction a as [|c a IH]; [reflexivity |].
  rewrite append_cons. simpl. now rewrite IH, andb_assoc.
Qed.

Lemma split_on_plain (c : ascii) (s : string) :
  none_of (fun x => Ascii.eqb x c) s = true -> PyStr.split_on c s = [s].
Proof.
  induction s as [|x s IH]; [reflexivity |]. simpl.
  intros Hs. apply andb_prop in Hs as [Hx Hs]. apply negb_true_iff in Hx.
  now rewrite Hx, (IH Hs).
Qed.

Lemma split_on_separator (c : ascii) (a b : string) :
  none_of (fun x => Ascii.eqb x c) a = true ->
  PyStr.split_on c (a +:+ String c b) = a :: PyStr.split_on c b.
Proof.
  induction a as [|x a IH]; intros Ha.
  - simpl. now rewrite Ascii.eqb_refl.
  - rewrite append_cons. simpl in *. apply andb_prop in Ha as [Hx Ha].
    apply negb_true_iff in Hx. now rewrite Hx, (IH Ha).
Qed.

Lemma string_app_assoc (a b c : string) : (a +:+ b) +:+ c = a +:+ (b +:+ c).
Proof.
  induction a as [|x a IH]; [reflexivity |]. rewrite !append_cons. now rewrite IH.
Qed.

(** The two parts of the text [(lon,lat)]. *)
Lemma split_coordinates_text (lon_str lat_str : string) :
  plain_number_text lon_str = true -> plain_number_text lat_str = true ->
  PyStr.split_on ","%char (PyStr.strip_parens ("(" +:+ lon_str +:+ "," +:+ lat_str +:+ ")"))
  = [lon_str; lat_str].
Proof.
  unfold plain_number_text. intros Hlon Hlat.
  apply andb_prop in Hlon as [Hlon_c Hlon_p]. apply andb_prop in Hlat as [Hlat_c Hlat_p].
  assert (Hplain : none_of PyStr.is_paren (lon_str +:+ "," +:+ lat_str) = true).
  { rewrite none_of_append, Hlon_p. simpl.
    change ("," +:+ lat_str) with (String ","%char lat_str). simpl. exact Hlat_p. }
  unfold PyStr.strip_parens.
  change ("(" +:+ lon_str +:+ "," +:+ lat_str +:+ ")")
    with (String "("%char (lon_str +:+ "," +:+ lat_str +:+ ")")).
  cbn [PyStr.lstrip_parens]. change (PyStr.is_paren "("%char) with true. cbn iota.
  replace (lon_str +:+ "," +:+ lat_str +:+ ")") with ((lon_str +:+ "," +:+ lat_str) +:+ ")").
  2:{ now rewrite !string_app_assoc. }
  assert (Hl : PyStr.lstrip_parens ((lon_str +:+ "," +:+ lat_str) +:+ ")")
               = (lon_str +:+ "," +:+ lat_str) +:+ ")").
  { destruct lon_str as [|c s]; [reflexivity |].
    rewrite !append_cons. simpl in Hlon_p. apply andb_prop in Hlon_p as [Hc _].
    apply negb_true_iff in Hc. simpl. now rewrite Hc. }
  rewrite Hl, rstrip_parens_close, (rstrip_parens_plain _ Hplain).
  change ("," +:+ lat_str) with (String ","%char lat_str).
  rewrite (split_on_separator _ _ _ Hlon_c). now rewrite (split_on_plain _ _ Hlat_c).
Qed.

(** X15: both forms of the coordinates are read.  The structured form gives
    its members [x] and [y] ("N/A" for a missing member).  The text
    [(lon,lat)] gives the two numbers [float] reads; when [float] rejects the
    latitude only, the longitude is kept and the latitude is "N/A"; when it
    rejects the longitude both are "N/A".  In no case is an exception
    raised. *)
Theorem coordinates_forms `{PyFormat} (record : dict) :
  (forall coords_raw,
      dict_get "coordinates" record = Some (JDict coords_raw) ->
      coordinates record
      = (dict_get_default "x" not_available coords_raw,
         dict_get_default "y" not_available coords_raw))
  /\ (forall lon_str lat_str,
         plain_number_text lon_str = true -> plain_number_text lat_str = true ->
         dict_get "coordinates" record
         = Some (JStr ("(" +:+ lon_str +:+ "," +:+ lat_str +:+ ")")) ->
         coordinates record
         = match py_float lon_str, py_float lat_str with
           | Some lon, Some lat => (JNum lon, JNum lat)
           | Some lon, None => (JNum lon, not_available)
           | None, _ => (not_available, not_available)
           end)
  /\ (dict_get "coordinates" record = None ->
      coordinates record = (not_available, not_available)).
Proof.
  unfold coordinates. split; [| split].
  - now intros coords_raw ->.
  - intros lon_str lat_str Hlon Hlat ->.
    rewrite (split_coordinates_text _ _ Hlon Hlat).
    destruct (py_float lon_str); [| reflexivity]. now destruct (py_float lat_str).
  - now intros ->.
Qed.

Lemma coordinates_forms_witness :
  coordinates (H := plain_format) [("coordinates", JStr "(2.35,48.85)")]
  = (not_available, not_available).
Proof.
  exact (proj1 (proj2 (coordinates_forms (H := plain_format)
                         [("coordinates", JStr "(2.35,48.85)")]))
           "2.35" "48.85" eq_refl eq_refl eq_refl).
Defined.

(** ** Enhancement composer: the merge is additive *)

Lemma dict_get_set_some (k k' : string) (v : json) (d : dict) :
  is_Some (dict_get k d) -> is_Some (dict_get k (dict_set k' v d)).
Proof.
  destruct (decide (k = k')) as [-> | Hne].
  - rewrite dict_get_set_eq. eauto.
  - now rewrite dict_get_set_ne.
Qed.

Section Additive.

Context `{FileSystem} `{Clock} `{FL : Floats}.

Lemma set_nested_section (section k : string) (v : json) (e e' d : dict) :
  set_nested section k v e = Ret e' ->
  dict_get section e = Some (JDict d) ->
  dict_get section e' = Some (JDict (dict_set k v d)).
Proof.
  unfold set_nested. intros Hset Hd. rewrite Hd in Hset. injection Hset as <-.
  apply dict_get_set_eq.
Qed.

(** The fields of a section that a sub-domain did not produce stay. *)
Lemma enhance_section_nested (models models' : gmap string bundle)
    (dataset_type section field : string) (required : list string)
    (input e e' d : dict) :
  enhance_section models dataset_type section field required input e = (Ret e', models') ->
  dict_get section e = Some (JDict d) ->
  exists d',
    dict_get section e' = Some (JDict d')
    /\ forall k, k <> field -> k <> "prediction_confidence" -> dict_get k d' = dict_get k d.
Proof.
  unfold enhance_section. intros Hrun Hd.
  destruct (forallb _ required); [| injection Hrun as <- _; eauto].
  destruct (predict models dataset_type input) as [[error | prediction confidence] models1];
    [injection Hrun as <- _; eauto |].
  injection Hrun as Hset _. bind_inv Hset.
  pose proof (set_nested_section _ _ _ _ _ _ E Hd) as Hd1.
  pose proof (set_nested_section _ _ _ _ _ _ Hset Hd1) as Hd2.
  eexists. split; [exact Hd2 |].
  intros k Hk1 Hk2. now rewrite !dict_get_set_ne.
Qed.

Lemma enhance_subdomain_nested (datasets : gmap string DatasetConfig)
    (dataset_type section field : string) (build_input : dict -> res dict)
    (location_data e e' d : dict) (models models' : gmap string bundle) :
  enhance_subdomain datasets dataset_type section field build_input location_data (e, models)
  = (Ret e', models') ->
  dict_get section e = Some (JDict d) ->
  exists d',
    dict_get section e' = Some (JDict d')
    /\ forall k, k <> field -> k <> "prediction_confidence" -> dict_get k d' = dict_get k d.
Proof.
  unfold enhance_subdomain. intros Hrun Hd.
  destruct (datasets !! dataset_type) as [cfg |]; [| injection Hrun as <- _; eauto].
  destruct (dict_mem section location_data); [| injection Hrun as <- _; eauto].
  destruct (build_input location_data) as [input | x]; [| discriminate].
  eapply enhance_section_nested; eauto.
Qed.

Lemma enhance_subdomain_keys (datasets : gmap string DatasetConfig)
    (dataset_type section field : string) (build_input : dict -> res dict)
    (location_data e e' : dict) (models models' : gmap string bundle) (k : string) :
  enhance_subdomain datasets dataset_type section field build_input location_data (e, models)
  = (Ret e', models') ->
  is_Some (dict_get k e) -> is_Some (dict_get k e').
Proof.
  intros Hrun Hk. destruct (decide (k = section)) as [-> | Hne].
  - unfold enhance_subdomain, enhance_section in Hrun.
    destruct (datasets !! dataset_type) as [cfg |]; [| now injection Hrun as <- _].
    destruct (dict_mem section location_data); [| now injection Hrun as <- _].
    destruct (build_input location_data) as [input | x]; [| discriminate].
    destruct (forallb _ _); [| now injection Hrun as <- _].
    destruct (predict models dataset_type _) as [[error | prediction confidence] models1];
      [now injection Hrun as <- _ |].
    injection Hrun as Hset _. bind_inv Hset.
    destruct (set_nested_other _ _ _ _ _ Hset) as [_ [d Hd]]. rewrite Hd. eauto.
  - now rewrite (enhance_subdomain_other _ _ _ _ _ _ _ _ _ _ Hrun k Hne).
Qed.

End Additive.

(** X16: the enhancement is additive.  In the entity [enhance_location_data]
    returns, every key of the input entity is still there; the values under
    the keys other than [connectivity], [social] and the two stamps are the
    ones of the input; and inside the connectivity (social) section every
    field other than [reliability_score] ([enhanced_sentiment]) and
    [prediction_confidence] has the value it had. *)
Theorem enhance_is_additive `{FileSystem} `{Clock} `{FL : Floats}
    (datasets : gmap string DatasetConfig) (models models' : gmap string bundle)
    (location_data enhanced : dict) :
  enhance_location_data datasets models location_data = (Ret enhanced, models') ->
  (forall k, is_Some (dict_get k location_data) -> is_Some (dict_get k enhanced))
  /\ (forall k,
         k <> "connectivity" -> k <> "social" ->
         k <> "enhanced_by_deepmind" -> k <> "enhancement_timestamp" ->
         dict_get k enhanced = dict_get k location_data)
  /\ (forall d,
         dict_get "connectivity" location_data = Some (JDict d) ->
         exists d',
           dict_get "connectivity" enhanced = Some (JDict d')
           /\ forall k, k <> "reliability_score" -> k <> "prediction_confidence" ->
                        dict_get k d' = dict_get k d)
  /\ (forall d,
         dict_get "social" location_data = Some (JDict d) ->
         exists d',
           dict_get "social" enhanced = Some (JDict d')
           /\ forall k, k <> "enhanced_sentiment" -> k <> "prediction_confidence" ->
                        dict_get k d' = dict_get k d).
Proof.
  unfold enhance_location_data.
  destruct (enhance_subdomain datasets "network" "connectivity" "reliability_score"
              network_input location_data (location_data, models))
    as [[e1 | x] m1] eqn:E1; [| discriminate].
  destruct (enhance_subdomain datasets "social" "social" "enhanced_sentiment"
              social_input location_data (e1, m1))
    as [[e2 | x] m2] eqn:E2; [| discriminate].
  intros [= <- <-].
  destruct (stamp_fields e2) as (_ & _ & Hrest).
  split; [| split; [| split]].
  - intros k Hk. unfold stamp. do 2 apply dict_get_set_some.
    eapply enhance_subdomain_keys; [exact E2 |].
    eapply enhance_subdomain_keys; [exact E1 | exact Hk].
  - intros k Hc Hs Hf Ht. rewrite Hrest by assumption.
    rewrite (enhance_subdomain_other _ _ _ _ _ _ _ _ _ _ E2 k Hs).
    apply (enhance_subdomain_other _ _ _ _ _ _ _ _ _ _ E1 k Hc).
  - intros d Hd.
    destruct (enhance_subdomain_nested _ _ _ _ _ _ _ _ _ _ _ E1 Hd) as (d' & Hd' & Hsame).
    exists d'. split; [| exact Hsame].
    rewrite Hrest by discriminate.
    now rewrite (enhance_subdomain_other _ _ _ _ _ _ _ _ _ _ E2 "connectivity"
                   ltac:(discriminate)).
  - intros d Hd.
    rewrite <- (enhance_subdomain_other _ _ _ _ _ _ _ _ _ _ E1 "social" ltac:(discriminate))
      in Hd.
    destruct (enhance_subdomain_nested _ _ _ _ _ _ _ _ _ _ _ E2 Hd) as (d' & Hd' & Hsame).
    exists d'. split; [| exact Hsame]. now rewrite Hrest by discriminate.
Qed.

Lemma enhance_is_additive_witness :
  dict_get "name" (stamp (H := new_year) weak_entity) = dict_get "name" weak_entity.
Proof.
  refine (proj1 (proj2 (enhance_is_additive (H0 := empty_directory) (H1 := new_year)
                          {["network" := network_signal_config]} ∅ ∅ weak_entity
                          (stamp (H := new_year) weak_entity) _)) "name" _ _ _ _);
    [vm_compute; reflexivity | discriminate ..].
Defined.

(** ** Location service: recommendations *)

Section Recommendations.

Context `{PyFormat}.

Lemma network_recommendation_shape (location : dict) (l : list json) :
  network_recommendation location = Ret l ->
  l = [] \/ exists description,
      l = [recommendation "network" "Connectivity Alert" description "medium"].
Proof.
  unfold network_recommendation. intros Hl. bind_inv Hl.
  destruct a as [connectivity |]; [| injection Hl as <-; now left].
  bind_inv Hl. bind_inv Hl.
  destruct (Qlt_bool _ _); [| injection Hl as <-; now left].
  bind_inv Hl. injection Hl as <-. right. eauto.
Qed.

Lemma weather_recommendation_shape (location : dict) (l : list json) :
  weather_recommendation location = Ret l ->
  l = [] \/ exists description,
      l = [recommendation "weather" "Weather Alert" description "high"].
Proof.
  unfold weather_recommendation. intros Hl. bind_inv Hl.
  destruct a as [weather |]; [| injection Hl as <-; now left].
  bind_inv Hl.
  destruct (eq_str _ _); injection Hl as <-; [right; eauto | now left].
Qed.

Lemma social_recommendation_shape (location : dict) (l : list json) :
  social_recommendation location = Ret l ->
  l = [] \/ exists description,
      l = [recommendation "social" "Positive Social Activity" description "low"].
Proof.
  unfold social_recommendation. intros Hl. bind_inv Hl.
  destruct a as [social |]; [| injection Hl as <-; now left].
  bind_inv Hl. bind_inv Hl.
  destruct (Qlt_bool _ _); injection Hl as <-; [right; eauto | now left].
Qed.

Lemma realtime_section_dict (location rt : dict) (name : string) :
  dict_get "realtimeData" location = Some (JDict rt) ->
  realtime_section location name = Ret (dict_get name rt).
Proof.
  unfold realtime_section, dict_get_default. intros ->. simpl.
  unfold dict_mem. now destruct (dict_get name rt).
Qed.

End Recommendations.

(** X17: the recommendations come in a fixed order.  Whatever the entity
    holds, a list returned by [_generate_recommendations] has at most one
    recommendation of each type, in the order network, weather, social,
    time; the lunch-time recommendation is in it exactly when the clock shows
    an hour from 11 to 14. *)
Theorem recommendations_order `{PyFormat} (current_hour : nat) (location : dict)
    (recommendations : list json) :
  _generate_recommendations current_hour location = Ret recommendations ->
  sublist (recommendation_type <$> recommendations)
          [JStr "network"; JStr "weather"; JStr "social"; JStr "time"]
  /\ (JStr "time" ∈ (recommendation_type <$> recommendations)
      <-> (11 <= current_hour <= 14)%nat).
Proof.
  unfold _generate_recommendations. intros Hrun.
  bind_inv Hrun. bind_inv Hrun. bind_inv Hrun. injection Hrun as <-.
  apply network_recommendation_shape in E as [-> | [dn ->]];
    apply weather_recommendation_shape in E0 as [-> | [dw ->]];
    apply social_recommendation_shape in E1 as [-> | [ds ->]];
    unfold time_recommendation;
    destruct (Nat.leb_spec0 11 current_hour) as [Hlo | Hlo];
    destruct (Nat.leb_spec0 current_hour 14) as [Hhi | Hhi];
    cbn [andb app fmap list_fmap recommendation_type recommendation get_or_none
         dict_get_default dict_get String.eqb Ascii.eqb Bool.eqb];
    (split;
     [ eauto 10 using sublist_nil, sublist_skip, sublist_cons
     | rewrite ?elem_of_cons, elem_of_nil;
       split; [intros Hin; repeat destruct Hin as [Hin | Hin]; try discriminate; try lia;
               try contradiction
              | intros Hh; try lia; eauto 10] ]).
Qed.

Lemma recommendations_order_witness :
  sublist (recommendation_type <$> [recommendation "time" "Lunch Time Activity"
             "It's lunch time! Popular dining spots nearby may be busy." "medium"])
          [JStr "network"; JStr "weather"; JStr "social"; JStr "time"].
Proof.
  exact (proj1 (recommendations_order (H := plain_format) 12 unnamed_location _ eq_refl)).
Defined.

(** X18: a connectivity section without signal strength counts as a weak
    signal.  When the realtime connectivity section has no [signalStrength],
    every list [_generate_recommendations] returns starts with the
    connectivity alert, whose text shows the missing value as Python prints
    [None]; when [signalStrength] is there and null, the comparison raises
    [TypeError] and no list is returned. *)
Theorem missing_signal_strength `{PyFormat} (current_hour : nat)
    (location realtime connectivity : dict) :
  dict_get "realtimeData" location = Some (JDict realtime) ->
  dict_get "connectivity" realtime = Some (JDict connectivity) ->
  (dict_get "signalStrength" connectivity = None ->
   forall recommendations,
     _generate_recommendations current_hour location = Ret recommendations ->
     exists rest,
       recommendations
       = recommendation "network" "Connectivity Alert"
           ("Signal strength is low (" +:+ py_str JNull
            +:+ "%). Consider moving to a better coverage area.") "medium" :: rest)
  /\ (dict_get "signalStrength" connectivity = Some JNull ->
      _generate_recommendations current_hour location = Raise TypeError).
Proof.
  intros Hrt Hc.
  assert (Hsec : realtime_section location "connectivity" = Ret (Some (JDict connectivity))).
  { rewrite (realtime_section_dict _ _ _ Hrt). now rewrite Hc. }
  split.
  - intros Hs recommendations Hrun. unfold _generate_recommendations in Hrun.
    bind_inv Hrun. bind_inv Hrun. bind_inv Hrun. injection Hrun as <-.
    unfold network_recommendation in E. rewrite Hsec in E.
    cbn [mbind res_bind py_get] in E. unfold dict_get_default in E. rewrite Hs in E.
    cbn in E. injection E as <-. eexists. reflexivity.
  - intros Hs. unfold _generate_recommendations, network_recommendation.
    rewrite Hsec. cbn [mbind res_bind py_get]. unfold dict_get_default. now rewrite Hs.
Qed.

Lemma missing_signal_strength_witness :
  exists rest,
    [recommendation "network" "Connectivity Alert"
       ("Signal strength is low (" +:+ "?"
        +:+ "%). Consider moving to a better coverage area.") "medium"]
    = recommendation "network" "Connectivity Alert"
        ("Signal strength is low (" +:+ "?"
         +:+ "%). Consider moving to a better coverage area.") "medium" :: rest.
Proof.
  exact (proj1 (missing_signal_strength (H := plain_format) 9 no_signal_location
                  [("connectivity", JDict [("networkType", JStr "5G")])]
                  [("networkType", JStr "5G")] eq_refl eq_refl)
           eq_refl _ eq_refl).
Defined.

(** ** Location service: intelligence *)

Section Intelligence.

Context `{FileSystem} `{FL : Floats}.

Lemma predict_registered_registry (models : gmap string bundle) (dataset_type : string)
    (b : bundle) (input_data : dict) :
  models !! dataset_type = Some b ->
  (predict models dataset_type input_data).2 = models.
Proof.
  intros Hb. unfold predict. rewrite Hb. simpl. rewrite Hb.
  now destruct (predict_with b input_data).
Qed.

Lemma add_popularity_registry (models : gmap string bundle) (t1 t2 : datetime)
    (enhanced : dict) :
  (add_popularity models t1 t2 enhanced).2 = models.
Proof.
  unfold add_popularity.
  destruct (popularity_input _ _) as [location_input | x]; [| reflexivity].
  destruct (models !! "location") as [b |] eqn:Hb; [| reflexivity].
  pose proof (predict_registered_registry models "location" b location_input Hb) as Hreg.
  destruct (predict models "location" location_input) as [[error | p c] models'];
    simpl in Hreg; subst models'; [reflexivity |].
  now destruct (_ ≫= _).
Qed.

Lemma add_popularity_no_model (models : gmap string bundle) (t1 t2 : datetime)
    (enhanced : dict) :
  models !! "location" = None ->
  add_popularity models t1 t2 enhanced = (enhanced, models).
Proof.
  unfold add_popularity. intros ->. now destruct (popularity_input _ _).
Qed.

(** Outside [analytics] nothing is written, and [analytics] stays. *)
Lemma add_popularity_other (models : gmap string bundle) (t1 t2 : datetime)
    (enhanced : dict) :
  (forall k, k <> "analytics" ->
             dict_get k (add_popularity models t1 t2 enhanced).1 = dict_get k enhanced)
  /\ (is_Some (dict_get "analytics" enhanced) ->
      is_Some (dict_get "analytics" (add_popularity models t1 t2 enhanced).1)).
Proof.
  unfold add_popularity.
  destruct (popularity_input _ _) as [location_input | x]; [| now split].
  destruct (models !! "location") as [b |]; [| now split].
  destruct (predict models "location" location_input) as [[error | p c] models'];
    [now split |].
  destruct (_ ≫= _) as [e | x] eqn:Hset; [| now split]. simpl.
  bind_inv Hset. bind_inv Hset.
  destruct (set_nested_other _ _ _ _ _ E) as [H1 _].
  destruct (set_nested_other _ _ _ _ _ E0) as [H2 _].
  destruct (set_nested_other _ _ _ _ _ Hset) as [H3 [d Hd]].
  split.
  - intros k Hk. now rewrite H3, H2, H1.
  - intros _. rewrite Hd. eauto.
Qed.

Lemma popularity_stage_registry (models : gmap string bundle) (t1 t2 : datetime)
    (location : dict) :
  (popularity_stage models t1 t2 location).2 = models.
Proof.
  unfold popularity_stage. destruct (dict_mem _ _); [| reflexivity].
  apply add_popularity_registry.
Qed.

Lemma popularity_stage_other (models : gmap string bundle) (t1 t2 : datetime)
    (location : dict) :
  (forall k, k <> "analytics" ->
             dict_get k (popularity_stage models t1 t2 location).1 = dict_get k location)
  /\ (is_Some (dict_get "analytics" location) ->
      is_Some (dict_get "analytics" (popularity_stage models t1 t2 location).1)).
Proof.
  unfold popularity_stage. destruct (dict_mem _ _); [| now split].
  apply add_popularity_other.
Qed.

Lemma popularity_stage_no_model (models : gmap string bundle) (t1 t2 : datetime)
    (location : dict) :
  models !! "location" = None ->
  popularity_stage models t1 t2 location = (location, models).
Proof.
  unfold popularity_stage. intros Hm. destruct (dict_mem _ _); [| reflexivity].
  now apply add_popularity_no_model.
Qed.

Context `{PyFormat}.

(** What [_add_location_intelligence] returns, in terms of the entity that
    [_generate_recommendations] saw. *)
Lemma add_location_intelligence_ret (models models' : gmap string bundle)
    (t1 t2 t3 : datetime) (location final : dict) :
  _add_location_intelligence models t1 t2 t3 location = (Ret final, models') ->
  models' = models
  /\ exists recommendations,
      _generate_recommendations (hour t3) (popularity_stage models t1 t2 location).1
      = Ret recommendations
      /\ final = dict_set "recommendations" (JList recommendations)
                   (popularity_stage models t1 t2 location).1.
Proof.
  unfold _add_location_intelligence.
  pose proof (popularity_stage_registry models t1 t2 location) as Hreg.
  destruct (popularity_stage models t1 t2 location) as [enhanced m]. simpl in *. subst m.
  destruct (_generate_recommendations _ _) as [recommendations | x]; [| discriminate].
  intros [= <- <-]. eauto.
Qed.

Lemma add_location_intelligence_registry (models : gmap string bundle)
    (t1 t2 t3 : datetime) (location : dict) :
  (_add_location_intelligence models t1 t2 t3 location).2 = models.
Proof.
  unfold _add_location_intelligence.
  pose proof (popularity_stage_registry models t1 t2 location) as Hreg.
  destruct (popularity_stage models t1 t2 location) as [enhanced m]. simpl in *. subst m.
  now destruct (_generate_recommendations _ _).
Qed.

End Intelligence.

(** X19: what the location intelligence touches.  [_add_location_intelligence]
    never changes the model registry (it predicts with a registered model
    only).  In the entity it returns, [recommendations] holds a list, every
    key of the input is still there, and the values under every key other
    than [recommendations] and [analytics] are the ones of the input; when no
    [location] model is registered, [analytics] is as in the input too. *)
Theorem location_intelligence_effects `{FileSystem} `{PyFormat} `{FL : Floats}
    (models models' : gmap string bundle) (t1 t2 t3 : datetime) (location final : dict) :
  _add_location_intelligence models t1 t2 t3 location = (Ret final, models') ->
  models' = models
  /\ (exists recommendations, dict_get "recommendations" final = Some (JList recommendations))
  /\ (forall k, is_Some (dict_get k location) -> is_Some (dict_get k final))
  /\ (forall k, k <> "recommendations" -> k <> "analytics" ->
                dict_get k final = dict_get k location)
  /\ (models !! "location" = None ->
      dict_get "analytics" final = dict_get "analytics" location).
Proof.
  intros Hrun.
  destruct (add_location_intelligence_ret _ _ _ _ _ _ _ Hrun) as (-> & recs & _ & ->).
  destruct (popularity_stage_other models t1 t2 location) as [Hother Hkeep].
  split; [reflexivity |]. split; [| split; [| split]].
  - exists recs. apply dict_get_set_eq.
  - intros k Hk. apply dict_get_set_some.
    destruct (decide (k = "analytics")) as [-> | Hne]; [now apply Hkeep |].
    now rewrite Hother.
  - intros k Hr Ha. rewrite dict_get_set_ne by assumption. now apply Hother.
  - intros Hm. rewrite dict_get_set_ne by discriminate.
    now rewrite (popularity_stage_no_model _ _ _ _ Hm).
Qed.

Lemma location_intelligence_effects_witness :
  dict_get "name" (dict_set "recommendations"
                     (JList [recommendation "weather" "Weather Alert"
                               "It's currently raining. Indoor activities recommended." "high";
                             recommendation "social" "Positive Social Activity"
                               "This location is trending positively on social media." "low"])
                     mock_location)
  = dict_get "name" mock_location.
Proof.
  refine (proj1 (proj2 (proj2 (proj2
            (location_intelligence_effects (H0 := empty_directory) (H1 := plain_format)
               ∅ ∅ evening evening evening mock_location _ _)))) "name" _ _);
    [vm_compute; reflexivity | discriminate ..].
Defined.

(** X20: the realtime sections are not the sections the enhancer reads.  An
    entity without the keys [connectivity] and [social] at its top level (the
    mock locations carry both under [realtimeData]) gets the two stamps from
    [enhance_location_data] and nothing else, whatever datasets are
    configured; no model is loaded. *)
Theorem enhance_ignores_realtime_sections `{FileSystem} `{Clock} `{FL : Floats}
    (datasets : gmap string DatasetConfig) (models : gmap string bundle)
    (location_data : dict) :
  dict_mem "connectivity" location_data = false ->
  dict_mem "social" location_data = false ->
  enhance_location_data datasets models location_data = (Ret (stamp location_data), models).
Proof.
  intros Hc Hs. unfold enhance_location_data, enhance_subdomain. rewrite Hc, Hs.
  destruct (datasets !! "network"), (datasets !! "social"); reflexivity.
Qed.

Lemma enhance_ignores_realtime_sections_witness :
  enhance_location_data (H0 := saved_classifier) (H1 := new_year)
    {["network" := network_signal_config; "social" := social_config]} ∅ mock_location
  = (Ret (stamp (H := new_year) mock_location), ∅).
Proof.
  apply (enhance_ignores_realtime_sections (H0 := saved_classifier) (H1 := new_year));
    reflexivity.
Defined.

(** ** Location service: writing back *)

Section WriteBack.

Context `{LocationTable} `{PyFormat}.

Lemma update_loop_without_ids (clock_at : nat -> datetime) (locations : list dict) :
  Forall (fun location => truthy (get_or_none "id" location) = false) locations ->
  forall i sent success_count,
    update_loop clock_at i locations sent success_count = (sent, success_count).
Proof.
  induction 1 as [| location rest Hid _ IH]; intros i sent success_count; [reflexivity |].
  cbn [update_loop]. unfold update_one. rewrite Hid. cbn [negb].
  rewrite IH. now rewrite app_nil_r.
Qed.

Lemma update_loop_count (clock_at : nat -> datetime) (locations : list dict) :
  forall i sent success_count,
    success_count <= (update_loop clock_at i locations sent success_count).2.
Proof.
  induction locations as [| location rest IH]; intros i sent success_count; [simpl; lia |].
  cbn [update_loop].
  destruct (update_one i (clock_at i) location) as [request ok].
  etransitivity; [| apply IH]. destruct ok; lia.
Qed.

Lemma update_loop_sent (clock_at : nat -> datetime) (locations : list dict) :
  forall i sent success_count rq,
    rq ∈ sent -> rq ∈ (update_loop clock_at i locations sent success_count).1.
Proof.
  induction locations as [| location rest IH]; intros i sent success_count rq Hrq;
    [exact Hrq |].
  cbn [update_loop].
  destruct (update_one i (clock_at i) location) as [request ok].
  apply IH. apply elem_of_app. now left.
Qed.

(** A turn that counts makes the count positive, and its request is among
    the requests sent. *)
Lemma update_loop_success (clock_at : nat -> datetime) (locations : list dict) :
  forall i j sent success_count location rq,
    locations !! j = Some location ->
    update_one (i + j) (clock_at (i + j)) location = (Some rq, true) ->
    success_count < (update_loop clock_at i locations sent success_count).2
    /\ rq ∈ (update_loop clock_at i locations sent success_count).1.
Proof.
  induction locations as [| l rest IH]; intros i j sent success_count location rq Hj Hone;
    [discriminate |].
  cbn [update_loop]. destruct j as [| j].
  - injection Hj as ->. rewrite Nat.add_0_r in Hone. rewrite Hone. split.
    + pose proof (update_loop_count clock_at rest (S i) (sent ++ [rq]) (S success_count)).
      lia.
    + apply update_loop_sent. apply elem_of_app. right. apply list_elem_of_here.
  - replace (i + S j) with (S i + j) in Hone by lia.
    destruct (update_one i (clock_at i) l) as [request ok].
    destruct (IH (S i) j (sent ++ match request with Some rq0 => [rq0] | None => [] end)%list
                 (if ok then S success_count else success_count) location rq Hj Hone)
      as [Hcount Hsent].
    split; [| exact Hsent]. destruct ok; lia.
Qed.

End WriteBack.

(** X21: locations without identifier are never written.  When no location of
    the list has a truthy [id] (an empty list included), [update_supabase]
    sends no request and returns [False], also when the connection is
    fine. *)
Theorem update_supabase_needs_ids `{Supabase} `{LocationTable} `{PyFormat}
    (clock_at : nat -> datetime) (enhanced_locations : list dict) :
  Forall (fun location => truthy (get_or_none "id" location) = false) enhanced_locations ->
  update_supabase clock_at enhanced_locations = (false, []).
Proof.
  intros Hids. unfold update_supabase.
  destruct (negb connect_to_supabase); [reflexivity |].
  now rewrite (update_loop_without_ids clock_at _ Hids).
Qed.

Lemma update_supabase_needs_ids_witness :
  update_supabase (H := toy_supabase) (H0 := one_row_table) (H1 := plain_format)
    (fun _ => noon) [weak_entity; no_signal_location]
  = (false, []).
Proof.
  apply (update_supabase_needs_ids (H := toy_supabase) (H0 := one_row_table)
           (H1 := plain_format)).
  repeat constructor.
Defined.

(** X22: one accepted update is enough.  When the connection is fine and the
    request for one location of the list is answered with 200 or 204,
    [update_supabase] returns [True] and that request is among the requests
    sent, whatever happens to the other locations (a missing identifier, a
    malformed [analytics], a failed request). *)
Theorem update_supabase_one_success `{Supabase} `{LocationTable} `{PyFormat}
    (clock_at : nat -> datetime) (enhanced_locations : list dict) (i : nat)
    (location : dict) (data : json) (status_code : nat) :
  connect_to_supabase = true ->
  enhanced_locations !! i = Some location ->
  truthy (get_or_none "id" location) = true ->
  update_data (clock_at i) location = Ret data ->
  supabase_patch i (fstr (get_or_none "id" location)) data = Ret status_code ->
  status_ok status_code = true ->
  (update_supabase clock_at enhanced_locations).1 = true
  /\ (fstr (get_or_none "id" location), data) ∈ (update_supabase clock_at enhanced_locations).2.
Proof.
  intros Hconn Hi Hid Hdata Hpatch Hok. unfold update_supabase. rewrite Hconn. cbn [negb].
  assert (Hone : update_one (0 + i) (clock_at (0 + i)) location
                 = (Some (fstr (get_or_none "id" location), data), true)).
  { unfold update_one. cbn [Nat.add]. now rewrite Hid, Hdata, Hpatch, Hok. }
  destruct (update_loop_success clock_at enhanced_locations 0 i [] 0 location _ Hi Hone)
    as [Hcount Hsent].
  destruct (update_loop clock_at 0 enhanced_locations [] 0) as [sent success_count].
  simpl in *. split; [now apply Nat.ltb_lt | exact Hsent].
Qed.

Lemma update_supabase_one_success_witness :
  (update_supabase (H := toy_supabase) (H0 := one_row_table) (H1 := plain_format)
     (fun _ => noon) [mock_location; weak_entity; unnamed_location]).1 = true.
Proof.
  refine (proj1 (update_supabase_one_success (H := toy_supabase) (H0 := one_row_table)
                   (H1 := plain_format) (fun _ => noon)
                   [mock_location; weak_entity; unnamed_location] 2 unnamed_location
                   _ 204 _ _ _ _ _ _)); reflexivity.
Defined.

(** ** Location service: enhancing a list *)

Lemma key_eqb_refl (k : json) : hashable k = true -> key_eqb k k = true.
Proof.
  destruct k as [| b | q | s | l | d]; try discriminate; intros _; simpl.
  - reflexivity.
  - destruct b; reflexivity.
  - apply Qeq_bool_iff. reflexivity.
  - apply String.eqb_refl.
Qed.

Lemma cache_get_set (k : json) (v : dict) (c : cache) :
  hashable k = true -> cache_get k (cache_set k v c) = Some v.
Proof.
  intros Hk. induction c as [| [k' v'] c IH]; simpl.
  - now rewrite key_eqb_refl.
  - destruct (key_eqb k' k) eqn:E; simpl; rewrite E; [reflexivity | exact IH].
Qed.

(** The original after the writes: outside the three shared sections it is
    as it was; a shared section that the copy still has is the copy's. *)
Lemma written_back_other (location copy : dict) (k : string) :
  k <> "connectivity" -> k <> "social" -> k <> "analytics" ->
  dict_get k (written_back location copy) = dict_get k location.
Proof.
  intros Hc Hs Ha. unfold written_back. cbn [foldl].
  repeat match goal with
         | |- context [match dict_get ?x ?d with _ => _ end] =>
             destruct (dict_get x d); [destruct (dict_get x copy) |]
         end;
    rewrite ?dict_get_set_ne by assumption; reflexivity.
Qed.

Lemma written_back_section (location copy : dict) (k : string) :
  k ∈ ["connectivity"; "social"; "analytics"] ->
  is_Some (dict_get k location) -> is_Some (dict_get k copy) ->
  dict_get k (written_back location copy) = dict_get k copy.
Proof.
  intros Hk [v Hv] [w Hw]. unfold written_back. cbn [foldl].
  set (step := fun original k0 =>
                 match dict_get k0 original, dict_get k0 copy with
                 | Some _, Some v0 => dict_set k0 v0 original
                 | _, _ => original
                 end).
  assert (Hsame : forall original k0, k0 <> k ->
                    dict_get k (step original k0) = dict_get k original).
  { intros original k0 Hne. unfold step.
    destruct (dict_get k0 original); [| reflexivity].
    destruct (dict_get k0 copy); [| reflexivity].
    now rewrite dict_get_set_ne. }
  assert (Hhit : forall original, is_Some (dict_get k original) ->
                   dict_get k (step original k) = dict_get k copy).
  { intros original [x Hx]. unfold step. rewrite Hx, Hw. apply dict_get_set_eq. }
  assert (Hkeep : forall original, dict_get k (step original k) = dict_get k copy ->
                    forall k0, k0 <> k ->
                      dict_get k (step (step original k) k0) = dict_get k copy).
  { intros original Heq k0 Hne. now rewrite Hsame. }
  change (dict_get k (step (step (step location "connectivity") "social") "analytics")
          = dict_get k copy).
  rewrite !elem_of_cons, elem_of_nil in Hk.
  destruct Hk as [-> | [-> | [-> | []]]].
  - rewrite !Hsame by discriminate. apply Hhit. eauto.
  - rewrite Hsame by discriminate. apply Hhit. rewrite Hsame by discriminate. eauto.
  - apply Hhit. rewrite !Hsame by discriminate. eauto.
Qed.

Section EnhanceList.

Context `{FileSystem} `{FL : Floats}.

Lemma enhance_location_data_fields (c : Clock) (datasets : gmap string DatasetConfig)
    (models models' : gmap string bundle) (location_data enhanced : dict) :
  enhance_location_data (H1 := c) datasets models location_data = (Ret enhanced, models') ->
  dict_get "enhanced_by_deepmind" enhanced = Some (JBool true)
  /\ (forall k, is_Some (dict_get k location_data) -> is_Some (dict_get k enhanced))
  /\ (forall k, k <> "connectivity" -> k <> "social" ->
                k <> "enhanced_by_deepmind" -> k <> "enhancement_timestamp" ->
                dict_get k enhanced = dict_get k location_data).
Proof.
  unfold enhance_location_data.
  destruct (enhance_subdomain datasets "network" "connectivity" "reliability_score"
              network_input location_data (location_data, models))
    as [[e1 | x] m1] eqn:E1; [| discriminate].
  destruct (enhance_subdomain datasets "social" "social" "enhanced_sentiment"
              social_input location_data (e1, m1))
    as [[e2 | x] m2] eqn:E2; [| discriminate].
  intros [= <- <-].
  destruct (stamp_fields (H1 := c) e2) as (Hstamp & _ & Hrest).
  split; [exact Hstamp |]. split.
  - intros k Hk. unfold stamp. do 2 apply dict_get_set_some.
    eapply enhance_subdomain_keys; [exact E2 |].
    eapply enhance_subdomain_keys; [exact E1 | exact Hk].
  - intros k Hc Hs Hf Ht. rewrite Hrest by assumption.
    rewrite (enhance_subdomain_other _ _ _ _ _ _ _ _ _ _ E2 k Hs).
    apply (enhance_subdomain_other _ _ _ _ _ _ _ _ _ _ E1 k Hc).
Qed.

Context `{PyFormat}.

(** An entity that went through both stages: its keys are kept, and [name]
    is not invented. *)
Lemma enhanced_name (c : Clock) (datasets : gmap string DatasetConfig)
    (models m1 m2 : gmap string bundle) (t1 t2 t3 : datetime)
    (location enhanced final : dict) :
  enhance_location_data (H1 := c) datasets models location = (Ret enhanced, m1) ->
  _add_location_intelligence m1 t1 t2 t3 enhanced = (Ret final, m2) ->
  dict_mem "name" final = dict_mem "name" location.
Proof.
  intros He Hf.
  destruct (enhance_location_data_fields _ _ _ _ _ _ He) as (_ & _ & Hother).
  destruct (add_location_intelligence_ret _ _ _ _ _ _ _ Hf) as (_ & recs & _ & ->).
  destruct (popularity_stage_other m1 t1 t2 enhanced) as [Hpop _].
  unfold dict_mem. rewrite dict_get_set_ne by discriminate.
  rewrite Hpop by discriminate. now rewrite Hother by discriminate.
Qed.

Lemma enhance_one_named (datasets : gmap string DatasetConfig) (r : readings)
    (location : dict) (models : gmap string bundle) (location_cache : cache) :
  dict_mem "name" location = true ->
  length (enhance_one datasets r location models location_cache).1.1 = 1.
Proof.
  intros Hname. unfold enhance_one.
  destruct (negb (hashable _)); [reflexivity |].
  destruct (cache_get _ _); [reflexivity |].
  destruct (enhance_location_data _ _ _) as [[enhanced | x] m1] eqn:He; [| reflexivity].
  destruct (_add_location_intelligence _ _ _ _ _) as [[final | x] m2] eqn:Hf; [| reflexivity].
  rewrite (enhanced_name _ _ _ _ _ _ _ _ _ _ _ He Hf), Hname. reflexivity.
Qed.

Lemma enhance_one_bounds (datasets : gmap string DatasetConfig) (r : readings)
    (location : dict) (models : gmap string bundle) (location_cache : cache) :
  1 <= length (enhance_one datasets r location models location_cache).1.1 <= 2.
Proof.
  unfold enhance_one.
  destruct (negb (hashable _)); [simpl; lia |].
  destruct (cache_get _ _); [simpl; lia |].
  destruct (enhance_location_data _ _ _) as [[enhanced | x] m1]; [| simpl; lia].
  destruct (_add_location_intelligence _ _ _ _ _) as [[final | x] m2]; [| simpl; lia].
  destruct (dict_mem "name" final); simpl; lia.
Qed.

Lemma enhance_loop_length (datasets : gmap string DatasetConfig)
    (clock_at : nat -> readings) (locations : list dict) :
  forall i models location_cache,
    (length locations
     <= length (enhance_loop datasets clock_at i locations models location_cache).1.1
     <= 2 * length locations)
    /\ (Forall (fun location => dict_mem "name" location = true) locations ->
        length (enhance_loop datasets clock_at i locations models location_cache).1.1
        = length locations).
Proof.
  induction locations as [| location rest IH]; intros i models location_cache.
  - simpl. split; [lia | reflexivity].
  - cbn [enhance_loop].
    pose proof (enhance_one_bounds datasets (clock_at i) location models location_cache)
      as Hb.
    pose proof (enhance_one_named datasets (clock_at i) location models location_cache)
      as Hn.
    destruct (enhance_one datasets (clock_at i) location models location_cache)
      as [[entries m1] c1].
    destruct (IH (S i) m1 c1) as [Hlen Hnamed].
    destruct (enhance_loop datasets clock_at (S i) rest m1 c1) as [[out m2] c2].
    cbn [fst snd] in *. rewrite length_app. cbn [length]. split; [lia |].
    intros Hall. apply Forall_cons in Hall as [Hhd Htl].
    rewrite (Hn Hhd), (Hnamed Htl). reflexivity.
Qed.

End EnhanceList.

(** X23: one entry per named location.  [enhance_locations] returns at least
    one entry per location and at most two; when every location of the list
    has a [name], the list returned is as long as the list given, whether a
    location was enhanced, answered from the cache, or given back after a
    failure. *)
Theorem enhance_locations_length `{FileSystem} `{PyFormat} `{FL : Floats}
    (datasets : gmap string DatasetConfig) (clock_at : nat -> readings)
    (locations : list dict) (models : gmap string bundle) (location_cache : cache) :
  (length locations
   <= length (enhance_locations datasets clock_at locations models location_cache).1.1
   <= 2 * length locations)
  /\ (Forall (fun location => dict_mem "name" location = true) locations ->
      length (enhance_locations datasets clock_at locations models location_cache).1.1
      = length locations).
Proof.
  unfold enhance_locations. apply enhance_loop_length.
Qed.

Lemma enhance_locations_length_witness :
  length (enhance_locations (H0 := saved_classifier) (H1 := plain_format)
            {["network" := network_signal_config]} (fun _ => at_noon)
            [mock_location; weak_entity; mock_location] ∅ []).1.1
  = 3.
Proof.
  apply (proj2 (enhance_locations_length (H0 := saved_classifier) (H1 := plain_format)
                  {["network" := network_signal_config]} (fun _ => at_noon)
                  [mock_location; weak_entity; mock_location] ∅ [])).
  repeat constructor.
Defined.

(** X24: a location without name is returned twice.  When a location that is
    not in the cache has no [name] and both stages succeed, the final log
    line raises after the enhanced entry was appended, and the handler
    appends the original as well: the list returned for this one location is
    the enhanced entry followed by the original.  The original has no stamp
    of its own, but it shows the sections [connectivity], [social] and
    [analytics] as the enhanced entry has them, since the copies are
    shallow. *)
Theorem unnamed_location_returned_twice `{FileSystem} `{PyFormat} `{FL : Floats}
    (datasets : gmap string DatasetConfig) (clock_at : nat -> readings)
    (location : dict) (models m1 m2 : gmap string bundle) (location_cache : cache)
    (enhanced final : dict) :
  dict_mem "name" location = false ->
  hashable (get_or_none "id" location) = true ->
  cache_get (get_or_none "id" location) location_cache = None ->
  enhance_location_data (H1 := clock_of (at_stamp (clock_at 0))) datasets
    (load_missing datasets models) location = (Ret enhanced, m1) ->
  _add_location_intelligence m1 (at_input (clock_at 0)) (at_peak (clock_at 0))
    (at_recommendations (clock_at 0)) enhanced = (Ret final, m2) ->
  exists original,
    (enhance_locations datasets clock_at [location] models location_cache).1.1
    = [final; original]
    /\ dict_get "enhanced_by_deepmind" final = Some (JBool true)
    /\ (forall k, k <> "connectivity" -> k <> "social" -> k <> "analytics" ->
                  dict_get k original = dict_get k location)
    /\ (forall k, k ∈ ["connectivity"; "social"; "analytics"] ->
                  is_Some (dict_get k location) ->
                  dict_get k original = dict_get k final).
Proof.
  intros Hname Hhash Hcache He Hf.
  pose proof (enhanced_name _ _ _ _ _ _ _ _ _ _ _ He Hf) as Hfinal_name.
  rewrite Hname in Hfinal_name.
  destruct (enhance_location_data_fields _ _ _ _ _ _ He) as (Hstamp & Hkeys & _).
  destruct (add_location_intelligence_ret _ _ _ _ _ _ _ Hf) as (_ & recs & _ & Hfinal).
  destruct (popularity_stage_other m1 (at_input (clock_at 0)) (at_peak (clock_at 0)) enhanced)
    as [Hpop Hpop_keep].
  eexists. split; [| split; [| split]].
  - unfold enhance_locations. cbn [enhance_loop]. unfold enhance_one.
    rewrite Hhash, Hcache. cbn [negb]. rewrite He, Hf, Hfinal_name.
    destruct (truthy _); reflexivity.
  - rewrite Hfinal, dict_get_set_ne by discriminate.
    now rewrite Hpop by discriminate.
  - intros k Hc Hs Ha. now apply written_back_other.
  - intros k Hk Hsome.
    assert (Hne : k <> "recommendations").
    { rewrite !elem_of_cons, elem_of_nil in Hk.
      destruct Hk as [-> | [-> | [-> | []]]]; discriminate. }
    rewrite Hfinal, dict_get_set_ne by exact Hne.
    apply written_back_section; [exact Hk | exact Hsome |].
    destruct (decide (k = "analytics")) as [-> | Hna].
    + apply Hpop_keep, Hkeys, Hsome.
    + rewrite Hpop by exact Hna. apply Hkeys, Hsome.
Qed.

Lemma unnamed_location_returned_twice_witness :
  exists original,
    (enhance_locations (H0 := empty_directory) (H1 := plain_format)
       ∅ (fun _ => at_noon) [unnamed_location] ∅ []).1.1
    = [dict_set "recommendations"
         (JList [recommendation "time" "Lunch Time Activity"
                   "It's lunch time! Popular dining spots nearby may be busy." "medium"])
         (stamp (H := clock_of noon) unnamed_location);
       original].
Proof.
  assert (He : enhance_location_data (H0 := empty_directory)
                 (H1 := clock_of (at_stamp at_noon)) ∅
                 (load_missing (H0 := empty_directory) ∅ ∅) unnamed_location
               = (Ret (stamp (H := clock_of noon) unnamed_location), ∅))
    by (vm_compute; reflexivity).
  assert (Hf : _add_location_intelligence (H0 := empty_directory) (H1 := plain_format)
                 ∅ (at_input at_noon) (at_peak at_noon) (at_recommendations at_noon)
                 (stamp (H := clock_of noon) unnamed_location)
               = (Ret (dict_set "recommendations"
                         (JList [recommendation "time" "Lunch Time Activity"
                                   "It's lunch time! Popular dining spots nearby may be busy."
                                   "medium"])
                         (stamp (H := clock_of noon) unnamed_location)), ∅))
    by (vm_compute; reflexivity).
  destruct (unnamed_location_returned_twice (H0 := empty_directory) (H1 := plain_format)
              ∅ (fun _ => at_noon) unnamed_location ∅ ∅ ∅ [] _ _
              eq_refl eq_refl eq_refl He Hf) as (original & Hout & _).
  exists original. exact Hout.
Defined.

(** X25: a second location with a cached identifier is not enhanced.  When a
    named location with a truthy identifier was enhanced, a later location of
    the list that carries the same identifier gets the entry of the first
    one, whatever its own data are. *)
Theorem cached_location_answered `{FileSystem} `{PyFormat} `{FL : Floats}
    (datasets : gmap string DatasetConfig) (clock_at : nat -> readings)
    (first_location second_location : dict) (models m1 m2 : gmap string bundle)
    (location_cache : cache) (enhanced final : dict) :
  get_or_none "id" second_location = get_or_none "id" first_location ->
  hashable (get_or_none "id" first_location) = true ->
  truthy (get_or_none "id" first_location) = true ->
  cache_get (get_or_none "id" first_location) location_cache = None ->
  dict_mem "name" first_location = true ->
  enhance_location_data (H1 := clock_of (at_stamp (clock_at 0))) datasets
    (load_missing datasets models) first_location = (Ret enhanced, m1) ->
  _add_location_intelligence m1 (at_input (clock_at 0)) (at_peak (clock_at 0))
    (at_recommendations (clock_at 0)) enhanced = (Ret final, m2) ->
  (enhance_locations datasets clock_at [first_location; second_location] models
     location_cache).1.1
  = [final; final].
Proof.
  intros Hid Hhash Htruthy Hcache Hname He Hf.
  pose proof (enhanced_name _ _ _ _ _ _ _ _ _ _ _ He Hf) as Hfinal_name.
  rewrite Hname in Hfinal_name.
  unfold enhance_locations. cbn [enhance_loop]. unfold enhance_one at 1.
  rewrite Hhash, Hcache. cbn [negb]. rewrite He, Hf, Hfinal_name, Htruthy.
  unfold enhance_one. rewrite Hid, Hhash. cbn [negb].
  rewrite (cache_get_set _ _ _ Hhash). reflexivity.
Qed.

Lemma cached_location_answered_witness :
  (enhance_locations (H0 := empty_directory) (H1 := plain_format)
     ∅ (fun _ => at_noon)
     [mock_location; [("id", JStr "loc_48.8566_2.3522"); ("name", JStr "Lutetia")]] ∅ []).1.1
  = [dict_set "recommendations"
       (JList [recommendation "weather" "Weather Alert"
                 "It's currently raining. Indoor activities recommended." "high";
               recommendation "social" "Positive Social Activity"
                 "This location is trending positively on social media." "low";
               recommendation "time" "Lunch Time Activity"
                 "It's lunch time! Popular dining spots nearby may be busy." "medium"])
       (stamp (H := clock_of noon) mock_location);
     dict_set "recommendations"
       (JList [recommendation "weather" "Weather Alert"
                 "It's currently raining. Indoor activities recommended." "high";
               recommendation "social" "Positive Social Activity"
                 "This location is trending positively on social media." "low";
               recommendation "time" "Lunch Time Activity"
                 "It's lunch time! Popular dining spots nearby may be busy." "medium"])
       (stamp (H := clock_of noon) mock_location)].
Proof.
  refine (cached_location_answered (H0 := empty_directory) (H1 := plain_format)
            ∅ (fun _ => at_noon) mock_location
            [("id", JStr "loc_48.8566_2.3522"); ("name", JStr "Lutetia")] ∅ ∅ ∅ []
            (stamp (H := clock_of noon) mock_location) _ _ _ _ _ _ _ _);
    vm_compute; reflexivity.
Defined.

(** X26: where the popularity goes.  When the entity has realtime data, a
    [location] model is registered and its prediction succeeds, the entity
    returned carries the prediction, its confidence and the three peak hours
    in [analytics], next to the fields [analytics] already had; an
    [analytics] that is not a dict is left as it is, and the failed write is
    not reported. *)
Theorem popularity_written `{FileSystem} `{PyFormat} `{FL : Floats}
    (models models' : gmap string bundle) (t1 t2 t3 : datetime) (location final : dict)
    (b : bundle) (location_input : dict) (prediction : json) (confidence : option Q) :
  dict_mem "realtimeData" location = true ->
  models !! "location" = Some b ->
  popularity_input (hour t1) location = Ret location_input ->
  predict_with b location_input = Ret (Prediction prediction confidence) ->
  _add_location_intelligence models t1 t2 t3 location = (Ret final, models') ->
  dict_get "analytics" final
  = match dict_get "analytics" location with
    | Some (JDict d) =>
        Some (JDict (dict_set "peak_hours"
                       (JList (hour_json <$> _predict_peak_hours (hour t2)))
                       (dict_set "popularity_confidence" (confidence_json confidence)
                          (dict_set "predicted_popularity" prediction d))))
    | Some v => Some v
    | None =>
        Some (JDict [("predicted_popularity", prediction);
                     ("popularity_confidence", confidence_json confidence);
                     ("peak_hours", JList (hour_json <$> _predict_peak_hours (hour t2)))])
    end.
Proof.
  intros Hrt Hb Hinput Hpredict Hrun.
  destruct (add_location_intelligence_ret _ _ _ _ _ _ _ Hrun) as (_ & recs & _ & ->).
  rewrite dict_get_set_ne by discriminate.
  unfold popularity_stage, add_popularity. rewrite Hrt, Hinput, Hb.
  pose proof (predict_registered _ models "location" b location_input Hb) as Hres.
  rewrite Hpredict in Hres.
  destruct (predict models "location" location_input) as [result m]. simpl in Hres.
  subst result.
  destruct (dict_get "analytics" location) as [[| x | x | x | x | d] |] eqn:Ha;
    unfold set_nested; rewrite ?Ha; cbn [mbind res_bind fst];
    rewrite ?dict_get_set_eq; cbn [mbind res_bind fst];
    rewrite ?dict_get_set_eq; cbn [mbind res_bind fst];
    rewrite ?Ha, ?dict_get_set_eq; reflexivity.
Qed.

Lemma popularity_written_witness :
  dict_get "analytics"
    (dict_set "recommendations"
       (JList [recommendation "weather" "Weather Alert"
                 "It's currently raining. Indoor activities recommended." "high";
               recommendation "social" "Positive Social Activity"
                 "This location is trending positively on social media." "low"])
       (dict_set "analytics"
          (JDict [("predicted_popularity", JNum 1);
                  ("popularity_confidence", JNull);
                  ("peak_hours", JList [hour_json 20; hour_json 9; hour_json 12])])
          mock_location))
  = Some (JDict [("predicted_popularity", JNum 1);
                 ("popularity_confidence", JNull);
                 ("peak_hours", JList (hour_json <$> _predict_peak_hours (hour evening)))]).
Proof.
  refine (popularity_written (H0 := empty_directory) (H1 := plain_format)
            {["location" := toy_bundle]} {["location" := toy_bundle]}
            evening evening evening mock_location _ toy_bundle _ (JNum 1) None
            _ _ _ _ _); vm_compute; reflexivity.
Defined.
